(** * Sale transaction and inventory allocation engine

    A shallow embedding of the three stock-moving handlers of
    [src/controllers/saleController.js] ([createSale], [cancelSale] and
    [returnProducts]) together with the Mongoose documents they read and
    write ([models/Batch.js], [models/Sale.js], [models/Product.js], ...),
    of the handlers that read a sale or update its payment
    ([getSaleById], [getSaleByInvoiceNumber], [updatePaymentStatus]) and
    of the virtual and the pre-save hook of the sale schema.

    The handlers are embedded twice.  The first embedding reads a
    JavaScript [Number] as an exact rational ([Q]); it carries the
    properties that do not hang on rounding: who may do what, what is
    rolled back, which documents are written, how stock is conserved.  The
    second embedding ([Ieee]) gives [createSale] and [returnProducts] with
    every [Number] an IEEE-754 double; it carries the statements that
    depend on what double arithmetic and [toFixed(2)] compute.

    Modelling conventions.
    - In the first embedding field-wise arithmetic facts are stated up to
      [Qeq] ([==]); in the second they are equalities of doubles.  "Nothing
      changed" facts are plain equalities of database states.
    - A MongoDB collection is a finite map from [_id] to document
      ([gmap ObjectId _]); embedded arrays ([sale.items]) are lists, because
      [Array.prototype.find] returns the first match.
    - A handler runs inside one session: it is a function from the database
      to either an early reply (every early [return] follows
      [session.abortTransaction()], or happens before anything was written)
      or a final reply with the working copy that [commitTransaction]
      publishes.
    - [Date.now()], [Math.random()] and freshly generated [_id]s are read
      from an explicit environment. *)

From Stdlib Require Import ZArith QArith Qround Qminmax Qabs Lia Lqa String Sorted
  SpecFloat.
From stdpp Require Import base option list gmap.

Set Default Proof Using "Type".
Local Open Scope Q_scope.

(** ** JavaScript values and the few primitives the handlers use *)

Module Js.

(** A JSON value as it arrives in [req.body]. *)
Inductive value :=
| Undefined
| Null
| Boolean (b : bool)
| Num (q : Q)
| Str (s : string).

(** Truthiness of a number: everything but zero (NaN never comes out of
    [JSON.parse]). *)
Definition truthyQ (q : Q) : bool := negb (Qeq_bool q 0).

(** [!!v] *)
Definition truthy (v : value) : bool :=
  match v with
  | Undefined | Null => false
  | Boolean b => b
  | Num q => truthyQ q
  | Str s => negb (String.eqb s "")
  end.

Definition leb (x y : Q) : bool := Qle_bool x y.
Definition ltb (x y : Q) : bool := negb (Qle_bool y x).
Definition gtb (x y : Q) : bool := ltb y x.

(** [Number.isInteger(v)] *)
Definition isInteger (v : value) : bool :=
  match v with
  | Num q => (Qnum q mod Z.pos (Qden q) =? 0)%Z
  | _ => false
  end.

(** [x || 0] for an optional number. *)
Definition orZero (x : option Q) : Q :=
  match x with
  | Some q => if truthyQ q then q else 0
  | None => 0
  end.

(** [v || 0] for a JSON value already known to be a number or
    [undefined]. *)
Definition numOrZero (v : value) : Q :=
  match v with
  | Num q => if truthyQ q then q else 0
  | _ => 0
  end.

(** [x || d] where [x] is a number and [d] may be [undefined]. *)
Definition orElse (x : Q) (d : option Q) : option Q :=
  if truthyQ x then Some x else d.

(** [parseFloat(x.toFixed(2))]: the nearest multiple of 0.01, ties away
    from zero. *)
Definition toFixed2 (x : Q) : Q :=
  let n := Qfloor (Qabs x * 100 + (1 # 2)) in
  Qred ((if Qle_bool 0 x then n else (- n)%Z) # 100).

(** [Math.abs(a - b) > 0.01] *)
Definition epsilon : Q := 1 # 100.
Definition discrepancy (calculated submitted : Q) : bool :=
  gtb (Qabs (calculated - submitted)) epsilon.

End Js.

(** ** Identifiers *)

Definition ObjectId := nat.
Bind Scope nat_scope with ObjectId.

(** An identifier as found in a request: either a well-formed ObjectId or
    something [mongoose.Types.ObjectId.isValid] rejects. *)
Inductive rawId :=
| WellFormed (i : ObjectId)
| Malformed.

Definition isValid (r : rawId) : bool :=
  match r with WellFormed _ => true | Malformed => false end.

(** ** Documents *)

Inductive Role := admin | owner | staff.

Definition Role_eqb (a b : Role) : bool :=
  match a, b with
  | admin, admin | owner, owner | staff, staff => true
  | _, _ => false
  end.

Module User.
Record t := mk { _id : ObjectId; role : Role }.
End User.

Module Store.
Record t := mk { owner : ObjectId; staff : list ObjectId }.
End Store.

(** A schema path that may be missing, explicitly [null], or set. *)
Inductive path (A : Type) :=
| Absent
| IsNull
| Present (a : A).
Arguments Absent {A}.
Arguments IsNull {A}.
Arguments Present {A} a.

(** The query condition [{ field: null }] matches a missing path too. *)
Definition matchesNull {A} (p : path A) : bool :=
  match p with Present _ => false | _ => true end.

Definition isNull {A} (p : path A) : bool :=
  match p with IsNull => true | _ => false end.

Module Customer.
Record t := mk {
  store : ObjectId;
  name : string;
  email : path string;        (* unique, sparse index *)
  phoneNumber : path string }.
End Customer.

(** [models/Product.js] declares no price path, so [product.sellingPrice]
    reads [undefined] on every stored product; the field is kept optional
    to follow the controller, which does read it. *)
Module Product.
Record t := mk {
  store : ObjectId;
  name : string;
  sellingPrice : option Q }.
End Product.

Module Batch.
Record t := mk {
  product : ObjectId;
  store : ObjectId;
  expiryDate : Z;
  sellingPrice : Q;
  currentStock : Q;
  initialStock : Q }.

(** [batch.currentStock = q] *)
Definition setStock (b : t) (q : Q) : t :=
  mk (product b) (store b) (expiryDate b) (sellingPrice b) q (initialStock b).
End Batch.

Module SaleItem.
Record t := mk {
  product : ObjectId;
  batch : ObjectId;
  quantity : Q;
  unitPrice : Q;
  discount : Q;
  subtotal : Q;
  returnedQuantity : Q }.

Definition setDiscount (i : t) (d : Q) : t :=
  mk (product i) (batch i) (quantity i) (unitPrice i) d (subtotal i)
     (returnedQuantity i).

Definition setReturned (i : t) (r : Q) : t :=
  mk (product i) (batch i) (quantity i) (unitPrice i) (discount i)
     (subtotal i) r.
End SaleItem.

Module ReturnRecord.
Record t := mk {
  date : Z;
  items : list (ObjectId * ObjectId * Q);
  reason : string;
  processedBy : ObjectId;
  refundAmount : Q }.
End ReturnRecord.

Module Payment.
Record t := mk { method : string; status : option string }.
End Payment.

(** [`INV-${Date.now()}-${Math.floor(Math.random() * 1000)}`] *)
Definition Invoice : Type := Z * nat.

Definition Invoice_eqb (a b : Invoice) : bool :=
  (a.1 =? b.1)%Z && (a.2 =? b.2)%nat.

(** The paths of [saleSchema] ([models/Sale.js]). *)
Module Sale.
Record t := mk {
  store : ObjectId;
  invoiceNumber : Invoice;
  customer : ObjectId;
  items : list SaleItem.t;
  subtotal : Q;
  discount : Q;
  tax : Q;
  total : Q;
  returnTotal : Q;
  finalTotal : Q;
  payment : Payment.t;
  staffMember : ObjectId;
  returns : list ReturnRecord.t;
  createdAt : Z }.
End Sale.

(** The object literal handed to [new Sale({...})] by [createSale]. *)
Module SaleInit.
Record t := mk {
  store : ObjectId;
  invoiceNumber : Invoice;
  customer : ObjectId;
  items : list SaleItem.t;
  subtotal : Q;
  discount : Q;
  discountAmount : Q;
  tax : Q;
  total : Q;
  finalTotal : Q;
  payment : Payment.t;
  staffMember : ObjectId;
  createdAt : Z }.
End SaleInit.

(** [payment] as [new Sale] keeps it: a missing [status] takes the
    schema's default, ["pending"]. *)
Definition withDefaultStatus (p : Payment.t) : Payment.t :=
  Payment.mk (Payment.method p)
             (Some (default "pending"%string (Payment.status p))).

(** [new Sale(init)]: Mongoose keeps the paths the schema declares (its
    default strict mode) and fills the declared defaults
    ([returnTotal: 0], [payment.status: "pending"], an empty [returns]
    array). *)
Definition newSale (i : SaleInit.t) : Sale.t :=
  Sale.mk (SaleInit.store i) (SaleInit.invoiceNumber i) (SaleInit.customer i)
          (SaleInit.items i) (SaleInit.subtotal i) (SaleInit.discount i)
          (SaleInit.tax i) (SaleInit.total i) 0 (SaleInit.finalTotal i)
          (withDefaultStatus (SaleInit.payment i))
          (SaleInit.staffMember i) [] (SaleInit.createdAt i).

(** ** The database and the ambient environment *)

Module DB.
Record t := mk {
  stores : gmap ObjectId Store.t;
  customers : gmap ObjectId Customer.t;
  products : gmap ObjectId Product.t;
  batches : gmap ObjectId Batch.t;
  sales : gmap ObjectId Sale.t }.

Definition setCustomers (d : t) (c : gmap ObjectId Customer.t) : t :=
  mk (stores d) c (products d) (batches d) (sales d).
Definition setBatches (d : t) (b : gmap ObjectId Batch.t) : t :=
  mk (stores d) (customers d) (products d) b (sales d).
Definition setSales (d : t) (s : gmap ObjectId Sale.t) : t :=
  mk (stores d) (customers d) (products d) (batches d) s.
End DB.

Module Env.
Record t := mk {
  stamp : Z;             (* Date.now() read for the invoice number *)
  random : nat;          (* Math.floor(Math.random() * 1000) *)
  now : Z;               (* new Date(), milliseconds since the epoch *)
  freshCustomer : ObjectId;
  freshSale : ObjectId }.
End Env.

(** ** Requests and responses *)

Module Req.
Record Item := mkItem {
  product : rawId;
  batch : option rawId;
  quantity : Js.value;
  unitPrice : option Q;
  price : option Q;
  discount : option Q }.

Record CreateSale := mkCreateSale {
  validationErrors : bool;      (* !validationResult(req).isEmpty() *)
  store : option rawId;
  customer : option rawId;
  items : option (list Item);   (* None: missing or not an array *)
  subtotal : Js.value;
  discountPct : Js.value;       (* body.discount, a percentage *)
  tax : Js.value;
  total : Js.value;
  payment : option Payment.t;
  forceCreate : bool }.

Record ReturnLine := mkReturnLine {
  productId : option rawId;
  batchId : option rawId;
  returnQuantity : Js.value }.

Record Return := mkReturn {
  returnValidationErrors : bool;
  saleId : rawId;
  storeId : option rawId;
  returnedItems : option (list ReturnLine);
  reason : option string }.
End Req.

(** One constructor per message the handlers send. *)
Inductive ErrorMsg :=
| ValidationErrors
| EmptyItems
| PaymentRequired
| AmountsNotNumbers
| StoreNotFound
| InvalidCustomerId
| CustomerNotFound
| CustomerWrongStore
| InvalidProductId
| InvalidQuantity
| ProductNotFound (p : ObjectId)
| NoAvailableBatches (p : ObjectId)
| InsufficientTotalStock (p : ObjectId) (available requested : Q)
| InvalidBatchId
| BatchNotFound (b : ObjectId)
| InsufficientBatchStock (p : ObjectId) (available requested : Q)
| AllocationFailed (p : ObjectId)
| SaleValidationError
| DuplicateKey
| InternalError
| InvalidSaleId
| SaleNotFound
| AssociatedStoreNotFound
| CancelForbidden
| CancelWindowExpired
| ReturnItemsRequired
| ReturnFieldsRequired
| InvalidReturnIds
| QuantityNotPositive
| InvalidStoreId
| ReturnForbidden
| ReturnWindowExpired
| ItemNotInSale (p b : ObjectId)
| ReturnExceedsPurchased (p : ObjectId)
| AlreadyReturned (p : ObjectId)
| ReturnBatchNotFound (b : ObjectId)
| ReturnProductNotFound (p : ObjectId).

(** An entry of [recalculatedValues.items]. *)
Module RecalcLine.
Record t := mk {
  productId : ObjectId;
  batchId : ObjectId;
  quantity : Q;
  unitPrice : Q;
  subtotal : Q;
  discount : Q }.
End RecalcLine.

(** [recalculatedValues] and [originalValues] of the recalculation reply. *)
Module Recalc.
Record t := mk {
  subtotal : Q;
  discountPercentage : Q;
  discountAmount : Q;
  tax : Q;
  total : Q;
  items : list RecalcLine.t;
  originalSubtotal : Q;
  originalTotal : Q }.
End Recalc.

(** An entry of [returnSummary]. *)
Module RefundLine.
Record t := mk {
  product : ObjectId;
  batch : ObjectId;
  returnedQuantity : Q;
  unitPrice : Q;
  discountPerUnit : Q;
  effectiveUnitPrice : Q;
  refundAmount : Q }.
End RefundLine.

(** The [data] of a successful return. *)
Module Refund.
Record t := mk {
  returnSummary : list RefundLine.t;
  totalRefundAmount : Q;
  updatedSaleTotal : Q }.
End Refund.

Inductive Response :=
| Failure (status : nat) (e : ErrorMsg)
| Recalculation (r : Recalc.t)            (* 200, recalculation: true *)
| SaleCreated (id : ObjectId) (s : Sale.t) (* 201 *)
| SaleCanceled                            (* 200 *)
| ProductsReturned (r : Refund.t).        (* 200 *)

Definition isFailure (r : Response) : bool :=
  match r with Failure _ _ => true | _ => false end.

(** ** One session: early replies discard the working copy *)

Inductive outcome (A : Type) :=
| Continue (a : A) (db : DB.t)
| Reply (r : Response).
Arguments Continue {A} a db.
Arguments Reply {A} r.

Definition Tx (A : Type) : Type := DB.t -> outcome A.

#[global] Instance Tx_ret : MRet Tx := λ A a db, Continue a db.
#[global] Instance Tx_bind : MBind Tx := λ A B f m db,
  match m db with
  | Continue a db' => f a db'
  | Reply r => Reply r
  end.

(** [await session.abortTransaction(); return res.status(..).json(..)] *)
Definition abort {A} (r : Response) : Tx A := λ _, Reply r.
Definition read {A} (f : DB.t -> A) : Tx A := λ db, Continue (f db) db.
Definition write (f : DB.t -> DB.t) : Tx unit := λ db, Continue tt (f db).

Definition check (b : bool) (r : Response) : Tx unit :=
  if b then mret tt else abort r.

Definition found {A} (o : option A) (r : Response) : Tx A :=
  match o with
  | Some a => mret a
  | None => abort r
  end.

(** The whole handler: the working copy is published only when the body
    runs to its end ([commitTransaction]). *)
Definition transaction (body : Tx Response) (db : DB.t) : Response * DB.t :=
  match body db with
  | Continue r db' => (r, db')
  | Reply r => (r, db)
  end.

(** [Model.findOne(cond)]: the first document, in collection order, that
    satisfies the condition. *)
Definition findOne {A} (cond : ObjectId -> A -> bool) (m : gmap ObjectId A)
  : option (ObjectId * A) :=
  head (List.filter (λ kv, cond kv.1 kv.2) (map_to_list m)).

(** [batch.save({ session })] after an assignment to [currentStock]. *)
Definition saveStock (id : ObjectId) (b : Batch.t) (q : Q) : Tx unit :=
  write (λ db, DB.setBatches db (<[id := Batch.setStock b q]> (DB.batches db))).

(** ** createSale *)

(** [.sort({ expiryDate: 1 })]: ascending, documents with equal dates kept
    in collection order. *)
Fixpoint insertByExpiry (x : ObjectId * Batch.t) (l : list (ObjectId * Batch.t))
  : list (ObjectId * Batch.t) :=
  match l with
  | [] => [x]
  | y :: l' =>
      if (Batch.expiryDate x.2 <=? Batch.expiryDate y.2)%Z
      then x :: l
      else y :: insertByExpiry x l'
  end.

Definition sortByExpiry (l : list (ObjectId * Batch.t)) : list (ObjectId * Batch.t) :=
  foldr insertByExpiry [] l.

(** The query condition
    [{ product, store, currentStock: { $gt: 0 } }]. *)
Definition eligible (p s : ObjectId) (kv : ObjectId * Batch.t) : bool :=
  (Batch.product kv.2 =? p)%nat && (Batch.store kv.2 =? s)%nat
  && Js.gtb (Batch.currentStock kv.2) 0.

Definition availableBatches (p s : ObjectId) (db : DB.t) : list (ObjectId * Batch.t) :=
  sortByExpiry (List.filter (eligible p s) (map_to_list (DB.batches db))).

(** [availableBatches.reduce((sum, batch) => sum + batch.currentStock, 0)] *)
Definition totalAvailableStock (l : list (ObjectId * Batch.t)) : Q :=
  fold_left (λ sum kv, sum + Batch.currentStock kv.2) l 0.

(** The running variables of the item loop.  [nan] records that some unit
    price resolved to [undefined], which turns every later sum into NaN. *)
Module Cart.
Record t := mk {
  processedItems : list SaleItem.t;
  calculatedSubtotal : Q;
  totalItemDiscount : Q;
  nan : bool }.

Definition empty : t := mk [] 0 0 false.
End Cart.

(** The variables of the inner allocation loop. *)
Module Alloc.
Record t := mk {
  remainingToAllocate : Q;
  allocations : list SaleItem.t;
  subtotalSoFar : Q;
  discountSoFar : Q;
  nanSoFar : bool }.
End Alloc.

(** An [undefined] price is recorded as 0 and flagged. *)
Definition priceValue (p : option Q) : Q := default 0 p.
Definition priceMissing (p : option Q) : bool :=
  match p with Some _ => false | None => true end.

(** What the checks that precede the item loop hand on. *)
Module Checked.
Record t := mk {
  items : list Req.Item;
  payment : Payment.t;
  subtotal : Q;
  total : Q;
  storeId : ObjectId;
  customerId : ObjectId }.
End Checked.

Section CreateSale.
Context (env : Env.t) (user : User.t).

(** [item.quantity] passes
    [!q || q <= 0 || !Number.isInteger(q)] exactly when it is a positive
    integer number; for anything that is not a number the third test
    already fails. *)
Definition saleQuantity (v : Js.value) : option Q :=
  match v with
  | Js.Num q =>
      if negb (Js.truthyQ q) || Js.leb q 0 || negb (Js.isInteger v)
      then None else Some q
  | _ => None
  end.

(** [item.discount ? (item.discount * quantityFromBatch) / item.quantity : 0] *)
Definition batchDiscount (d : option Q) (quantityFromBatch quantity : Q) : Q :=
  match d with
  | Some d => if Js.truthyQ d then d * quantityFromBatch / quantity else 0
  | None => 0
  end.

(** The [for (const batch of availableBatches)] loop. *)
Fixpoint allocate (p : ObjectId) (quantity : Q) (itemDiscount : option Q)
    (defaultEffectivePrice : option Q)
    (avail : list (ObjectId * Batch.t)) (st : Alloc.t) : Tx Alloc.t :=
  match avail with
  | [] => mret st
  | (id, batch) :: rest =>
      if Js.leb (Alloc.remainingToAllocate st) 0 then mret st
      else if Js.leb (Batch.currentStock batch) 0
      then allocate p quantity itemDiscount defaultEffectivePrice rest st
      else
        let quantityFromBatch :=
          Qmin (Batch.currentStock batch) (Alloc.remainingToAllocate st) in
        let batchPrice :=
          Js.orElse (Batch.sellingPrice batch) defaultEffectivePrice in
        let batchSubtotal := quantityFromBatch * priceValue batchPrice in
        let discount := batchDiscount itemDiscount quantityFromBatch quantity in
        let record :=
          SaleItem.mk p id quantityFromBatch (priceValue batchPrice)
                      discount batchSubtotal 0 in
        saveStock id batch (Batch.currentStock batch - quantityFromBatch);;
        allocate p quantity itemDiscount defaultEffectivePrice rest
          (Alloc.mk (Alloc.remainingToAllocate st - quantityFromBatch)
                    (Alloc.allocations st ++ [record])
                    (Alloc.subtotalSoFar st + batchSubtotal)
                    (Alloc.discountSoFar st + discount)
                    (Alloc.nanSoFar st || priceMissing batchPrice))
  end.

(** The branch [if (item.batch) { ... }]. *)
Definition allocateSpecified (p storeId : ObjectId) (quantity : Q)
    (itemDiscount : option Q) (defaultEffectivePrice : option Q)
    (raw : rawId) (cart : Cart.t) : Tx Cart.t :=
  match raw with
  | Malformed => abort (Failure 400 InvalidBatchId)
  | WellFormed b =>
      doc ← read (λ db, DB.batches db !! b);
      match doc with
      | Some specifiedBatch =>
          if (Batch.product specifiedBatch =? p)%nat
             && (Batch.store specifiedBatch =? storeId)%nat
          then
            if Js.ltb (Batch.currentStock specifiedBatch) quantity
            then abort (Failure 400
                   (InsufficientBatchStock p
                      (Batch.currentStock specifiedBatch) quantity))
            else
              let effectivePrice :=
                Js.orElse (Batch.sellingPrice specifiedBatch)
                          defaultEffectivePrice in
              let itemSubtotal := quantity * priceValue effectivePrice in
              let discount := Js.orZero itemDiscount in
              saveStock b specifiedBatch
                (Batch.currentStock specifiedBatch - quantity);;
              mret (Cart.mk
                (Cart.processedItems cart ++
                   [SaleItem.mk p b quantity (priceValue effectivePrice)
                                discount itemSubtotal 0])
                (Cart.calculatedSubtotal cart + itemSubtotal)
                (Cart.totalItemDiscount cart + discount)
                (Cart.nan cart || priceMissing effectivePrice))
          else abort (Failure 404 (BatchNotFound b))
      | None => abort (Failure 404 (BatchNotFound b))
      end
  end.

(** [itemPrice] and [defaultEffectivePrice]: the item's [unitPrice] (or
    [price]) when it is given and positive, the product's selling price
    otherwise. *)
Definition defaultPrice (item : Req.Item) (product : Product.t) : option Q :=
  let itemPrice :=
    match Req.unitPrice item with
    | Some u => Some u
    | None => Req.price item
    end in
  match itemPrice with
  | Some u => if Js.leb u 0 then Product.sellingPrice product else Some u
  | None => Product.sellingPrice product
  end.

(** The body of [for (const item of items)]. *)
Definition processItem (storeId : ObjectId) (cart : Cart.t) (item : Req.Item)
  : Tx Cart.t :=
  match Req.product item with
  | Malformed => abort (Failure 400 InvalidProductId)
  | WellFormed p =>
      quantity ← found (saleQuantity (Req.quantity item))
                       (Failure 400 InvalidQuantity);
      doc ← read (λ db, DB.products db !! p);
      product ← found
        (match doc with
         | Some d => if (Product.store d =? storeId)%nat then Some d else None
         | None => None
         end)
        (Failure 404 (ProductNotFound p));
      let defaultEffectivePrice := defaultPrice item product in
      avail ← read (availableBatches p storeId);
      check (negb (length avail =? 0)%nat) (Failure 400 (NoAvailableBatches p));;
      let total := totalAvailableStock avail in
      check (negb (Js.ltb total quantity))
            (Failure 400 (InsufficientTotalStock p total quantity));;
      match Req.batch item with
      | Some raw =>
          allocateSpecified p storeId quantity (Req.discount item)
                            defaultEffectivePrice raw cart
      | None =>
          st ← allocate p quantity (Req.discount item) defaultEffectivePrice
                 avail
                 (Alloc.mk quantity [] (Cart.calculatedSubtotal cart)
                           (Cart.totalItemDiscount cart) (Cart.nan cart));
          check (negb (Js.gtb (Alloc.remainingToAllocate st) 0))
                (Failure 500 (AllocationFailed p));;
          mret (Cart.mk (Cart.processedItems cart ++ Alloc.allocations st)
                        (Alloc.subtotalSoFar st) (Alloc.discountSoFar st)
                        (Alloc.nanSoFar st))
      end
  end.

Fixpoint processItems (storeId : ObjectId) (items : list Req.Item)
    (cart : Cart.t) : Tx Cart.t :=
  match items with
  | [] => mret cart
  | item :: rest =>
      cart' ← processItem storeId cart item;
      processItems storeId rest cart'
  end.

(** [Store.findOne({ owner })] for an owner, [Store.findById(store)]
    otherwise; a malformed id makes the query throw, which the [catch]
    block turns into a 500. *)
Definition resolveStore (store : option rawId) : Tx ObjectId :=
  match User.role user with
  | owner =>
      doc ← read (λ db,
        findOne (λ _ s, (Store.owner s =? User._id user)%nat) (DB.stores db));
      found (fst <$> doc) (Failure 404 StoreNotFound)
  | _ =>
      match store with
      | Some (WellFormed i) =>
          doc ← read (λ db, DB.stores db !! i);
          found (doc ≫= λ _, Some i) (Failure 404 StoreNotFound)
      | Some Malformed => abort (Failure 500 InternalError)
      | None => abort (Failure 404 StoreNotFound)
      end
  end.

Definition walkIn (storeId : ObjectId) : Customer.t :=
  Customer.mk storeId "Walk-in Customer" IsNull IsNull.

Definition isWalkIn (storeId : ObjectId) (c : Customer.t) : bool :=
  (Customer.store c =? storeId)%nat
  && String.eqb (Customer.name c) "Walk-in Customer"
  && matchesNull (Customer.email c)
  && matchesNull (Customer.phoneNumber c).

(** The customer named by the request, or the store's walk-in customer,
    created on first use.  Saving a second document with [email: null]
    violates the unique index on [email]; the [catch] block answers 409. *)
Definition resolveCustomer (storeId : ObjectId) (customer : option rawId)
  : Tx ObjectId :=
  match customer with
  | Some Malformed => abort (Failure 400 InvalidCustomerId)
  | Some (WellFormed c) =>
      doc ← read (λ db, DB.customers db !! c);
      customerDoc ← found doc (Failure 404 CustomerNotFound);
      check (Customer.store customerDoc =? storeId)%nat
            (Failure 400 CustomerWrongStore);;
      mret c
  | None =>
      existing ← read (λ db, findOne (λ _ c, isWalkIn storeId c) (DB.customers db));
      match existing with
      | Some (c, _) => mret c
      | None =>
          clash ← read (λ db,
            findOne (λ _ c, isNull (Customer.email c)) (DB.customers db));
          check (negb (bool_decide (is_Some clash))) (Failure 409 DuplicateKey);;
          write (λ db, DB.setCustomers db
                   (<[Env.freshCustomer env := walkIn storeId]> (DB.customers db)));;
          mret (Env.freshCustomer env)
      end
  end.

(** *** Price reconciliation *)

Definition cartDiscountAmount (pct calculatedSubtotal : Q) : Q :=
  if Js.gtb pct 0 then calculatedSubtotal * pct / 100 else 0.

Definition calculatedDiscountAmount (pct : Q) (cart : Cart.t) : Q :=
  if Js.gtb pct 0
  then Cart.totalItemDiscount cart
       + cartDiscountAmount pct (Cart.calculatedSubtotal cart)
  else Cart.totalItemDiscount cart.

(** [item.discount = (item.discount || 0) + cartDiscountAmount * proportion] *)
Definition withCartShare (cartDiscount calculatedSubtotal : Q)
    (item : SaleItem.t) : SaleItem.t :=
  let proportion := SaleItem.subtotal item / calculatedSubtotal in
  SaleItem.setDiscount item
    (Js.orZero (Some (SaleItem.discount item)) + cartDiscount * proportion).

Definition distribute (pct : Q) (cart : Cart.t) : list SaleItem.t :=
  if Js.gtb pct 0
  then map (withCartShare
              (cartDiscountAmount pct (Cart.calculatedSubtotal cart))
              (Cart.calculatedSubtotal cart))
           (Cart.processedItems cart)
  else Cart.processedItems cart.

(** A positive percentage on a zero subtotal divides by zero: every
    distributed share is NaN. *)
Definition shareNaN (pct : Q) (cart : Cart.t) : bool :=
  Js.gtb pct 0 && Qeq_bool (Cart.calculatedSubtotal cart) 0.

Definition calculatedTotal (pct tax : Q) (cart : Cart.t) : Q :=
  Cart.calculatedSubtotal cart - calculatedDiscountAmount pct cart + tax.

Definition recalcLine (nanShare : bool) (item : SaleItem.t) : RecalcLine.t :=
  RecalcLine.mk (SaleItem.product item) (SaleItem.batch item)
    (SaleItem.quantity item)
    (Js.toFixed2 (SaleItem.unitPrice item))
    (Js.toFixed2 (SaleItem.subtotal item))
    (if nanShare then 0
     else Js.toFixed2 (Js.orZero (Some (SaleItem.discount item)))).

Definition recalculation (pct tax subtotal total : Q) (cart : Cart.t)
  : Recalc.t :=
  Recalc.mk (Js.toFixed2 (Cart.calculatedSubtotal cart))
            pct
            (Js.toFixed2 (calculatedDiscountAmount pct cart))
            tax
            (Js.toFixed2 (calculatedTotal pct tax cart))
            (map (recalcLine (shareNaN pct cart)) (distribute pct cart))
            subtotal total.

(** The object literal of [new Sale({...})]. *)
Definition saleInit (storeId customerId : ObjectId) (forceCreate : bool)
    (pct tax subtotal total : Q) (payment : Payment.t) (cart : Cart.t)
  : SaleInit.t :=
  let finalSubtotal :=
    if forceCreate then Cart.calculatedSubtotal cart else subtotal in
  let finalTotal :=
    if forceCreate then calculatedTotal pct tax cart else total in
  let finalDiscountAmount :=
    if forceCreate then calculatedDiscountAmount pct cart
    else subtotal * (pct / 100) + Cart.totalItemDiscount cart in
  SaleInit.mk storeId (Env.stamp env, Env.random env) customerId
              (distribute pct cart)
              (Js.toFixed2 finalSubtotal)
              pct
              (Js.toFixed2 finalDiscountAmount)
              tax
              (Js.toFixed2 finalTotal)
              (Js.toFixed2 finalTotal)
              payment (User._id user) (Env.now env).

(** What [newSale.save()] validates against [saleSchema]: numbers must not
    be NaN, required prices must be present, and the payment enums must
    hold. *)
Definition methodAllowed (m : string) : bool :=
  String.eqb m "cash" || String.eqb m "card" || String.eqb m "mobileBanking".

Definition statusAllowed (s : option string) : bool :=
  match s with
  | None => true
  | Some s =>
      String.eqb s "pending" || String.eqb s "completed"
      || String.eqb s "failed"
  end.

Definition saleValidates (pct : Q) (payment : Payment.t) (cart : Cart.t) : bool :=
  negb (Cart.nan cart) && negb (shareNaN pct cart)
  && methodAllowed (Payment.method payment)
  && statusAllowed (Payment.status payment).

Definition invoiceTaken (inv : Invoice) (db : DB.t) : bool :=
  bool_decide (is_Some
    (findOne (λ _ s, Invoice_eqb (Sale.invoiceNumber s) inv) (DB.sales db))).

(** Everything before the item loop: request validation, the store and
    the customer. *)
Definition checkRequest (body : Req.CreateSale) : Tx Checked.t :=
  check (negb (Req.validationErrors body)) (Failure 400 ValidationErrors);;
  items ← found (match Req.items body with
                 | Some [] | None => None
                 | Some l => Some l
                 end) (Failure 400 EmptyItems);
  payment ← found (match Req.payment body with
                   | Some pay =>
                       if String.eqb (Payment.method pay) "" then None
                       else Some pay
                   | None => None
                   end) (Failure 400 PaymentRequired);
  '(subtotal, total) ← found
     (match Req.subtotal body, Req.total body,
            Req.discountPct body, Req.tax body with
      | Js.Num s, Js.Num t, (Js.Undefined | Js.Num _), (Js.Undefined | Js.Num _) =>
          Some (s, t)
      | _, _, _, _ => None
      end) (Failure 400 AmountsNotNumbers);
  storeId ← resolveStore (Req.store body);
  customerId ← resolveCustomer storeId (Req.customer body);
  mret (Checked.mk items payment subtotal total storeId customerId).

(** Everything after the item loop: cart discount, reconciliation against
    the submitted amounts, and the save.  ([req.user._id] is the id of a
    stored user, so the staff-member id check always passes.) *)
Definition settle (body : Req.CreateSale) (c : Checked.t) (cart : Cart.t)
  : Tx Response :=
  let pct := Js.numOrZero (Req.discountPct body) in
  let tax := Js.numOrZero (Req.tax body) in
  let subtotalDiscrepancy :=
    negb (Cart.nan cart)
    && Js.discrepancy (Cart.calculatedSubtotal cart) (Checked.subtotal c) in
  let totalDiscrepancy :=
    negb (Cart.nan cart)
    && Js.discrepancy (calculatedTotal pct tax cart) (Checked.total c) in
  if (subtotalDiscrepancy || totalDiscrepancy) && negb (Req.forceCreate body)
  then abort (Recalculation
                (recalculation pct tax (Checked.subtotal c) (Checked.total c) cart))
  else
    let init := saleInit (Checked.storeId c) (Checked.customerId c)
                         (Req.forceCreate body) pct tax
                         (Checked.subtotal c) (Checked.total c)
                         (Checked.payment c) cart in
    check (saleValidates pct (Checked.payment c) cart)
          (Failure 400 SaleValidationError);;
    taken ← read (invoiceTaken (SaleInit.invoiceNumber init));
    check (negb taken) (Failure 409 DuplicateKey);;
    write (λ db, DB.setSales db
             (<[Env.freshSale env := newSale init]> (DB.sales db)));;
    mret (SaleCreated (Env.freshSale env) (newSale init)).

Definition createSaleTx (body : Req.CreateSale) : Tx Response :=
  c ← checkRequest body;
  cart ← processItems (Checked.storeId c) (Checked.items c) Cart.empty;
  settle body c cart.

Definition createSale (body : Req.CreateSale) (db : DB.t) : Response * DB.t :=
  transaction (createSaleTx body) db.
End CreateSale.

(** ** cancelSale and returnProducts *)

Definition msPerDay : Z := 1000 * 60 * 60 * 24.

(** [(currentDate - saleDate) / (1000 * 60 * 60 * 24)] *)
Definition daysDifference (now createdAt : Z) : Q :=
  inject_Z (now - createdAt) / inject_Z msPerDay.

Definition RETURN_WINDOW_DAYS : Q := 30.

Section CancelSale.
Context (env : Env.t) (user : User.t).

(** [for (const item of sale.items)]: a batch that no longer exists is
    skipped. *)
Fixpoint restoreInventory (items : list SaleItem.t) : Tx unit :=
  match items with
  | [] => mret tt
  | item :: rest =>
      doc ← read (λ db, DB.batches db !! SaleItem.batch item);
      match doc with
      | Some batch =>
          saveStock (SaleItem.batch item) batch
                    (Batch.currentStock batch + SaleItem.quantity item)
      | None => mret tt
      end;;
      restoreInventory rest
  end.

Definition cancelSaleTx (saleId : rawId) : Tx Response :=
  match saleId with
  | Malformed => abort (Failure 400 InvalidSaleId)
  | WellFormed id =>
      doc ← read (λ db, DB.sales db !! id);
      sale ← found doc (Failure 404 SaleNotFound);
      sdoc ← read (λ db, DB.stores db !! Sale.store sale);
      store ← found sdoc (Failure 404 AssociatedStoreNotFound);
      let isStoreOwner := (Store.owner store =? User._id user)%nat in
      let isAdmin := Role_eqb (User.role user) admin in
      check (isStoreOwner || isAdmin) (Failure 403 CancelForbidden);;
      check (negb (Js.gtb (daysDifference (Env.now env) (Sale.createdAt sale)) 7))
            (Failure 400 CancelWindowExpired);;
      restoreInventory (Sale.items sale);;
      write (λ db, DB.setSales db (delete id (DB.sales db)));;
      mret SaleCanceled
  end.

Definition cancelSale (saleId : rawId) (db : DB.t) : Response * DB.t :=
  transaction (cancelSaleTx saleId) db.
End CancelSale.

(** The variables of the return loop: the sale's items as held in memory,
    the summary and the refund so far. *)
Module Ret.
Record t := mk {
  items : list SaleItem.t;
  returnSummary : list RefundLine.t;
  totalRefundAmount : Q }.
End Ret.

Section ReturnProducts.
Context (env : Env.t) (user : User.t).

(** The first loop over [returnedItems]: required fields, id formats, and
    [typeof item.quantity !== "number" || item.quantity <= 0]. *)
Definition validateLine (l : Req.ReturnLine)
  : ErrorMsg + (ObjectId * ObjectId * Q) :=
  match Req.productId l, Req.batchId l with
  | Some p, Some b =>
      if negb (Js.truthy (Req.returnQuantity l)) then inl ReturnFieldsRequired
      else
        match p, b with
        | WellFormed p, WellFormed b =>
            match Req.returnQuantity l with
            | Js.Num q =>
                if Js.leb q 0 then inl QuantityNotPositive
                else inr (p, b, q)
            | _ => inl QuantityNotPositive
            end
        | _, _ => inl InvalidReturnIds
        end
  | _, _ => inl ReturnFieldsRequired
  end.

Fixpoint validateLines (ls : list Req.ReturnLine)
  : ErrorMsg + list (ObjectId * ObjectId * Q) :=
  match ls with
  | [] => inr []
  | l :: rest =>
      match validateLine l with
      | inl e => inl e
      | inr x =>
          match validateLines rest with
          | inl e => inl e
          | inr xs => inr (x :: xs)
          end
      end
  end.

(** [sale.items.find(item => item.product == productId && item.batch == batchId)] *)
Definition findItem (p b : ObjectId) (items : list SaleItem.t)
  : option (nat * SaleItem.t) :=
  list_find (λ it, SaleItem.product it = p ∧ SaleItem.batch it = b) items.

(** [originalItem.discount ? originalItem.discount / originalItem.quantity : 0] *)
Definition discountPerUnit (it : SaleItem.t) : Q :=
  if Js.truthyQ (SaleItem.discount it)
  then SaleItem.discount it / SaleItem.quantity it
  else 0.

Definition effectiveUnitPrice (it : SaleItem.t) : Q :=
  SaleItem.unitPrice it - discountPerUnit it.

Definition itemRefundAmount (it : SaleItem.t) (q : Q) : Q :=
  effectiveUnitPrice it * q.

(** The body of [for (const returnItem of returnedItems)]. *)
Definition returnLine (st : Ret.t) (line : ObjectId * ObjectId * Q) : Tx Ret.t :=
  let '(p, b, q) := line in
  '(i, originalItem) ← found (findItem p b (Ret.items st))
                             (Failure 400 (ItemNotInSale p b));
  check (negb (Js.gtb q (SaleItem.quantity originalItem)))
        (Failure 400 (ReturnExceedsPurchased p));;
  check (negb (Js.truthyQ (SaleItem.returnedQuantity originalItem)
               && Js.gtb (SaleItem.returnedQuantity originalItem + q)
                         (SaleItem.quantity originalItem)))
        (Failure 400 (AlreadyReturned p));;
  doc ← read (λ db, DB.batches db !! b);
  batch ← found doc (Failure 404 (ReturnBatchNotFound b));
  saveStock b batch (Batch.currentStock batch + q);;
  pdoc ← read (λ db, DB.products db !! p);
  _ ← found pdoc (Failure 404 (ReturnProductNotFound p));
  let refund := itemRefundAmount originalItem q in
  let returned :=
    Js.orZero (Some (SaleItem.returnedQuantity originalItem)) + q in
  mret (Ret.mk
    (<[i := SaleItem.setReturned originalItem returned]> (Ret.items st))
    (Ret.returnSummary st ++
       [RefundLine.mk p b q (SaleItem.unitPrice originalItem)
          (discountPerUnit originalItem) (effectiveUnitPrice originalItem)
          refund])
    (Ret.totalRefundAmount st + refund)).

Fixpoint returnLines (lines : list (ObjectId * ObjectId * Q)) (st : Ret.t)
  : Tx Ret.t :=
  match lines with
  | [] => mret st
  | line :: rest =>
      st' ← returnLine st line;
      returnLines rest st'
  end.

(** The sale as saved at the end of a return. *)
Definition returnedSale (sale : Sale.t) (lines : list (ObjectId * ObjectId * Q))
    (reason : option string) (st : Ret.t) : Sale.t :=
  let record :=
    ReturnRecord.mk (Env.now env) lines
      (match reason with
       | Some r => if String.eqb r "" then "No reason provided" else r
       | None => "No reason provided"
       end)
      (User._id user) (Ret.totalRefundAmount st) in
  let returnTotal :=
    Js.orZero (Some (Sale.returnTotal sale)) + Ret.totalRefundAmount st in
  Sale.mk (Sale.store sale) (Sale.invoiceNumber sale) (Sale.customer sale)
          (Ret.items st) (Sale.subtotal sale) (Sale.discount sale)
          (Sale.tax sale) (Sale.total sale)
          returnTotal
          (Sale.total sale - Js.orZero (Some returnTotal))
          (Sale.payment sale) (Sale.staffMember sale)
          (Sale.returns sale ++ [record]) (Sale.createdAt sale).

Definition returnProductsTx (body : Req.Return) : Tx Response :=
  check (negb (Req.returnValidationErrors body)) (Failure 400 ValidationErrors);;
  id ← found (match Req.saleId body with
              | WellFormed i => Some i
              | Malformed => None
              end) (Failure 400 InvalidSaleId);
  storeFilter ← match Req.storeId body with
                | Some Malformed => abort (Failure 400 InvalidStoreId)
                | Some (WellFormed s) => mret (Some s)
                | None => mret None
                end;
  raw ← found (match Req.returnedItems body with
               | Some [] | None => None
               | Some l => Some l
               end) (Failure 400 ReturnItemsRequired);
  lines ← match validateLines raw with
          | inl e => abort (Failure 400 e)
          | inr ls => mret ls
          end;
  doc ← read (λ db, DB.sales db !! id);
  sale ← found
    (match doc, storeFilter with
     | Some s, Some f => if (Sale.store s =? f)%nat then Some s else None
     | d, None => d
     | None, _ => None
     end) (Failure 404 SaleNotFound);
  sdoc ← read (λ db, DB.stores db !! Sale.store sale);
  storeDoc ← found sdoc (Failure 404 StoreNotFound);
  let isStoreOwner := (Store.owner storeDoc =? User._id user)%nat in
  let isStoreStaff :=
    existsb (λ staffId, (staffId =? User._id user)%nat) (Store.staff storeDoc) in
  let isAdmin := Role_eqb (User.role user) admin in
  check (isStoreOwner || isStoreStaff || isAdmin) (Failure 403 ReturnForbidden);;
  check (negb (Js.gtb (daysDifference (Env.now env) (Sale.createdAt sale))
                      RETURN_WINDOW_DAYS))
        (Failure 400 ReturnWindowExpired);;
  st ← returnLines lines (Ret.mk (Sale.items sale) [] 0);
  let sale' := returnedSale sale lines (Req.reason body) st in
  write (λ db, DB.setSales db (<[id := sale']> (DB.sales db)));;
  mret (ProductsReturned
          (Refund.mk (Ret.returnSummary st) (Ret.totalRefundAmount st)
                     (Sale.finalTotal sale'))).

Definition returnProducts (body : Req.Return) (db : DB.t) : Response * DB.t :=
  transaction (returnProductsTx body) db.
End ReturnProducts.

(** ** The allocation rule in the specification's words *)

(** Walk the batches oldest expiry first and take
    [min(batch.currentStock, remaining)] from each, until nothing remains. *)
Fixpoint fefo (avail : list (ObjectId * Batch.t)) (remaining : Q)
  : list (ObjectId * Q) :=
  match avail with
  | [] => []
  | (id, batch) :: rest =>
      if Js.leb remaining 0 then []
      else
        let take := Qmin (Batch.currentStock batch) remaining in
        (id, take) :: fefo rest (remaining - take)
  end.

Definition allocated (it : SaleItem.t) : ObjectId * Q :=
  (SaleItem.batch it, SaleItem.quantity it).

(** Sum of the quantities a list of sale items holds on batch [b]. *)
Fixpoint quantityOn (b : ObjectId) (items : list SaleItem.t) : Q :=
  match items with
  | [] => 0
  | it :: rest =>
      (if (SaleItem.batch it =? b)%nat then SaleItem.quantity it else 0)
      + quantityOn b rest
  end.

(** Sum of the quantities a list of validated return lines puts back on
    batch [b]. *)
Fixpoint returnedOn (b : ObjectId) (lines : list (ObjectId * ObjectId * Q)) : Q :=
  match lines with
  | [] => 0
  | (_, b', q) :: rest => (if (b' =? b)%nat then q else 0) + returnedOn b rest
  end.

(** Batch [y] is batch [x] with [d] more units in stock. *)
Definition restocked (d : Q) (x y : option Batch.t) : Prop :=
  match x, y with
  | Some bx, Some by' =>
      by' = Batch.setStock bx (Batch.currentStock by')
      ∧ Batch.currentStock by' == Batch.currentStock bx + d
  | None, None => True
  | _, _ => False
  end.

Definition totalRefund (l : list RefundLine.t) : Q :=
  foldr (λ x acc, RefundLine.refundAmount x + acc) 0 l.

(** ** Kinds of replies *)

Definition isCreated (r : Response) : Prop := ∃ id s, r = SaleCreated id s.

(** The 400 reply of the two stock guards that precede allocation:
    "No available batches with stock" when the query returns nothing,
    "Insufficient total stock" otherwise. *)
Definition shortage (p : ObjectId) (avail : list (ObjectId * Batch.t))
    (quantity : Q) : Response :=
  Failure 400
    (match avail with
     | [] => NoAvailableBatches p
     | _ => InsufficientTotalStock p (totalAvailableStock avail) quantity
     end).



(** Two databases that differ at most in their batches. *)
Definition sameButBatches (db db' : DB.t) : Prop :=
  DB.stores db' = DB.stores db ∧ DB.customers db' = DB.customers db
  ∧ DB.products db' = DB.products db ∧ DB.sales db' = DB.sales db.

Definition isReturned (r : Response) : Prop := ∃ x, r = ProductsReturned x.

(** The in-memory items of a sale only ever change in their returned
    quantity, which grows. *)
Definition grown (items items' : list SaleItem.t) : Prop :=
  Forall2 (λ a b,
             SaleItem.product b = SaleItem.product a
             ∧ SaleItem.batch b = SaleItem.batch a
             ∧ SaleItem.quantity b = SaleItem.quantity a
             ∧ SaleItem.returnedQuantity a <= SaleItem.returnedQuantity b)
          items items'.

(** A session all of whose early replies are failures. *)
Definition failsOnly {A} (m : Tx A) : Prop :=
  ∀ db r, m db = Reply r → isFailure r = true.

(** No batch holds a negative stock, and no sale item a negative
    quantity. *)
Definition stocksNonneg (db : DB.t) : Prop :=
  ∀ b batch, DB.batches db !! b = Some batch → 0 <= Batch.currentStock batch.

Definition quantitiesNonneg (db : DB.t) : Prop :=
  ∀ id sale, DB.sales db !! id = Some sale →
    Forall (λ it, 0 <= SaleItem.quantity it) (Sale.items sale).

(** [isStoreOwner || isAdmin] of [cancelSale]. *)
Definition mayCancel (user : User.t) (store : Store.t) : Prop :=
  Store.owner store = User._id user ∨ User.role user = admin.

(** ** Concrete scenarios *)

Module Scenario.

(** Dates are milliseconds since the epoch. *)
Definition jan_1_2025 : Z := 1735689600000.
Definition jun_1_2025 : Z := 1748736000000.
Definition day : Z := msPerDay.

Definition theStore : ObjectId := 1.
Definition P : ObjectId := 1.
Definition idB1 : ObjectId := 11.
Definition idB2 : ObjectId := 12.
Definition theOwner : User.t := User.mk 7 owner.
Definition aClerk : User.t := User.mk 8 staff.

Definition B1 : Batch.t := Batch.mk P theStore jan_1_2025 10 5 5.
Definition B2 : Batch.t := Batch.mk P theStore jun_1_2025 12 10 10.

Definition stock (batches : list (ObjectId * Batch.t)) : DB.t :=
  DB.mk {[ theStore := Store.mk 7 [8%nat] ]} ∅
        {[ P := Product.mk theStore "P" None ]}
        (list_to_map batches) ∅.

Definition db0 : DB.t := stock [(idB1, B1); (idB2, B2)].

Definition at_ (t : Z) : Env.t := Env.mk t 42 t 100 200.
Definition env0 : Env.t := at_ 0.

Definition cash : option Payment.t := Some (Payment.mk "cash" None).

Definition line (batch : option rawId) (q : Q) : Req.Item :=
  Req.mkItem (WellFormed P) batch (Js.Num q) None None None.

Definition order (items : list Req.Item) (subtotal total : Q) (pct : Js.value)
    (force : bool) : Req.CreateSale :=
  Req.mkCreateSale false None None (Some items) (Js.Num subtotal) pct
                   Js.Undefined (Js.Num total) cash force.

(** Eight units, no batch named, no discount; the client's totals agree. *)
Definition eightUnits : Req.CreateSale :=
  order [line None 8] 86 86 Js.Undefined false.

Definition db1 : DB.t := (createSale env0 theOwner eightUnits db0).2.

Definition giveBack (b : ObjectId) (q : Q) : Req.Return :=
  Req.mkReturn false (WellFormed 200) None
    (Some [Req.mkReturnLine (Some (WellFormed P)) (Some (WellFormed b)) (Js.Num q)])
    None.

(** Two of the three units taken from B2 come back the next day. *)
Definition db2 : DB.t := (returnProducts (at_ day) aClerk (giveBack idB2 2) db1).2.

(** One lot of ten; five are sold, two come back, then the sale is
    canceled. *)
Definition lot : Batch.t := Batch.mk P theStore jun_1_2025 10 10 10.
Definition dbLot : DB.t := stock [(idB1, lot)].
Definition fiveUnits : Req.CreateSale :=
  order [line None 5] 50 50 Js.Undefined false.
Definition dbSold : DB.t := (createSale env0 theOwner fiveUnits dbLot).2.
Definition dbBack : DB.t :=
  (returnProducts (at_ day) aClerk (giveBack idB1 2) dbSold).2.
Definition dbCanceled : DB.t :=
  (cancelSale (at_ (2 * day)) theOwner (WellFormed 200) dbBack).2.


(** What the request checks hand on for an [order], and the working copy
    once the walk-in customer has been created. *)
Definition checked (items : list Req.Item) (subtotal total : Q) : Checked.t :=
  Checked.mk items (Payment.mk "cash" None) subtotal total theStore 100.
Definition withWalkIn (db : DB.t) : DB.t :=
  DB.setCustomers db {[ 100%nat := walkIn theStore ]}.


(** Three units, then nine more than the rest can cover. *)
Definition twoLines : Req.CreateSale :=
  order [line None 3; line None 13] 0 0 Js.Undefined false.

(** One unit at 9.99 with a 15 % cart discount, forced through. *)
Definition cheap : Batch.t := Batch.mk P theStore jun_1_2025 (999 # 100) 10 10.
Definition dbCheap : DB.t := stock [(idB1, cheap)].
Definition forced : Req.CreateSale :=
  order [line None 1] 0 0 (Js.Num 15) true.

End Scenario.

(** ** Reading a sale and updating its payment *)

(** One constructor per message of [getSaleById], [getSaleByInvoiceNumber]
    and [updatePaymentStatus]. *)
Inductive Refusal :=
| RequestInvalid          (* the errors of validationResult(req) *)
| SaleIdInvalid           (* "Invalid sale ID" *)
| StoreIdInvalid          (* "Invalid store ID" *)
| InvoiceNumberRequired
| NoSuchSale
| NoSuchInvoice           (* "... with the provided invoice number" *)
| NoSuchInvoiceInStore    (* "... in the specified store" *)
| NoAssociatedStore
| ViewForbidden
| UpdateForbidden
| PaymentStatusInvalid
| FetchFailed.            (* the catch block *)

Inductive Answer (A : Type) :=
| Refused (status : nat) (why : Refusal)
| Done (a : A).
Arguments Refused {A} status why.
Arguments Done {A} a.

(** [isStoreOwner || isStoreStaff || isAdmin] as the three handlers
    compute it. *)
Definition canAccess (user : User.t) (store : Store.t) : bool :=
  let isStoreOwner := (Store.owner store =? User._id user)%nat in
  let isStoreStaff :=
    existsb (λ staffId, (staffId =? User._id user)%nat) (Store.staff store) in
  let isAdmin := Role_eqb (User.role user) admin in
  isStoreOwner || isStoreStaff || isAdmin.

(** [getSaleById].  The sale is loaded with [.populate("store", ...)], so
    for a sale whose store document is gone [sale.store] is [null] and
    reading [sale.store._id] throws: the [catch] block answers 500 before
    the "Associated store not found" test is reached. *)
Definition getSaleById (user : User.t) (saleId : rawId) (db : DB.t)
  : Answer Sale.t :=
  match saleId with
  | Malformed => Refused 400 SaleIdInvalid
  | WellFormed id =>
      match DB.sales db !! id with
      | None => Refused 404 NoSuchSale
      | Some sale =>
          match DB.stores db !! Sale.store sale with
          | None => Refused 500 FetchFailed
          | Some store =>
              if canAccess user store then Done sale
              else Refused 403 ViewForbidden
          end
      end
  end.

(** [req.params.invoiceNumber]: empty, a text that is no invoice number of
    this application, or one of its invoice numbers. *)
Inductive InvoiceParam :=
| EmptyParam
| OtherText
| InvoiceText (inv : Invoice).

(** An element of [itemsWithDetails]. *)
Module ItemDetails.
Record t := mk {
  item : SaleItem.t;
  remainingQuantity : Q;
  discountPerUnit : Q;
  effectiveUnitPrice : Q;
  potentialRefundAmount : Q }.
End ItemDetails.

(** [responseData] of [getSaleByInvoiceNumber]. *)
Module SaleView.
Record t := mk {
  _id : ObjectId;
  sale : Sale.t;
  items : list ItemDetails.t;
  daysLimit : Q;
  eligibleForReturn : bool }.
End SaleView.

(** The callback of [sale.items.map(...)]. *)
Definition itemWithDetails (item : SaleItem.t) : ItemDetails.t :=
  let remainingQuantity :=
    SaleItem.quantity item - Js.orZero (Some (SaleItem.returnedQuantity item)) in
  let discountPerUnit :=
    if Js.truthyQ (SaleItem.discount item)
    then SaleItem.discount item / SaleItem.quantity item
    else 0 in
  let effectiveUnitPrice := SaleItem.unitPrice item - discountPerUnit in
  ItemDetails.mk item remainingQuantity discountPerUnit effectiveUnitPrice
                 (effectiveUnitPrice * remainingQuantity).

(** The query [{ invoiceNumber }], with [store] added when [storeId] is
    given. *)
Definition invoiceQuery (inv : Invoice) (storeFilter : option ObjectId)
    (sale : Sale.t) : bool :=
  Invoice_eqb (Sale.invoiceNumber sale) inv
  && match storeFilter with
     | Some s => (Sale.store sale =? s)%nat
     | None => true
     end.

Section GetSaleByInvoiceNumber.
Context (env : Env.t) (user : User.t).

Definition saleView (id : ObjectId) (sale : Sale.t) : SaleView.t :=
  SaleView.mk id sale (map itemWithDetails (Sale.items sale)) 30
    (Js.leb (daysDifference (Env.now env) (Sale.createdAt sale)) 30).

(** As in [getSaleById], the populated [sale.store] of a sale without
    store document is [null], and [sale.store._id] throws. *)
Definition getSaleByInvoiceNumber (invoiceNumber : InvoiceParam)
    (storeId : option rawId) (db : DB.t) : Answer SaleView.t :=
  match invoiceNumber with
  | EmptyParam => Refused 400 InvoiceNumberRequired
  | _ =>
      match storeId with
      | Some Malformed => Refused 400 StoreIdInvalid
      | _ =>
          let storeFilter :=
            match storeId with
            | Some (WellFormed s) => Some s
            | _ => None
            end in
          let doc :=
            match invoiceNumber with
            | InvoiceText inv =>
                findOne (λ _ s, invoiceQuery inv storeFilter s) (DB.sales db)
            | _ => None
            end in
          match doc with
          | None =>
              Refused 404 (match storeFilter with
                           | Some _ => NoSuchInvoiceInStore
                           | None => NoSuchInvoice
                           end)
          | Some (id, sale) =>
              match DB.stores db !! Sale.store sale with
              | None => Refused 500 FetchFailed
              | Some store =>
                  if canAccess user store then Done (saleView id sale)
                  else Refused 403 ViewForbidden
              end
          end
      end
  end.
End GetSaleByInvoiceNumber.

(** The sales together with [payment.transactionId], the one path of
    [saleSchema] that only [updatePaymentStatus] writes; it is kept beside
    the sale documents, keyed by the sale's [_id]. *)
Module Records.
Record t := mk {
  db : DB.t;
  transactionIds : gmap ObjectId string }.
End Records.

(** [req.params.id] and [req.body] of [updatePaymentStatus]. *)
Module PaymentUpdate.
Record t := mk {
  validationErrors : bool;
  saleId : rawId;
  status : option string;          (* None: missing, or not a string *)
  transactionId : option string }.
End PaymentUpdate.

(** [["pending", "completed", "failed"].includes(status)] *)
Definition statusListed (status : option string) : bool :=
  match status with
  | Some s =>
      String.eqb s "pending" || String.eqb s "completed" || String.eqb s "failed"
  | None => false
  end.

(** [{ $set: { "payment.status": status } }] on one document. *)
Definition setPaymentStatus (sale : Sale.t) (status : option string) : Sale.t :=
  Sale.mk (Sale.store sale) (Sale.invoiceNumber sale) (Sale.customer sale)
          (Sale.items sale) (Sale.subtotal sale) (Sale.discount sale)
          (Sale.tax sale) (Sale.total sale) (Sale.returnTotal sale)
          (Sale.finalTotal sale)
          (Payment.mk (Payment.method (Sale.payment sale)) status)
          (Sale.staffMember sale) (Sale.returns sale) (Sale.createdAt sale).

(** [updatePaymentStatus]: no session here, the one write is
    [Sale.findByIdAndUpdate]. *)
Definition updatePaymentStatus (user : User.t) (req : PaymentUpdate.t)
    (r : Records.t) : Answer Sale.t * Records.t :=
  if PaymentUpdate.validationErrors req then (Refused 400 RequestInvalid, r)
  else
    match PaymentUpdate.saleId req with
    | Malformed => (Refused 400 SaleIdInvalid, r)
    | WellFormed id =>
        match DB.sales (Records.db r) !! id with
        | None => (Refused 404 NoSuchSale, r)
        | Some sale =>
            match DB.stores (Records.db r) !! Sale.store sale with
            | None => (Refused 404 NoAssociatedStore, r)
            | Some store =>
                if negb (canAccess user store)
                then (Refused 403 UpdateForbidden, r)
                else if negb (statusListed (PaymentUpdate.status req))
                then (Refused 400 PaymentStatusInvalid, r)
                else
                  let updatedSale :=
                    setPaymentStatus sale (PaymentUpdate.status req) in
                  let transactionIds :=
                    match PaymentUpdate.transactionId req with
                    | Some t =>
                        if String.eqb t "" then Records.transactionIds r
                        else <[id := t]> (Records.transactionIds r)
                    | None => Records.transactionIds r
                    end in
                  (Done updatedSale,
                   Records.mk
                     (DB.setSales (Records.db r)
                        (<[id := updatedSale]> (DB.sales (Records.db r))))
                     transactionIds)
            end
        end
    end.

(** ** Virtuals and hooks of [saleSchema] *)

(** The virtual [remainingItems]: every item with its
    [remainingQuantity]. *)
Definition remainingQuantity (item : SaleItem.t) : Q :=
  SaleItem.quantity item - Js.orZero (Some (SaleItem.returnedQuantity item)).

Definition remainingItems (sale : Sale.t) : list (SaleItem.t * Q) :=
  map (λ item, (item, remainingQuantity item)) (Sale.items sale).

Definition setFinalTotal (sale : Sale.t) (q : Q) : Sale.t :=
  Sale.mk (Sale.store sale) (Sale.invoiceNumber sale) (Sale.customer sale)
          (Sale.items sale) (Sale.subtotal sale) (Sale.discount sale)
          (Sale.tax sale) (Sale.total sale) (Sale.returnTotal sale) q
          (Sale.payment sale) (Sale.staffMember sale) (Sale.returns sale)
          (Sale.createdAt sale).

(** [saleSchema.pre("save", ...)]; [returnTotalModified] is
    [this.isModified("returnTotal")]. *)
Definition preSave (returnTotalModified : bool) (sale : Sale.t) : Sale.t :=
  if returnTotalModified || negb (Js.truthyQ (Sale.finalTotal sale))
  then setFinalTotal sale
         (Sale.total sale - Js.orZero (Some (Sale.returnTotal sale)))
  else sale.

(** ** Invariants and measures used in the statements *)

Definition sumOf {A} (f : A → Q) (l : list A) : Q :=
  foldr (λ x acc, f x + acc) 0 l.








(** The enums of [payment.method] and [payment.status] hold in every
    stored sale, which has a status. *)
Definition paymentValid (sale : Sale.t) : Prop :=
  methodAllowed (Payment.method (Sale.payment sale)) = true
  ∧ statusListed (Payment.status (Sale.payment sale)) = true.

Definition paymentsValid (db : DB.t) : Prop :=
  ∀ id sale, DB.sales db !! id = Some sale → paymentValid sale.

(** No two sales carry the same invoice number. *)
Definition invoicesUnique (db : DB.t) : Prop :=
  ∀ i j s t, DB.sales db !! i = Some s → DB.sales db !! j = Some t →
    Sale.invoiceNumber s = Sale.invoiceNumber t → i = j.

(** Sale [b] is sale [a] up to the representation of [finalTotal]. *)
Definition sameSale (a b : Sale.t) : Prop :=
  b = setFinalTotal a (Sale.finalTotal b)
  ∧ Sale.finalTotal b == Sale.finalTotal a.

(** Items [items'] are [items] with some returned quantities raised and
    nothing else touched. *)
Definition onlyReturned (items items' : list SaleItem.t) : Prop :=
  Forall2 (λ a b,
             b = SaleItem.setReturned a (SaleItem.returnedQuantity b)
             ∧ SaleItem.returnedQuantity a <= SaleItem.returnedQuantity b)
          items items'.

(** A record the item loop pushes for product [p]. *)
Definition recordOf (p : ObjectId) (it : SaleItem.t) : Prop :=
  SaleItem.product it = p
  ∧ 0 < SaleItem.quantity it
  ∧ SaleItem.returnedQuantity it = 0
  ∧ SaleItem.subtotal it = SaleItem.quantity it * SaleItem.unitPrice it.

(** The records [group] serve the request item [item]: they are records
    of its product and their quantities add up to the quantity asked; an
    item that names a batch is served by one record on that batch. *)
Definition served (item : Req.Item) (group : list SaleItem.t) : Prop :=
  ∃ p q,
    Req.product item = WellFormed p
    ∧ saleQuantity (Req.quantity item) = Some q
    ∧ Forall (recordOf p) group
    ∧ sumOf SaleItem.quantity group == q
    ∧ ∀ raw, Req.batch item = Some raw →
        ∃ b it, raw = WellFormed b ∧ group = [it] ∧ SaleItem.batch it = b.

(** [item.discount || 0] of a request item. *)
Definition requestedDiscount (item : Req.Item) : Q :=
  Js.orZero (Req.discount item).

(** The request [body] with other amounts in [subtotal] and [total]. *)
Definition withTotals (body : Req.CreateSale) (subtotal total : Q)
  : Req.CreateSale :=
  Req.mkCreateSale (Req.validationErrors body) (Req.store body)
    (Req.customer body) (Req.items body) (Js.Num subtotal)
    (Req.discountPct body) (Req.tax body) (Js.Num total)
    (Req.payment body) (Req.forceCreate body).

(** The request [body] with another [store]. *)
Definition withStore (body : Req.CreateSale) (store : option rawId)
  : Req.CreateSale :=
  Req.mkCreateSale (Req.validationErrors body) store
    (Req.customer body) (Req.items body) (Req.subtotal body)
    (Req.discountPct body) (Req.tax body) (Req.total body)
    (Req.payment body) (Req.forceCreate body).

(** Store [s] has no walk-in customer yet. *)
Definition noWalkIn (s : ObjectId) (db : DB.t) : Prop :=
  ∀ k doc, DB.customers db !! k = Some doc → isWalkIn s doc = false.

(** ** Further scenarios *)

Module Case.

(** The sale that [Scenario.eightUnits] creates on [Scenario.db0]. *)
Definition sold : Sale.t :=
  Sale.mk Scenario.theStore (0%Z, 42%nat) 100
    [SaleItem.mk Scenario.P Scenario.idB1 5 10 0 50 0;
     SaleItem.mk Scenario.P Scenario.idB2 3 12 0 36 0]
    86 0 0 86 0 86 (Payment.mk "cash" (Some "pending"%string)) 7 [] 0.


(** The clerk marks that sale as paid. *)
Definition paidRequest : PaymentUpdate.t :=
  PaymentUpdate.mk false (WellFormed 200) (Some "completed"%string)
                   (Some "TX-1"%string).
Definition paid : Sale.t := setPaymentStatus sold (Some "completed"%string).
Definition paidRecords : Records.t :=
  (updatePaymentStatus Scenario.aClerk paidRequest (Records.mk Scenario.db1 ∅)).2.

(** Eight units priced at 80 by the client, and the recalculation that
    answers it. *)
Definition mispriced : Req.CreateSale :=
  Scenario.order [Scenario.line None 8] 80 80 Js.Undefined false.
Definition recalculated : Recalc.t :=
  Eval vm_compute in
    match (createSale Scenario.env0 Scenario.theOwner mispriced Scenario.db0).1 with
    | Recalculation r => r
    | _ => Recalc.mk 0 0 0 0 0 [] 0 0
    end.

(** A second store, owned by user 9, beside [Scenario.theStore]. *)
Definition otherStore : ObjectId := 2.
Definition otherOwner : User.t := User.mk 9 owner.
Definition twoStores : DB.t :=
  DB.mk {[ Scenario.theStore := Store.mk 7 [8%nat]; otherStore := Store.mk 9 [] ]}
        ∅
        {[ Scenario.P := Product.mk Scenario.theStore "P" None ]}
        (list_to_map [(Scenario.idB1, Scenario.B1); (Scenario.idB2, Scenario.B2)])
        ∅.
Definition twoStoresSold : DB.t :=
  (createSale Scenario.env0 Scenario.theOwner Scenario.eightUnits twoStores).2.

End Case.

(** * The sale and return handlers on IEEE-754 doubles

    The embedding above reads a JavaScript [Number] as an exact rational.
    What [createSale] and [returnProducts] answer, and what they store,
    depends on the rounding of binary64 arithmetic: whether
    [remainingToAllocate] reaches zero, whether two amounts are more than
    0.01 apart, what [toFixed(2)] prints, whether a returned quantity still
    fits.  This part embeds the two handlers again with every [Number] a
    binary64 value ([spec_float], precision 53, exponents up to 1024) and
    every operator the correctly rounded operation of IEEE 754.  Undefined
    prices, NaN and the infinities are values like any other, the defaults
    of the schema are filled in when a document is built, and a [save] that
    Mongoose refuses (a NaN in a [Number] path, a missing required path, a
    string outside its enum) throws into the handler's [catch] block. *)

(** ** binary64 *)

Module Num.

Definition t : Type := spec_float.

Definition prec : Z := 53.
Definition emax : Z := 1024.

Definition nan : t := S754_nan.
Definition zero : t := S754_zero false.

(** [x + y], [x - y], [x * y], [x / y] *)
Definition add : t → t → t := SFadd prec emax.
Definition sub : t → t → t := SFsub prec emax.
Definition mul : t → t → t := SFmul prec emax.
Definition div : t → t → t := SFdiv prec emax.

(** [x < y], [x <= y], [x > y]: false as soon as one side is NaN. *)
Definition ltb (x y : t) : bool := SFltb x y.
Definition leb (x y : t) : bool := SFleb x y.
Definition gtb (x y : t) : bool := SFltb y x.

(** [Math.abs(x)] *)
Definition abs : t → t := SFabs.

Definition isNaN (x : t) : bool :=
  match x with S754_nan => true | _ => false end.

(** [!!x]: every number but [0], [-0] and NaN. *)
Definition truthy (x : t) : bool :=
  match x with S754_zero _ | S754_nan => false | _ => true end.

(** [Number.isInteger(x)] *)
Definition isInteger (x : t) : bool :=
  match x with
  | S754_zero _ => true
  | S754_finite _ m (Zneg p) => (Z.pos m mod 2 ^ Z.pos p =? 0)%Z
  | S754_finite _ _ _ => true
  | _ => false
  end.

(** [Math.min(x, y)]: NaN if either is, [-0] below [0]. *)
Definition min (x y : t) : t :=
  if isNaN x || isNaN y then nan
  else if ltb y x then y
  else match x, y with
       | S754_zero _, S754_zero true => y
       | _, _ => x
       end.

(** The double nearest to [n / d] (ties to even), with sign [s]. *)
Definition divide (s : bool) (n d : positive) : t :=
  let '(mz, ez, lz) := SFdiv_core_binary prec emax (Z.pos n) 0 (Z.pos d) 0 in
  binary_round_aux prec emax s mz ez lz.

(** An integer literal, and a decimal literal as [JSON.parse] or the
    JavaScript parser reads it. *)
Definition ofZ (n : Z) : t := binary_normalize prec emax n 0 false.

Definition ofQ (q : Q) : t :=
  match Qnum q with
  | Z0 => zero
  | Zpos n => divide false n (Qden q)
  | Zneg n => divide true n (Qden q)
  end.

(** [⌊m * 2^e * 100 + 1/2⌋]: the magnitude of a double in cents, ties
    up. *)
Definition cents (m : positive) (e : Z) : Z :=
  match e with
  | Zneg p => (Z.pos m * 200 + 2 ^ Z.pos p) / 2 ^ (Z.pos p + 1)
  | _ => Z.pos m * 2 ^ e * 100
  end.

(** [parseFloat(x.toFixed(2))]: [toFixed] rounds the exact value of the
    double to the nearest multiple of 0.01, the larger one on a tie, and
    [parseFloat] reads the digits back; NaN and the infinities print as
    themselves, [-0] prints as ["0.00"]. *)
Definition toFixed2 (x : t) : t :=
  match x with
  | S754_finite s m e =>
      match cents m e with
      | Zpos n => divide s n 100
      | _ => S754_zero s
      end
  | S754_zero _ => zero
  | _ => x
  end.

(** A value that may be [undefined], used as a number. *)
Definition ofOption (o : option t) : t := default nan o.

End Num.

Module Ieee.

(** ** JavaScript values *)

Module Js.

Inductive value :=
| Undefined
| Null
| Boolean (b : bool)
| Num (x : Num.t)
| Str (s : string).

(** [!!v] *)
Definition truthy (v : value) : bool :=
  match v with
  | Undefined | Null => false
  | Boolean b => b
  | Num x => Num.truthy x
  | Str s => negb (String.eqb s "")
  end.

(** [x || 0] *)
Definition orZero (x : Num.t) : Num.t :=
  if Num.truthy x then x else Num.zero.

(** [x || 0] for an optional number. *)
Definition optOrZero (x : option Num.t) : Num.t :=
  match x with
  | Some x => orZero x
  | None => Num.zero
  end.

(** [v || 0] for a JSON value already known to be a number or
    [undefined]. *)
Definition numOrZero (v : value) : Num.t :=
  match v with
  | Num x => orZero x
  | _ => Num.zero
  end.

(** [x || d] where [x] is a number and [d] may be [undefined]. *)
Definition orElse (x : Num.t) (d : option Num.t) : option Num.t :=
  if Num.truthy x then Some x else d.

(** [Math.abs(a - b) > epsilon] with [epsilon = 0.01] *)
Definition epsilon : Num.t := Num.ofQ (1 # 100).
Definition discrepancy (calculated submitted : Num.t) : bool :=
  Num.gtb (Num.abs (Num.sub calculated submitted)) epsilon.

End Js.

(** ** Documents *)

Module Product.
Record t := mk {
  store : ObjectId;
  name : string;
  sellingPrice : option Num.t }.
End Product.

Module Batch.
Record t := mk {
  product : ObjectId;
  store : ObjectId;
  expiryDate : Z;
  sellingPrice : Num.t;
  currentStock : Num.t;
  initialStock : Num.t }.

(** [batch.currentStock = q] *)
Definition setStock (b : t) (q : Num.t) : t :=
  mk (product b) (store b) (expiryDate b) (sellingPrice b) q (initialStock b).
End Batch.

(** An entry of [processedItems]: the object literal the item loop
    pushes.  Its [unitPrice] is [undefined] when neither the batch, nor
    the request, nor the product gives a price. *)
Module Line.
Record t := mk {
  product : ObjectId;
  batch : ObjectId;
  quantity : Num.t;
  unitPrice : option Num.t;
  subtotal : Num.t;
  discount : Num.t }.

Definition setDiscount (i : t) (d : Num.t) : t :=
  mk (product i) (batch i) (quantity i) (unitPrice i) (subtotal i) d.
End Line.

(** An element of [sale.items] as stored. *)
Module SaleItem.
Record t := mk {
  product : ObjectId;
  batch : ObjectId;
  quantity : Num.t;
  unitPrice : Num.t;
  discount : Num.t;
  subtotal : Num.t;
  returnedQuantity : Num.t }.

Definition setReturned (i : t) (r : Num.t) : t :=
  mk (product i) (batch i) (quantity i) (unitPrice i) (discount i)
     (subtotal i) r.
End SaleItem.

Module ReturnRecord.
Record t := mk {
  date : Z;
  items : list (ObjectId * ObjectId * Num.t);
  reason : string;
  processedBy : ObjectId;
  refundAmount : Num.t }.
End ReturnRecord.

Module Sale.
Record t := mk {
  store : ObjectId;
  invoiceNumber : Invoice;
  customer : ObjectId;
  items : list SaleItem.t;
  subtotal : Num.t;
  discount : Num.t;
  tax : Num.t;
  total : Num.t;
  returnTotal : Num.t;
  finalTotal : Num.t;
  payment : Payment.t;
  staffMember : ObjectId;
  returns : list ReturnRecord.t;
  createdAt : Z }.
End Sale.

(** The object literal handed to [new Sale({...})] by [createSale]. *)
Module SaleInit.
Record t := mk {
  store : ObjectId;
  invoiceNumber : Invoice;
  customer : ObjectId;
  items : list Line.t;
  subtotal : Num.t;
  discount : Num.t;
  discountAmount : Num.t;
  tax : Num.t;
  total : Num.t;
  finalTotal : Num.t;
  payment : Payment.t;
  staffMember : ObjectId;
  createdAt : Z }.
End SaleInit.

(** A [Number] path accepts every number but NaN. *)
Definition castNumber (x : Num.t) : option Num.t :=
  if Num.isNaN x then None else Some x.

(** An item subdocument: [quantity], [unitPrice] and [subtotal] are
    required numbers, [discount] is a number, [returnedQuantity] takes
    its default. *)
Definition newItem (l : Line.t) : option SaleItem.t :=
  quantity ← castNumber (Line.quantity l);
  unitPrice ← Line.unitPrice l ≫= castNumber;
  discount ← castNumber (Line.discount l);
  subtotal ← castNumber (Line.subtotal l);
  Some (SaleItem.mk (Line.product l) (Line.batch l) quantity unitPrice
                    discount subtotal Num.zero).

(** [payment]: [method] in its enum, [status] in its enum or absent, in
    which case it takes the default ["pending"]. *)
Definition newPayment (p : Payment.t) : option Payment.t :=
  if methodAllowed (Payment.method p) && statusAllowed (Payment.status p)
  then Some (Payment.mk (Payment.method p)
                        (Some (default "pending"%string (Payment.status p))))
  else None.

(** [new Sale(init)] followed by the validation of [save]: Mongoose keeps
    the paths the schema declares (its default strict mode, which drops
    [discountAmount]), fills the declared defaults ([returnTotal: 0],
    [returnedQuantity: 0], [payment.status: "pending"], an empty [returns]
    array) and refuses the document ([None], a [ValidationError]) when a
    number is NaN, a required price is missing or a payment enum is
    violated.  Where the pre-save hook recomputes [finalTotal], it does
    so as [total - 0], which is the value it already has. *)
Definition newSale (i : SaleInit.t) : option Sale.t :=
  items ← mapM newItem (SaleInit.items i);
  subtotal ← castNumber (SaleInit.subtotal i);
  discount ← castNumber (SaleInit.discount i);
  tax ← castNumber (SaleInit.tax i);
  total ← castNumber (SaleInit.total i);
  finalTotal ← castNumber (SaleInit.finalTotal i);
  payment ← newPayment (SaleInit.payment i);
  Some (Sale.mk (SaleInit.store i) (SaleInit.invoiceNumber i)
                (SaleInit.customer i) items subtotal discount tax total
                Num.zero finalTotal payment (SaleInit.staffMember i) []
                (SaleInit.createdAt i)).

(** ** The database *)

Module DB.
Record t := mk {
  stores : gmap ObjectId Store.t;
  customers : gmap ObjectId Customer.t;
  products : gmap ObjectId Product.t;
  batches : gmap ObjectId Batch.t;
  sales : gmap ObjectId Sale.t }.

Definition setCustomers (d : t) (c : gmap ObjectId Customer.t) : t :=
  mk (stores d) c (products d) (batches d) (sales d).
Definition setBatches (d : t) (b : gmap ObjectId Batch.t) : t :=
  mk (stores d) (customers d) (products d) b (sales d).
Definition setSales (d : t) (s : gmap ObjectId Sale.t) : t :=
  mk (stores d) (customers d) (products d) (batches d) s.
End DB.

(** ** Requests and responses *)

Module Req.
Record Item := mkItem {
  product : rawId;
  batch : option rawId;
  quantity : Js.value;
  unitPrice : option Num.t;
  price : option Num.t;
  discount : option Num.t }.

Record CreateSale := mkCreateSale {
  validationErrors : bool;      (* !validationResult(req).isEmpty() *)
  store : option rawId;
  customer : option rawId;
  items : option (list Item);   (* None: missing or not an array *)
  subtotal : Js.value;
  discountPct : Js.value;       (* body.discount, a percentage *)
  tax : Js.value;
  total : Js.value;
  payment : option Payment.t;
  forceCreate : bool }.

Record ReturnLine := mkReturnLine {
  productId : option rawId;
  batchId : option rawId;
  returnQuantity : Js.value }.

Record Return := mkReturn {
  returnValidationErrors : bool;
  saleId : rawId;
  storeId : option rawId;
  returnedItems : option (list ReturnLine);
  reason : option string }.
End Req.

(** One constructor per message the two handlers send. *)
Inductive ErrorMsg :=
| ValidationErrors
| EmptyItems
| PaymentRequired
| AmountsNotNumbers
| StoreNotFound
| InvalidCustomerId
| CustomerNotFound
| CustomerWrongStore
| InvalidProductId
| InvalidQuantity
| ProductNotFound (p : ObjectId)
| NoAvailableBatches (p : ObjectId)
| InsufficientTotalStock (p : ObjectId) (available requested : Num.t)
| InvalidBatchId
| BatchNotFound (b : ObjectId)
| InsufficientBatchStock (p : ObjectId) (available requested : Num.t)
| AllocationFailed (p : ObjectId)
| SaleValidationError
| DuplicateKey
| InternalError
| InvalidSaleId
| SaleNotFound
| ReturnItemsRequired
| ReturnFieldsRequired
| InvalidReturnIds
| QuantityNotPositive
| InvalidStoreId
| ReturnForbidden
| ReturnWindowExpired
| ItemNotInSale (p b : ObjectId)
| ReturnExceedsPurchased (p : ObjectId)
| AlreadyReturned (p : ObjectId)
| ReturnBatchNotFound (b : ObjectId)
| ReturnProductNotFound (p : ObjectId)
| ReturnFailed.

(** An entry of [recalculatedValues.items]. *)
Module RecalcLine.
Record t := mk {
  productId : ObjectId;
  batchId : ObjectId;
  quantity : Num.t;
  unitPrice : Num.t;
  subtotal : Num.t;
  discount : Num.t }.
End RecalcLine.

(** [recalculatedValues] and [originalValues] of the recalculation reply,
    as handed to [res.json]. *)
Module Recalc.
Record t := mk {
  subtotal : Num.t;
  discountPercentage : Num.t;
  discountAmount : Num.t;
  tax : Num.t;
  total : Num.t;
  items : list RecalcLine.t;
  originalSubtotal : Num.t;
  originalTotal : Num.t }.
End Recalc.

(** An entry of [returnSummary]. *)
Module RefundLine.
Record t := mk {
  product : ObjectId;
  batch : ObjectId;
  returnedQuantity : Num.t;
  unitPrice : Num.t;
  discountPerUnit : Num.t;
  effectiveUnitPrice : Num.t;
  refundAmount : Num.t }.
End RefundLine.

(** The [data] of a successful return. *)
Module Refund.
Record t := mk {
  returnSummary : list RefundLine.t;
  totalRefundAmount : Num.t;
  updatedSaleTotal : Num.t }.
End Refund.

Inductive Response :=
| Failure (status : nat) (e : ErrorMsg)
| Recalculation (r : Recalc.t)            (* 200, recalculation: true *)
| SaleCreated (id : ObjectId) (s : Sale.t) (* 201 *)
| ProductsReturned (r : Refund.t).        (* 200 *)

Definition isFailure (r : Response) : bool :=
  match r with Failure _ _ => true | _ => false end.

(** ** One session: early replies discard the working copy *)

Inductive outcome (A : Type) :=
| Continue (a : A) (db : DB.t)
| Reply (r : Response).
Arguments Continue {A} a db.
Arguments Reply {A} r.

Definition Tx (A : Type) : Type := DB.t → outcome A.

#[global] Instance Tx_ret : MRet Tx := λ A a db, Continue a db.
#[global] Instance Tx_bind : MBind Tx := λ A B f m db,
  match m db with
  | Continue a db' => f a db'
  | Reply r => Reply r
  end.

Definition abort {A} (r : Response) : Tx A := λ _, Reply r.
Definition read {A} (f : DB.t → A) : Tx A := λ db, Continue (f db) db.
Definition write (f : DB.t → DB.t) : Tx unit := λ db, Continue tt (f db).

Definition check (b : bool) (r : Response) : Tx unit :=
  if b then mret tt else abort r.

Definition found {A} (o : option A) (r : Response) : Tx A :=
  match o with
  | Some a => mret a
  | None => abort r
  end.

Definition transaction (body : Tx Response) (db : DB.t) : Response * DB.t :=
  match body db with
  | Continue r db' => (r, db')
  | Reply r => (r, db)
  end.

(** [batch.currentStock = q; await batch.save({ session })]: a NaN does
    not pass the cast of the [Number] path, and [save] throws into the
    [catch] block of the handler, which answers [thrown]. *)
Definition saveStock (thrown : Response) (id : ObjectId) (b : Batch.t)
    (q : Num.t) : Tx unit :=
  check (negb (Num.isNaN q)) thrown;;
  write (λ db, DB.setBatches db (<[id := Batch.setStock b q]> (DB.batches db))).

(** ** createSale *)

(** [.sort({ expiryDate: 1 })]: ascending, documents with equal dates kept
    in collection order. *)
Fixpoint insertByExpiry (x : ObjectId * Batch.t) (l : list (ObjectId * Batch.t))
  : list (ObjectId * Batch.t) :=
  match l with
  | [] => [x]
  | y :: l' =>
      if (Batch.expiryDate x.2 <=? Batch.expiryDate y.2)%Z
      then x :: l
      else y :: insertByExpiry x l'
  end.

Definition sortByExpiry (l : list (ObjectId * Batch.t)) : list (ObjectId * Batch.t) :=
  foldr insertByExpiry [] l.

(** The query condition
    [{ product, store, currentStock: { $gt: 0 } }]. *)
Definition eligible (p s : ObjectId) (kv : ObjectId * Batch.t) : bool :=
  (Batch.product kv.2 =? p)%nat && (Batch.store kv.2 =? s)%nat
  && Num.gtb (Batch.currentStock kv.2) Num.zero.

Definition availableBatches (p s : ObjectId) (db : DB.t) : list (ObjectId * Batch.t) :=
  sortByExpiry (List.filter (eligible p s) (map_to_list (DB.batches db))).

(** [availableBatches.reduce((sum, batch) => sum + batch.currentStock, 0)] *)
Definition totalAvailableStock (l : list (ObjectId * Batch.t)) : Num.t :=
  fold_left (λ sum kv, Num.add sum (Batch.currentStock kv.2)) l Num.zero.

(** The running variables of the item loop. *)
Module Cart.
Record t := mk {
  processedItems : list Line.t;
  calculatedSubtotal : Num.t;
  totalItemDiscount : Num.t }.

Definition empty : t := mk [] Num.zero Num.zero.
End Cart.

(** The variables of the inner allocation loop. *)
Module Alloc.
Record t := mk {
  remainingToAllocate : Num.t;
  allocations : list Line.t;
  subtotalSoFar : Num.t;
  discountSoFar : Num.t }.
End Alloc.

(** What the checks that precede the item loop hand on. *)
Module Checked.
Record t := mk {
  items : list Req.Item;
  payment : Payment.t;
  subtotal : Num.t;
  total : Num.t;
  storeId : ObjectId;
  customerId : ObjectId }.
End Checked.

(** What the [catch] block of [createSale] answers to a
    [ValidationError]. *)
Definition validationError : Response := Failure 400 SaleValidationError.

Section CreateSale.
Context (env : Env.t) (user : User.t).

(** [item.quantity] passes
    [!q || q <= 0 || !Number.isInteger(q)] exactly when it is a positive
    integer number; for anything that is not a number the third test
    already fails. *)
Definition saleQuantity (v : Js.value) : option Num.t :=
  match v with
  | Js.Num q =>
      if negb (Num.truthy q) || Num.leb q Num.zero || negb (Num.isInteger q)
      then None else Some q
  | _ => None
  end.

(** [item.discount ? (item.discount * quantityFromBatch) / item.quantity : 0] *)
Definition batchDiscount (d : option Num.t) (quantityFromBatch quantity : Num.t)
  : Num.t :=
  match d with
  | Some d =>
      if Num.truthy d then Num.div (Num.mul d quantityFromBatch) quantity
      else Num.zero
  | None => Num.zero
  end.

(** The [for (const batch of availableBatches)] loop. *)
Fixpoint allocate (p : ObjectId) (quantity : Num.t) (itemDiscount : option Num.t)
    (defaultEffectivePrice : option Num.t)
    (avail : list (ObjectId * Batch.t)) (st : Alloc.t) : Tx Alloc.t :=
  match avail with
  | [] => mret st
  | (id, batch) :: rest =>
      if Num.leb (Alloc.remainingToAllocate st) Num.zero then mret st
      else if Num.leb (Batch.currentStock batch) Num.zero
      then allocate p quantity itemDiscount defaultEffectivePrice rest st
      else
        let quantityFromBatch :=
          Num.min (Batch.currentStock batch) (Alloc.remainingToAllocate st) in
        let batchPrice :=
          Js.orElse (Batch.sellingPrice batch) defaultEffectivePrice in
        let batchSubtotal :=
          Num.mul quantityFromBatch (Num.ofOption batchPrice) in
        let discount := batchDiscount itemDiscount quantityFromBatch quantity in
        let record :=
          Line.mk p id quantityFromBatch batchPrice batchSubtotal discount in
        saveStock validationError id batch
          (Num.sub (Batch.currentStock batch) quantityFromBatch);;
        allocate p quantity itemDiscount defaultEffectivePrice rest
          (Alloc.mk (Num.sub (Alloc.remainingToAllocate st) quantityFromBatch)
                    (Alloc.allocations st ++ [record])
                    (Num.add (Alloc.subtotalSoFar st) batchSubtotal)
                    (Num.add (Alloc.discountSoFar st) discount))
  end.

(** The branch [if (item.batch) { ... }]. *)
Definition allocateSpecified (p storeId : ObjectId) (quantity : Num.t)
    (itemDiscount : option Num.t) (defaultEffectivePrice : option Num.t)
    (raw : rawId) (cart : Cart.t) : Tx Cart.t :=
  match raw with
  | Malformed => abort (Failure 400 InvalidBatchId)
  | WellFormed b =>
      doc ← read (λ db, DB.batches db !! b);
      match doc with
      | Some specifiedBatch =>
          if (Batch.product specifiedBatch =? p)%nat
             && (Batch.store specifiedBatch =? storeId)%nat
          then
            if Num.ltb (Batch.currentStock specifiedBatch) quantity
            then abort (Failure 400
                   (InsufficientBatchStock p
                      (Batch.currentStock specifiedBatch) quantity))
            else
              let effectivePrice :=
                Js.orElse (Batch.sellingPrice specifiedBatch)
                          defaultEffectivePrice in
              let itemSubtotal :=
                Num.mul quantity (Num.ofOption effectivePrice) in
              let discount := Js.optOrZero itemDiscount in
              saveStock validationError b specifiedBatch
                (Num.sub (Batch.currentStock specifiedBatch) quantity);;
              mret (Cart.mk
                (Cart.processedItems cart ++
                   [Line.mk p b quantity effectivePrice itemSubtotal discount])
                (Num.add (Cart.calculatedSubtotal cart) itemSubtotal)
                (Num.add (Cart.totalItemDiscount cart) discount))
          else abort (Failure 404 (BatchNotFound b))
      | None => abort (Failure 404 (BatchNotFound b))
      end
  end.

(** [itemPrice] and [defaultEffectivePrice]: the item's [unitPrice] (or
    [price]) when it is given and positive, the product's selling price
    otherwise. *)
Definition defaultPrice (item : Req.Item) (product : Product.t)
  : option Num.t :=
  let itemPrice :=
    match Req.unitPrice item with
    | Some u => Some u
    | None => Req.price item
    end in
  match itemPrice with
  | Some u =>
      if Num.leb u Num.zero then Product.sellingPrice product else Some u
  | None => Product.sellingPrice product
  end.

(** The body of [for (const item of items)]. *)
Definition processItem (storeId : ObjectId) (cart : Cart.t) (item : Req.Item)
  : Tx Cart.t :=
  match Req.product item with
  | Malformed => abort (Failure 400 InvalidProductId)
  | WellFormed p =>
      quantity ← found (saleQuantity (Req.quantity item))
                       (Failure 400 InvalidQuantity);
      doc ← read (λ db, DB.products db !! p);
      product ← found
        (match doc with
         | Some d => if (Product.store d =? storeId)%nat then Some d else None
         | None => None
         end)
        (Failure 404 (ProductNotFound p));
      let defaultEffectivePrice := defaultPrice item product in
      avail ← read (availableBatches p storeId);
      check (negb (length avail =? 0)%nat) (Failure 400 (NoAvailableBatches p));;
      let total := totalAvailableStock avail in
      check (negb (Num.ltb total quantity))
            (Failure 400 (InsufficientTotalStock p total quantity));;
      match Req.batch item with
      | Some raw =>
          allocateSpecified p storeId quantity (Req.discount item)
                            defaultEffectivePrice raw cart
      | None =>
          st ← allocate p quantity (Req.discount item) defaultEffectivePrice
                 avail
                 (Alloc.mk quantity [] (Cart.calculatedSubtotal cart)
                           (Cart.totalItemDiscount cart));
          check (negb (Num.gtb (Alloc.remainingToAllocate st) Num.zero))
                (Failure 500 (AllocationFailed p));;
          mret (Cart.mk (Cart.processedItems cart ++ Alloc.allocations st)
                        (Alloc.subtotalSoFar st) (Alloc.discountSoFar st))
      end
  end.

Fixpoint processItems (storeId : ObjectId) (items : list Req.Item)
    (cart : Cart.t) : Tx Cart.t :=
  match items with
  | [] => mret cart
  | item :: rest =>
      cart' ← processItem storeId cart item;
      processItems storeId rest cart'
  end.

(** [Store.findOne({ owner })] for an owner, [Store.findById(store)]
    otherwise; a malformed id makes the query throw, which the [catch]
    block turns into a 500. *)
Definition resolveStore (store : option rawId) : Tx ObjectId :=
  match User.role user with
  | owner =>
      doc ← read (λ db,
        findOne (λ _ s, (Store.owner s =? User._id user)%nat) (DB.stores db));
      found (fst <$> doc) (Failure 404 StoreNotFound)
  | _ =>
      match store with
      | Some (WellFormed i) =>
          doc ← read (λ db, DB.stores db !! i);
          found (doc ≫= λ _, Some i) (Failure 404 StoreNotFound)
      | Some Malformed => abort (Failure 500 InternalError)
      | None => abort (Failure 404 StoreNotFound)
      end
  end.

(** The customer named by the request, or the store's walk-in customer,
    created on first use.  Saving a second document with [email: null]
    violates the unique index on [email]; the [catch] block answers 409. *)
Definition resolveCustomer (storeId : ObjectId) (customer : option rawId)
  : Tx ObjectId :=
  match customer with
  | Some Malformed => abort (Failure 400 InvalidCustomerId)
  | Some (WellFormed c) =>
      doc ← read (λ db, DB.customers db !! c);
      customerDoc ← found doc (Failure 404 CustomerNotFound);
      check (Customer.store customerDoc =? storeId)%nat
            (Failure 400 CustomerWrongStore);;
      mret c
  | None =>
      existing ← read (λ db, findOne (λ _ c, isWalkIn storeId c) (DB.customers db));
      match existing with
      | Some (c, _) => mret c
      | None =>
          clash ← read (λ db,
            findOne (λ _ c, isNull (Customer.email c)) (DB.customers db));
          check (negb (bool_decide (is_Some clash))) (Failure 409 DuplicateKey);;
          write (λ db, DB.setCustomers db
                   (<[Env.freshCustomer env := walkIn storeId]> (DB.customers db)));;
          mret (Env.freshCustomer env)
      end
  end.

(** *** Price reconciliation *)

(** [(calculatedSubtotal * discountPercentage) / 100] *)
Definition cartDiscountAmount (pct calculatedSubtotal : Num.t) : Num.t :=
  if Num.gtb pct Num.zero
  then Num.div (Num.mul calculatedSubtotal pct) (Num.ofZ 100)
  else Num.zero.

Definition calculatedDiscountAmount (pct : Num.t) (cart : Cart.t) : Num.t :=
  if Num.gtb pct Num.zero
  then Num.add (Cart.totalItemDiscount cart)
               (cartDiscountAmount pct (Cart.calculatedSubtotal cart))
  else Cart.totalItemDiscount cart.

(** [item.discount = (item.discount || 0) + cartDiscountAmount * proportion]
    with [proportion = item.subtotal / calculatedSubtotal] *)
Definition withCartShare (cartDiscount calculatedSubtotal : Num.t)
    (item : Line.t) : Line.t :=
  let proportion := Num.div (Line.subtotal item) calculatedSubtotal in
  Line.setDiscount item
    (Num.add (Js.orZero (Line.discount item))
             (Num.mul cartDiscount proportion)).

Definition distribute (pct : Num.t) (cart : Cart.t) : list Line.t :=
  if Num.gtb pct Num.zero
  then map (withCartShare
              (cartDiscountAmount pct (Cart.calculatedSubtotal cart))
              (Cart.calculatedSubtotal cart))
           (Cart.processedItems cart)
  else Cart.processedItems cart.

(** [calculatedSubtotal - calculatedDiscountAmount + (tax || 0)] *)
Definition calculatedTotal (pct tax : Num.t) (cart : Cart.t) : Num.t :=
  Num.add (Num.sub (Cart.calculatedSubtotal cart)
                   (calculatedDiscountAmount pct cart))
          tax.

(** An entry of [recalculatedValues.items]; [item.unitPrice.toFixed(2)]
    throws a [TypeError] on an [undefined] price. *)
Definition recalcLine (item : Line.t) : option RecalcLine.t :=
  unitPrice ← Line.unitPrice item;
  Some (RecalcLine.mk (Line.product item) (Line.batch item)
          (Line.quantity item)
          (Num.toFixed2 unitPrice)
          (Num.toFixed2 (Line.subtotal item))
          (Num.toFixed2 (Js.orZero (Line.discount item)))).

Definition recalculation (pct tax subtotal total : Num.t) (cart : Cart.t)
  : option Recalc.t :=
  items ← mapM recalcLine (distribute pct cart);
  Some (Recalc.mk (Num.toFixed2 (Cart.calculatedSubtotal cart))
                  pct
                  (Num.toFixed2 (calculatedDiscountAmount pct cart))
                  tax
                  (Num.toFixed2 (calculatedTotal pct tax cart))
                  items
                  subtotal total).

(** The object literal of [new Sale({...})]. *)
Definition saleInit (storeId customerId : ObjectId) (forceCreate : bool)
    (pct tax subtotal total : Num.t) (payment : Payment.t) (cart : Cart.t)
  : SaleInit.t :=
  let finalSubtotal :=
    if forceCreate then Cart.calculatedSubtotal cart else subtotal in
  let finalTotal :=
    if forceCreate then calculatedTotal pct tax cart else total in
  let finalDiscountAmount :=
    if forceCreate then calculatedDiscountAmount pct cart
    else Num.add (Num.mul subtotal (Num.div pct (Num.ofZ 100)))
                 (Cart.totalItemDiscount cart) in
  SaleInit.mk storeId (Env.stamp env, Env.random env) customerId
              (distribute pct cart)
              (Num.toFixed2 finalSubtotal)
              pct
              (Num.toFixed2 finalDiscountAmount)
              tax
              (Num.toFixed2 finalTotal)
              (Num.toFixed2 finalTotal)
              payment (User._id user) (Env.now env).

Definition invoiceTaken (inv : Invoice) (db : DB.t) : bool :=
  bool_decide (is_Some
    (findOne (λ _ s, Invoice_eqb (Sale.invoiceNumber s) inv) (DB.sales db))).

(** Everything before the item loop: request validation, the store and
    the customer. *)
Definition checkRequest (body : Req.CreateSale) : Tx Checked.t :=
  check (negb (Req.validationErrors body)) (Failure 400 ValidationErrors);;
  items ← found (match Req.items body with
                 | Some [] | None => None
                 | Some l => Some l
                 end) (Failure 400 EmptyItems);
  payment ← found (match Req.payment body with
                   | Some pay =>
                       if String.eqb (Payment.method pay) "" then None
                       else Some pay
                   | None => None
                   end) (Failure 400 PaymentRequired);
  '(subtotal, total) ← found
     (match Req.subtotal body, Req.total body,
            Req.discountPct body, Req.tax body with
      | Js.Num s, Js.Num t, (Js.Undefined | Js.Num _), (Js.Undefined | Js.Num _) =>
          Some (s, t)
      | _, _, _, _ => None
      end) (Failure 400 AmountsNotNumbers);
  storeId ← resolveStore (Req.store body);
  customerId ← resolveCustomer storeId (Req.customer body);
  mret (Checked.mk items payment subtotal total storeId customerId).

(** Everything after the item loop: cart discount, reconciliation against
    the submitted amounts, and the save.  ([req.user._id] is the id of a
    stored user, so the staff-member id check always passes.)  Building
    the recalculation reply throws when a unit price is [undefined]; the
    handler has no reply for that. *)
Definition settle (body : Req.CreateSale) (c : Checked.t) (cart : Cart.t)
  : Tx Response :=
  let pct := Js.numOrZero (Req.discountPct body) in
  let tax := Js.numOrZero (Req.tax body) in
  let subtotalDiscrepancy :=
    Js.discrepancy (Cart.calculatedSubtotal cart) (Checked.subtotal c) in
  let totalDiscrepancy :=
    Js.discrepancy (calculatedTotal pct tax cart) (Checked.total c) in
  if (subtotalDiscrepancy || totalDiscrepancy) && negb (Req.forceCreate body)
  then
    match recalculation pct tax (Checked.subtotal c) (Checked.total c) cart with
    | Some r => abort (Recalculation r)
    | None => abort (Failure 500 InternalError)
    end
  else
    let init := saleInit (Checked.storeId c) (Checked.customerId c)
                         (Req.forceCreate body) pct tax
                         (Checked.subtotal c) (Checked.total c)
                         (Checked.payment c) cart in
    sale ← found (newSale init) validationError;
    taken ← read (invoiceTaken (SaleInit.invoiceNumber init));
    check (negb taken) (Failure 409 DuplicateKey);;
    write (λ db, DB.setSales db
             (<[Env.freshSale env := sale]> (DB.sales db)));;
    mret (SaleCreated (Env.freshSale env) sale).

Definition createSaleTx (body : Req.CreateSale) : Tx Response :=
  c ← checkRequest body;
  cart ← processItems (Checked.storeId c) (Checked.items c) Cart.empty;
  settle body c cart.

Definition createSale (body : Req.CreateSale) (db : DB.t) : Response * DB.t :=
  transaction (createSaleTx body) db.
End CreateSale.

(** ** returnProducts *)

(** The variables of the return loop: the sale's items as held in memory,
    the summary and the refund so far. *)
Module Ret.
Record t := mk {
  items : list SaleItem.t;
  returnSummary : list RefundLine.t;
  totalRefundAmount : Num.t }.
End Ret.

(** What the [catch] block of [returnProducts] answers. *)
Definition returnFailed : Response := Failure 500 ReturnFailed.

Section ReturnProducts.
Context (env : Env.t) (user : User.t).

(** The first loop over [returnedItems]: required fields, id formats, and
    [typeof item.quantity !== "number" || item.quantity <= 0]. *)
Definition validateLine (l : Req.ReturnLine)
  : ErrorMsg + (ObjectId * ObjectId * Num.t) :=
  match Req.productId l, Req.batchId l with
  | Some p, Some b =>
      if negb (Js.truthy (Req.returnQuantity l)) then inl ReturnFieldsRequired
      else
        match p, b with
        | WellFormed p, WellFormed b =>
            match Req.returnQuantity l with
            | Js.Num q =>
                if Num.leb q Num.zero then inl QuantityNotPositive
                else inr (p, b, q)
            | _ => inl QuantityNotPositive
            end
        | _, _ => inl InvalidReturnIds
        end
  | _, _ => inl ReturnFieldsRequired
  end.

Fixpoint validateLines (ls : list Req.ReturnLine)
  : ErrorMsg + list (ObjectId * ObjectId * Num.t) :=
  match ls with
  | [] => inr []
  | l :: rest =>
      match validateLine l with
      | inl e => inl e
      | inr x =>
          match validateLines rest with
          | inl e => inl e
          | inr xs => inr (x :: xs)
          end
      end
  end.

(** [sale.items.find(item => item.product == productId && item.batch == batchId)] *)
Definition findItem (p b : ObjectId) (items : list SaleItem.t)
  : option (nat * SaleItem.t) :=
  list_find (λ it, SaleItem.product it = p ∧ SaleItem.batch it = b) items.

(** [originalItem.discount ? originalItem.discount / originalItem.quantity : 0] *)
Definition discountPerUnit (it : SaleItem.t) : Num.t :=
  if Num.truthy (SaleItem.discount it)
  then Num.div (SaleItem.discount it) (SaleItem.quantity it)
  else Num.zero.

Definition effectiveUnitPrice (it : SaleItem.t) : Num.t :=
  Num.sub (SaleItem.unitPrice it) (discountPerUnit it).

Definition itemRefundAmount (it : SaleItem.t) (q : Num.t) : Num.t :=
  Num.mul (effectiveUnitPrice it) q.

(** [if (!r) r = 0; r += q] *)
Definition returnedAfter (it : SaleItem.t) (q : Num.t) : Num.t :=
  Num.add (Js.orZero (SaleItem.returnedQuantity it)) q.

(** The two guards of the return loop on the quantity of a line. *)
Definition exceedsPurchased (it : SaleItem.t) (q : Num.t) : bool :=
  Num.gtb q (SaleItem.quantity it).

Definition alreadyReturned (it : SaleItem.t) (q : Num.t) : bool :=
  Num.truthy (SaleItem.returnedQuantity it)
  && Num.gtb (Num.add (SaleItem.returnedQuantity it) q) (SaleItem.quantity it).

(** The body of [for (const returnItem of returnedItems)]. *)
Definition returnLine (st : Ret.t) (line : ObjectId * ObjectId * Num.t)
  : Tx Ret.t :=
  let '(p, b, q) := line in
  '(i, originalItem) ← found (findItem p b (Ret.items st))
                             (Failure 400 (ItemNotInSale p b));
  check (negb (exceedsPurchased originalItem q))
        (Failure 400 (ReturnExceedsPurchased p));;
  check (negb (alreadyReturned originalItem q))
        (Failure 400 (AlreadyReturned p));;
  doc ← read (λ db, DB.batches db !! b);
  batch ← found doc (Failure 404 (ReturnBatchNotFound b));
  saveStock returnFailed b batch (Num.add (Batch.currentStock batch) q);;
  pdoc ← read (λ db, DB.products db !! p);
  _ ← found pdoc (Failure 404 (ReturnProductNotFound p));
  let refund := itemRefundAmount originalItem q in
  mret (Ret.mk
    (<[i := SaleItem.setReturned originalItem (returnedAfter originalItem q)]>
       (Ret.items st))
    (Ret.returnSummary st ++
       [RefundLine.mk p b q (SaleItem.unitPrice originalItem)
          (discountPerUnit originalItem) (effectiveUnitPrice originalItem)
          refund])
    (Num.add (Ret.totalRefundAmount st) refund)).

Fixpoint returnLines (lines : list (ObjectId * ObjectId * Num.t)) (st : Ret.t)
  : Tx Ret.t :=
  match lines with
  | [] => mret st
  | line :: rest =>
      st' ← returnLine st line;
      returnLines rest st'
  end.

(** The sale as handed to [sale.save()] at the end of a return. *)
Definition returnedSale (sale : Sale.t)
    (lines : list (ObjectId * ObjectId * Num.t))
    (reason : option string) (st : Ret.t) : Sale.t :=
  let record :=
    ReturnRecord.mk (Env.now env) lines
      (match reason with
       | Some r => if String.eqb r "" then "No reason provided" else r
       | None => "No reason provided"
       end)
      (User._id user) (Ret.totalRefundAmount st) in
  let returnTotal :=
    Num.add (Js.orZero (Sale.returnTotal sale)) (Ret.totalRefundAmount st) in
  Sale.mk (Sale.store sale) (Sale.invoiceNumber sale) (Sale.customer sale)
          (Ret.items st) (Sale.subtotal sale) (Sale.discount sale)
          (Sale.tax sale) (Sale.total sale)
          returnTotal
          (Num.sub (Sale.total sale) (Js.orZero returnTotal))
          (Sale.payment sale) (Sale.staffMember sale)
          (Sale.returns sale ++ [record]) (Sale.createdAt sale).

(** [sale.save()] refuses a NaN in a returned quantity, in the refund of
    the new return record, in [returnTotal] or in [finalTotal].  (The
    pre-save hook recomputes [finalTotal] by the expression the handler
    has just evaluated.) *)
Definition saleSaves (sale : Sale.t) : bool :=
  forallb (λ it, negb (Num.isNaN (SaleItem.returnedQuantity it)))
          (Sale.items sale)
  && forallb (λ r, negb (Num.isNaN (ReturnRecord.refundAmount r)))
             (Sale.returns sale)
  && negb (Num.isNaN (Sale.returnTotal sale))
  && negb (Num.isNaN (Sale.finalTotal sale)).

(** [(currentDate - saleDate) / (1000 * 60 * 60 * 24) > RETURN_WINDOW_DAYS] *)
Definition daysDifference (now createdAt : Z) : Num.t :=
  Num.div (Num.ofZ (now - createdAt)) (Num.ofZ msPerDay).

Definition RETURN_WINDOW_DAYS : Num.t := Num.ofZ 30.

(** [isStoreOwner || isStoreStaff || isAdmin] *)
Definition mayReturn (storeDoc : Store.t) : bool :=
  (Store.owner storeDoc =? User._id user)%nat
  || existsb (λ staffId, (staffId =? User._id user)%nat) (Store.staff storeDoc)
  || Role_eqb (User.role user) admin.

Definition returnProductsTx (body : Req.Return) : Tx Response :=
  check (negb (Req.returnValidationErrors body)) (Failure 400 ValidationErrors);;
  id ← found (match Req.saleId body with
              | WellFormed i => Some i
              | Malformed => None
              end) (Failure 400 InvalidSaleId);
  storeFilter ← match Req.storeId body with
                | Some Malformed => abort (Failure 400 InvalidStoreId)
                | Some (WellFormed s) => mret (Some s)
                | None => mret None
                end;
  raw ← found (match Req.returnedItems body with
               | Some [] | None => None
               | Some l => Some l
               end) (Failure 400 ReturnItemsRequired);
  lines ← match validateLines raw with
          | inl e => abort (Failure 400 e)
          | inr ls => mret ls
          end;
  doc ← read (λ db, DB.sales db !! id);
  sale ← found
    (match doc, storeFilter with
     | Some s, Some f => if (Sale.store s =? f)%nat then Some s else None
     | d, None => d
     | None, _ => None
     end) (Failure 404 SaleNotFound);
  sdoc ← read (λ db, DB.stores db !! Sale.store sale);
  storeDoc ← found sdoc (Failure 404 StoreNotFound);
  check (mayReturn storeDoc) (Failure 403 ReturnForbidden);;
  check (negb (Num.gtb (daysDifference (Env.now env) (Sale.createdAt sale))
                       RETURN_WINDOW_DAYS))
        (Failure 400 ReturnWindowExpired);;
  st ← returnLines lines (Ret.mk (Sale.items sale) [] Num.zero);
  let sale' := returnedSale sale lines (Req.reason body) st in
  check (saleSaves sale') returnFailed;;
  write (λ db, DB.setSales db (<[id := sale']> (DB.sales db)));;
  mret (ProductsReturned
          (Refund.mk (Ret.returnSummary st) (Ret.totalRefundAmount st)
                     (Sale.finalTotal sale'))).

Definition returnProducts (body : Req.Return) (db : DB.t) : Response * DB.t :=
  transaction (returnProductsTx body) db.
End ReturnProducts.

(** ** The specification's words, on doubles *)

(** Walk the batches oldest expiry first and take
    [min(batch.currentStock, remaining)] from each, until nothing remains:
    the takes, and what is left to allocate at the end. *)
Fixpoint fefo (avail : list (ObjectId * Batch.t)) (remaining : Num.t)
  : list (ObjectId * Num.t) :=
  match avail with
  | [] => []
  | (id, batch) :: rest =>
      if Num.leb remaining Num.zero then []
      else
        let take := Num.min (Batch.currentStock batch) remaining in
        (id, take) :: fefo rest (Num.sub remaining take)
  end.

Fixpoint fefoRest (avail : list (ObjectId * Batch.t)) (remaining : Num.t)
  : Num.t :=
  match avail with
  | [] => remaining
  | (id, batch) :: rest =>
      if Num.leb remaining Num.zero then remaining
      else
        let take := Num.min (Batch.currentStock batch) remaining in
        fefoRest rest (Num.sub remaining take)
  end.

Definition allocated (l : Line.t) : ObjectId * Num.t :=
  (Line.batch l, Line.quantity l).


(** Two databases that differ at most in their batches. *)
Definition sameButBatches (db db' : DB.t) : Prop :=
  DB.stores db' = DB.stores db ∧ DB.customers db' = DB.customers db
  ∧ DB.products db' = DB.products db ∧ DB.sales db' = DB.sales db.

(** The 400 reply of the two stock guards that precede allocation:
    "No available batches with stock" when the query returns nothing,
    "Insufficient total stock" otherwise. *)
Definition shortage (p : ObjectId) (avail : list (ObjectId * Batch.t))
    (quantity : Num.t) : Response :=
  Failure 400
    (match avail with
     | [] => NoAvailableBatches p
     | _ => InsufficientTotalStock p (totalAvailableStock avail) quantity
     end).

(** A session all of whose early replies are failures. *)
Definition failsOnly {A} (m : Tx A) : Prop :=
  ∀ db r, m db = Reply r → isFailure r = true.


(** A processed item that carries a unit price. *)
Definition priced (l : Line.t) : Prop := is_Some (Line.unitPrice l).

(** The share of the cart discount that falls on a processed item: the
    cart discount, [calculatedSubtotal * percentage / 100], times the
    item's part of the subtotal; and the discount the item carries once
    the cart discount has been distributed (its own when the percentage is
    not above zero). *)
Definition cartShare (pct : Num.t) (cart : Cart.t) (item : Line.t) : Num.t :=
  Num.mul (Num.div (Num.mul (Cart.calculatedSubtotal cart) pct) (Num.ofZ 100))
          (Num.div (Line.subtotal item) (Cart.calculatedSubtotal cart)).

Definition discounted (pct : Num.t) (cart : Cart.t) (item : Line.t) : Num.t :=
  if Num.gtb pct Num.zero
  then Num.add (Js.orZero (Line.discount item)) (cartShare pct cart item)
  else Line.discount item.

(** Entry [r] of [recalculatedValues.items] reports the processed item
    [item]: same product, batch and quantity, and its unit price, subtotal
    and discount (cart share included) to two decimals. *)
Definition reports (pct : Num.t) (cart : Cart.t) (item : Line.t)
    (r : RecalcLine.t) : Prop :=
  RecalcLine.productId r = Line.product item
  ∧ RecalcLine.batchId r = Line.batch item
  ∧ RecalcLine.quantity r = Line.quantity item
  ∧ Num.toFixed2 <$> Line.unitPrice item = Some (RecalcLine.unitPrice r)
  ∧ RecalcLine.subtotal r = Num.toFixed2 (Line.subtotal item)
  ∧ RecalcLine.discount r
    = Num.toFixed2 (Js.orZero (discounted pct cart item)).

(** The stored item [it] is the processed item [l] with discount [d]:
    the same product, batch, quantity, price and subtotal, and nothing
    returned yet. *)
Definition storedWith (d : Num.t) (l : Line.t) (it : SaleItem.t) : Prop :=
  SaleItem.product it = Line.product l
  ∧ SaleItem.batch it = Line.batch l
  ∧ SaleItem.quantity it = Line.quantity l
  ∧ Line.unitPrice l = Some (SaleItem.unitPrice it)
  ∧ SaleItem.discount it = d
  ∧ SaleItem.subtotal it = Line.subtotal l
  ∧ SaleItem.returnedQuantity it = Num.zero.

(** The stored item [after] is the processed item [before] with its share
    of the cart discount added to its own discount. *)
Definition sharedOut (pct : Num.t) (cart : Cart.t) (before : Line.t)
    (after : SaleItem.t) : Prop :=
  storedWith (discounted pct cart before) before after.

(** The invariant of [saleSchema]: nothing is returned beyond what was
    bought. *)
Definition bounded (it : SaleItem.t) : Prop :=
  Num.leb (SaleItem.returnedQuantity it) (SaleItem.quantity it) = true.

Definition returnsBounded (db : DB.t) : Prop :=
  ∀ id sale, DB.sales db !! id = Some sale → Forall bounded (Sale.items sale).

(** The stock of batch [b] after the lines of a return, in their order,
    have each added their quantity to the batch they name. *)
Definition stockAfter (b : ObjectId) (lines : list (ObjectId * ObjectId * Num.t))
    (stock : Num.t) : Num.t :=
  fold_left (λ s line, if (line.1.2 =? b)%nat then Num.add s line.2 else s)
            lines stock.

Definition restocked (b : ObjectId) (lines : list (ObjectId * ObjectId * Num.t))
    (x y : option Batch.t) : Prop :=
  y = (λ batch, Batch.setStock batch
                  (stockAfter b lines (Batch.currentStock batch))) <$> x.

(** The refunds of a return summary, added up in order from 0. *)
Definition totalRefund (l : list RefundLine.t) : Num.t :=
  fold_left (λ sum x, Num.add sum (RefundLine.refundAmount x)) l Num.zero.

End Ieee.

(** ** Scenarios on doubles *)

Module Run.
Import Ieee.

Definition n (z : Z) : Num.t := Num.ofZ z.
Definition d (q : Q) : Num.t := Num.ofQ q.

Definition batch (expiry : Z) (price stock : Num.t) : Batch.t :=
  Batch.mk Scenario.P Scenario.theStore expiry price stock stock.

Definition stock (batches : list (ObjectId * Batch.t)) : DB.t :=
  DB.mk {[ Scenario.theStore := Store.mk 7 [8%nat] ]} ∅
        {[ Scenario.P := Product.mk Scenario.theStore "P" None ]}
        (list_to_map batches) ∅.

Definition line (batch : option rawId) (q : Num.t) : Req.Item :=
  Req.mkItem (WellFormed Scenario.P) batch (Js.Num q) None None None.

Definition order (items : list Req.Item) (subtotal total : Num.t)
    (pct : Js.value) (force : bool) : Req.CreateSale :=
  Req.mkCreateSale false None None (Some items) (Js.Num subtotal) pct
                   Js.Undefined (Js.Num total) Scenario.cash force.

Definition giveBack (b : ObjectId) (q : Num.t) : Req.Return :=
  Req.mkReturn false (WellFormed 200) None
    (Some [Req.mkReturnLine (Some (WellFormed Scenario.P)) (Some (WellFormed b))
             (Js.Num q)])
    None.

Definition sell (body : Req.CreateSale) (db : DB.t) : Response * DB.t :=
  createSale Scenario.env0 Scenario.theOwner body db.

Definition giveBackOn (b : ObjectId) (q : Num.t) (db : DB.t) : Response * DB.t :=
  returnProducts (Scenario.at_ Scenario.day) Scenario.aClerk (giveBack b q) db.

(** The scenario of the specification: B1 (expiry 2025-01-01, stock 5,
    price 10) and B2 (expiry 2025-06-01, stock 10, price 12); eight units
    are sold, then two of the three taken from B2 come back. *)
Definition B1 : Batch.t := batch Scenario.jan_1_2025 (n 10) (n 5).
Definition B2 : Batch.t := batch Scenario.jun_1_2025 (n 12) (n 10).
Definition db0 : DB.t := stock [(Scenario.idB1, B1); (Scenario.idB2, B2)].
Definition eightUnits : Req.CreateSale :=
  order [line None (n 8)] (n 86) (n 86) Js.Undefined false.
Definition db1 : DB.t := (sell eightUnits db0).2.
Definition db2 : DB.t := (giveBackOn Scenario.idB2 (n 2) db1).2.

(** A second return: one unit to B1, which is fine, and two more to B2,
    of whose three units two are back already. *)
Definition secondReturn : Req.Return :=
  Req.mkReturn false (WellFormed 200) None
    (Some [Req.mkReturnLine (Some (WellFormed Scenario.P))
             (Some (WellFormed Scenario.idB1)) (Js.Num (n 1));
           Req.mkReturnLine (Some (WellFormed Scenario.P))
             (Some (WellFormed Scenario.idB2)) (Js.Num (n 2))])
    None.

(** Three units, then thirteen more than the rest can cover. *)
Definition twoLines : Req.CreateSale :=
  order [line None (n 3); line None (n 13)] (n 0) (n 0) Js.Undefined false.

(** Stocks of 0.7 and 0.3, left by fractional returns, and a sale of one
    unit. *)
Definition T1 : Batch.t := batch Scenario.jan_1_2025 (n 10) (d (7 # 10)).
Definition T2 : Batch.t := batch Scenario.jun_1_2025 (n 10) (d (3 # 10)).
Definition dbTenths : DB.t := stock [(Scenario.idB1, T1); (Scenario.idB2, T2)].
Definition oneUnit : Req.CreateSale :=
  order [line None (n 1)] (n 10) (n 10) Js.Undefined false.

(** Three units at 0.1, submitted at 0.29. *)
Definition dime : Batch.t := batch Scenario.jun_1_2025 (d (1 # 10)) (n 10).
Definition dbDime : DB.t := stock [(Scenario.idB1, dime)].
Definition threeDimes : Req.CreateSale :=
  order [line None (n 3)] (d (29 # 100)) (d (29 # 100)) Js.Undefined false.

(** One unit at 9.99 with a 15 % cart discount, forced through. *)
Definition cheap : Batch.t := batch Scenario.jun_1_2025 (d (999 # 100)) (n 10).
Definition dbCheap : DB.t := stock [(Scenario.idB1, cheap)].
Definition forced : Req.CreateSale :=
  order [line None (n 1)] (n 0) (n 0) (Js.Num (n 15)) true.

(** One unit at 0.5 with a 1 % cart discount, forced through. *)
Definition half : Batch.t := batch Scenario.jun_1_2025 (d (1 # 2)) (n 10).
Definition dbHalf : DB.t := stock [(Scenario.idB1, half)].
Definition forcedHalf : Req.CreateSale :=
  order [line None (n 1)] (n 0) (n 0) (Js.Num (n 1)) true.

(** One unit sold from a lot of ten, and given back in parts. *)
Definition lot : Batch.t := batch Scenario.jun_1_2025 (n 10) (n 10).
Definition dbLot : DB.t := stock [(Scenario.idB1, lot)].
Definition dbOne : DB.t := (sell oneUnit dbLot).2.

(** What the request checks hand on for an [order], and the working copy
    once the walk-in customer has been created. *)
Definition checked (items : list Req.Item) (subtotal total : Num.t)
  : Checked.t :=
  Checked.mk items (Payment.mk "cash" None) subtotal total Scenario.theStore 100.
Definition withWalkIn (db : DB.t) : DB.t :=
  DB.setCustomers db {[ 100%nat := walkIn Scenario.theStore ]}.


End Run.

(** * Verification *)

(** ** Scenario checks *)

Example db1_stock :
  DB.batches Scenario.db1 !! Scenario.idB1 = Some (Batch.setStock Scenario.B1 0)
  ∧ DB.batches Scenario.db1 !! Scenario.idB2 = Some (Batch.setStock Scenario.B2 7).
Proof. split; vm_compute; reflexivity. Qed.

Example db2_stock :
  DB.batches Scenario.db2 !! Scenario.idB2 = Some (Batch.setStock Scenario.B2 9).
Proof. vm_compute; reflexivity. Qed.

Example dbCanceled_stock :
  DB.batches Scenario.dbCanceled !! Scenario.idB1
  = Some (Batch.setStock Scenario.lot 12).
Proof. vm_compute; reflexivity. Qed.

(** ** Comparisons and arithmetic on numbers *)

Section JsArith.
Implicit Types x y q : Q.

Lemma leb_true x y : Js.leb x y = true ↔ x <= y.
Proof. apply Qle_bool_iff. Qed.

Lemma leb_false x y : Js.leb x y = false ↔ y < x.
Proof.
  unfold Js.leb. rewrite <- not_true_iff_false, Qle_bool_iff.
  split; [apply Qnot_le_lt | apply Qlt_not_le].
Qed.

Lemma ltb_true x y : Js.ltb x y = true ↔ x < y.
Proof. unfold Js.ltb. rewrite negb_true_iff. apply leb_false. Qed.

Lemma ltb_false x y : Js.ltb x y = false ↔ y <= x.
Proof. unfold Js.ltb. rewrite negb_false_iff. apply leb_true. Qed.

Lemma gtb_true x y : Js.gtb x y = true ↔ y < x.
Proof. apply ltb_true. Qed.

Lemma gtb_false x y : Js.gtb x y = false ↔ x <= y.
Proof. apply ltb_false. Qed.


Lemma truthyQ_false q : Js.truthyQ q = false ↔ q == 0.
Proof. unfold Js.truthyQ. rewrite negb_false_iff. apply Qeq_bool_iff. Qed.

Lemma orZero_Some q : Js.orZero (Some q) == q.
Proof.
  simpl. destruct (Js.truthyQ q) eqn:E; [reflexivity|].
  apply truthyQ_false in E. symmetry. exact E.
Qed.

(** [Math.min] returns one of its arguments. *)
Lemma Qmin_cases x y : (x <= y ∧ Qmin x y = x) ∨ (y < x ∧ Qmin x y = y).
Proof.
  unfold Qmin, GenericMinMax.gmin.
  destruct (x ?= y) eqn:E.
  - left. split; [|reflexivity]. apply Qeq_alt in E. rewrite E. apply Qle_refl.
  - left. split; [|reflexivity]. apply Qlt_alt in E. apply Qlt_le_weak, E.
  - right. split; [|reflexivity]. apply Qgt_alt in E. exact E.
Qed.

Lemma Qmin_le_l x y : Qmin x y <= x.
Proof.
  destruct (Qmin_cases x y) as [[? ->]|[? ->]];
    [apply Qle_refl | apply Qlt_le_weak; assumption].
Qed.

(** Seven days, and thirty, in milliseconds. *)
Lemma days_gt (n : Z) now createdAt :
  Js.gtb (daysDifference now createdAt) (inject_Z n) = true
  ↔ (n * msPerDay < now - createdAt)%Z.
Proof.
  rewrite gtb_true, Zlt_Qlt, inject_Z_mult. unfold daysDifference.
  generalize (inject_Z (now - createdAt)) (inject_Z n). intros d k.
  change (_ / inject_Z msPerDay) with (d * (1 # 86400000)).
  change (inject_Z msPerDay) with 86400000.
  split; intros H; lra.
Qed.
End JsArith.

(** ** Stepping through a session *)

Section Stepping.
Context {A B : Type}.
Implicit Types (m : Tx A) (f : A → Tx B) (db : DB.t).

Lemma bind_Continue m f db b db2 :
  (m ≫= f) db = Continue b db2
  ↔ ∃ a db1, m db = Continue a db1 ∧ f a db1 = Continue b db2.
Proof.
  unfold mbind, Tx_bind. destruct (m db) as [a db1|r]; split.
  - intros H. exists a, db1. split; [reflexivity|exact H].
  - intros (a' & db1' & [= -> ->] & H). exact H.
  - intros H. discriminate H.
  - intros (a' & db1' & H & _). discriminate H.
Qed.

Lemma bind_step m f db a db1 :
  m db = Continue a db1 → (m ≫= f) db = f a db1.
Proof. unfold mbind, Tx_bind. intros ->. reflexivity. Qed.

Lemma bind_abort m f db r : m db = Reply r → (m ≫= f) db = Reply r.
Proof. unfold mbind, Tx_bind. intros ->. reflexivity. Qed.
End Stepping.

Lemma check_Continue b r db u db' :
  check b r db = Continue u db' ↔ b = true ∧ db' = db.
Proof.
  destruct b; simpl; split.
  - intros [= _ ->]. split; reflexivity.
  - intros [_ ->]. destruct u. reflexivity.
  - intros H. discriminate H.
  - intros [H _]. discriminate H.
Qed.

Lemma found_Continue {A} (o : option A) r db a db' :
  found o r db = Continue a db' ↔ o = Some a ∧ db' = db.
Proof.
  destruct o as [x|]; simpl; split.
  - intros [= -> ->]. split; reflexivity.
  - intros [[= ->] ->]. reflexivity.
  - intros H. discriminate H.
  - intros [H _]. discriminate H.
Qed.

Lemma read_Continue {A} (f : DB.t → A) db a db' :
  read f db = Continue a db' ↔ a = f db ∧ db' = db.
Proof.
  unfold read. split.
  - intros [= <- <-]. split; reflexivity.
  - intros [-> ->]. reflexivity.
Qed.

Lemma write_Continue (f : DB.t → DB.t) db u db' :
  write f db = Continue u db' ↔ db' = f db.
Proof.
  unfold write. split.
  - intros [= _ <-]. reflexivity.
  - intros ->. destruct u. reflexivity.
Qed.

Lemma mret_Continue {A} (a : A) db a' db' :
  (mret a : Tx A) db = Continue a' db' ↔ a' = a ∧ db' = db.
Proof.
  unfold mret, Tx_ret. split.
  - intros [= <- <-]. split; reflexivity.
  - intros [-> ->]. reflexivity.
Qed.

Lemma transaction_Reply body db r :
  body db = Reply r → transaction body db = (r, db).
Proof. unfold transaction. intros ->. reflexivity. Qed.


(** A handler whose session can only end with replies of one kind leaves
    the database alone whenever it answers anything else. *)
Lemma transaction_unchanged (ok : Response → Prop) body db r db' :
  (∀ r1 db1, body db = Continue r1 db1 → ok r1) →
  transaction body db = (r, db') → ¬ ok r → db' = db.
Proof.
  unfold transaction. intros Hok H Hr.
  destruct (body db) as [r1 db1|r1] eqn:E.
  - injection H as <- <-. destruct Hr. eapply Hok. reflexivity.
  - injection H as _ <-. reflexivity.
Qed.

(** Peel the next step off a session known to have run to its end. *)
Ltac tx_step H :=
  let a := fresh "a" in
  let db := fresh "db" in
  let E := fresh "E" in
  apply bind_Continue in H as (a & db & E & H); cbv beta in H.

Ltac tx_simpl :=
  repeat match goal with
  | H : check _ _ _ = Continue _ _ |- _ =>
      apply check_Continue in H as [H ->]
  | H : found _ _ _ = Continue _ _ |- _ =>
      apply found_Continue in H as [H ->]
  | H : read _ _ = Continue _ _ |- _ =>
      apply read_Continue in H as [-> ->]
  | H : write _ _ = Continue _ _ |- _ =>
      apply write_Continue in H as ->
  | H : mret _ _ = Continue _ _ |- _ =>
      apply mret_Continue in H as [-> ->]
  | H : abort _ _ = Continue _ _ |- _ => discriminate H
  end.

Lemma settle_commits env user body c cart db r db' :
  settle env user body c cart db = Continue r db' → isCreated r.
Proof.
  unfold settle. intros H.
  destruct (_ && negb (Req.forceCreate body)); [discriminate H|].
  do 4 tx_step H. tx_simpl. eexists _, _. reflexivity.
Qed.

Lemma createSaleTx_commits env user body db r db' :
  createSaleTx env user body db = Continue r db' → isCreated r.
Proof.
  unfold createSaleTx. intros H. do 2 tx_step H.
  eapply settle_commits, H.
Qed.

(** Whatever [createSale] answers, short of a created sale, the database is
    the one it started from. *)
Lemma createSale_unchanged env user body db r db' :
  createSale env user body db = (r, db') → ¬ isCreated r → db' = db.
Proof.
  apply transaction_unchanged. intros r1 db1. apply createSaleTx_commits.
Qed.

(** ** The item loop *)


(** ** The eligible batches *)

Lemma insertByExpiry_perm x l : insertByExpiry x l ≡ₚ x :: l.
Proof.
  induction l as [|y l IH]; simpl; [reflexivity|].
  destruct (_ <=? _)%Z; [reflexivity|].
  rewrite IH. apply Permutation_swap.
Qed.

Lemma sortByExpiry_perm l : sortByExpiry l ≡ₚ l.
Proof.
  induction l as [|x l IH]; simpl; [reflexivity|].
  rewrite insertByExpiry_perm, IH. reflexivity.
Qed.

Lemma availableBatches_elem p s db id batch :
  (id, batch) ∈ availableBatches p s db
  ↔ DB.batches db !! id = Some batch ∧ eligible p s (id, batch) = true.
Proof.
  unfold availableBatches. rewrite sortByExpiry_perm.
  rewrite list_elem_of_In, filter_In, <- list_elem_of_In, elem_of_map_to_list.
  reflexivity.
Qed.

Lemma availableBatches_NoDup p s db : NoDup (availableBatches p s db).*1.
Proof.
  unfold availableBatches. rewrite sortByExpiry_perm.
  generalize (NoDup_fst_map_to_list (DB.batches db)).
  generalize (map_to_list (DB.batches db)). intros l.
  induction l as [|kv l IH]; simpl; intros Hnd; [constructor|].
  apply NoDup_cons in Hnd as [Hnot Hnd]. destruct (eligible p s kv).
  - simpl. apply NoDup_cons. split; [|apply IH, Hnd].
    intros Hin. apply Hnot. apply list_elem_of_fmap in Hin as (kv' & -> & Hin).
    apply list_elem_of_fmap. exists kv'. split; [reflexivity|].
    apply list_elem_of_In, filter_In in Hin as [Hin _].
    apply list_elem_of_In, Hin.
  - apply IH, Hnd.
Qed.







Lemma saleQuantity_Some v q :
  saleQuantity v = Some q → v = Js.Num q ∧ 0 < q ∧ Js.isInteger v = true.
Proof.
  destruct v as [| | |x|]; simpl; try discriminate.
  destruct (Js.truthyQ x) eqn:Et; simpl; [|discriminate].
  destruct (Js.leb x 0) eqn:El; simpl; [discriminate|].
  destruct (_ =? _)%Z eqn:Ei; simpl; [|discriminate].
  intros [= <-]. apply leb_false in El. repeat split; assumption.
Qed.



(** ** C4 — an item that names its batch *)




(** ** The request checks *)

Lemma checkRequest_Continue env user body db c db1 :
  checkRequest env user body db = Continue c db1 →
  Req.subtotal body = Js.Num (Checked.subtotal c)
  ∧ Req.total body = Js.Num (Checked.total c)
  ∧ Req.items body = Some (Checked.items c)
  ∧ Req.payment body = Some (Checked.payment c).
Proof.
  unfold checkRequest. intros H. do 4 tx_step H.
  destruct a2 as [subtotal total]. do 2 tx_step H. tx_simpl. simpl.
  destruct (Req.subtotal body) as [| | |s|]; try discriminate E2.
  destruct (Req.total body) as [| | |t|]; try discriminate E2.
  assert (s = subtotal ∧ t = total) as [-> ->].
  { destruct (Req.discountPct body), (Req.tax body);
      first [discriminate E2 | injection E2 as -> ->; split; reflexivity]. }
  repeat split.
  - destruct (Req.items body) as [[|i l]|]; first [discriminate E0 | exact E0].
  - destruct (Req.payment body) as [pay|]; [|discriminate E1].
    destruct (String.eqb _ _); first [discriminate E1 | exact E1].
Qed.

(** ** Rounding to two decimals *)

(** [toFixed(2)] moves a number by at most half a cent. *)
Lemma toFixed2_close x : Qabs (Js.toFixed2 x - x) <= 1 # 200.
Proof.
  unfold Js.toFixed2. rewrite Qred_correct.
  set (n := Qfloor (Qabs x * 100 + (1 # 2))).
  pose proof (Qfloor_le (Qabs x * 100 + (1 # 2))) as Hlo.
  pose proof (Qlt_floor (Qabs x * 100 + (1 # 2))) as Hhi.
  fold n in Hlo, Hhi. rewrite inject_Z_plus in Hhi.
  change (inject_Z 1) with 1 in Hhi.
  destruct (Qle_bool 0 x) eqn:E.
  - apply Qle_bool_iff in E. rewrite (Qabs_pos x E) in Hlo, Hhi.
    rewrite (Qmake_Qdiv n 100). unfold Qdiv.
    change (/ inject_Z (Z.pos 100)) with (1 # 100).
    apply Qabs_Qle_condition. split; lra.
  - assert (Hneg : x < 0).
    { apply Qnot_le_lt. intros H. apply Qle_bool_iff in H. congruence. }
    rewrite (Qabs_neg x) in Hlo, Hhi by lra.
    rewrite (Qmake_Qdiv (- n) 100), inject_Z_opp. unfold Qdiv.
    change (/ inject_Z (Z.pos 100)) with (1 # 100).
    apply Qabs_Qle_condition. split; lra.
Qed.

(** ** The return loop *)

Lemma findItem_Some p b items i it :
  findItem p b items = Some (i, it) →
  items !! i = Some it ∧ SaleItem.product it = p ∧ SaleItem.batch it = b.
Proof.
  unfold findItem. intros H. apply list_find_Some in H as (Hi & [Hp Hb] & _).
  repeat split; assumption.
Qed.

(** One accepted return line. *)
Lemma returnLine_Continue st p b q db st' db' :
  returnLine st (p, b, q) db = Continue st' db' →
  ∃ i it batch,
    findItem p b (Ret.items st) = Some (i, it)
    ∧ q <= SaleItem.quantity it
    ∧ SaleItem.returnedQuantity it + q <= SaleItem.quantity it
    ∧ DB.batches db !! b = Some batch
    ∧ db' = DB.setBatches db
              (<[b := Batch.setStock batch (Batch.currentStock batch + q)]>
                 (DB.batches db))
    ∧ st' = Ret.mk
              (<[i := SaleItem.setReturned it
                        (Js.orZero (Some (SaleItem.returnedQuantity it)) + q)]>
                 (Ret.items st))
              (Ret.returnSummary st ++
                 [RefundLine.mk p b q (SaleItem.unitPrice it) (discountPerUnit it)
                    (effectiveUnitPrice it) (itemRefundAmount it q)])
              (Ret.totalRefundAmount st + itemRefundAmount it q).
Proof.
  unfold returnLine. intros H. tx_step H. destruct a as [i it].
  do 3 tx_step H. tx_step H. tx_step H. tx_step H. tx_step H.
  unfold saveStock in *. tx_simpl.
  apply negb_true_iff, gtb_false in E0.
  apply negb_true_iff, andb_false_iff in E1.
  exists i, it, a2. repeat split; try assumption; try reflexivity.
  destruct E1 as [E1|E1].
  - apply truthyQ_false in E1. rewrite E1. lra.
  - apply gtb_false in E1. exact E1.
Qed.

Lemma grown_refl items : grown items items.
Proof.
  induction items; constructor; [|assumption].
  repeat split; try reflexivity. apply Qle_refl.
Qed.

Lemma grown_trans a b c : grown a b → grown b c → grown a c.
Proof.
  intros Hab. revert c. induction Hab as [|x y l l' (Hp & Hb & Hq & Hr) _ IH];
    intros c Hbc; inversion Hbc as [|y' z l1 l2 (Hp' & Hb' & Hq' & Hr') Hl]; subst.
  - constructor.
  - constructor; [|apply IH, Hl].
    repeat split; try congruence. eapply Qle_trans; eassumption.
Qed.

Lemma grown_insert items i it r :
  items !! i = Some it →
  SaleItem.returnedQuantity it <= r →
  grown items (<[i := SaleItem.setReturned it r]> items).
Proof.
  revert i. induction items as [|x l IH]; intros [|i] Hi Hr; simpl in *;
    try discriminate.
  - injection Hi as ->. constructor; [|apply grown_refl].
    repeat split; try reflexivity. exact Hr.
  - constructor; [|apply IH; assumption].
    repeat split; try reflexivity. apply Qle_refl.
Qed.

(** [find] lands on the same index after the returned quantities grew. *)
Lemma findItem_grown p b items items' i it :
  grown items items' →
  findItem p b items = Some (i, it) →
  ∃ it', findItem p b items' = Some (i, it')
    ∧ SaleItem.quantity it' = SaleItem.quantity it
    ∧ SaleItem.returnedQuantity it <= SaleItem.returnedQuantity it'.
Proof.
  unfold findItem. intros Hg. revert i.
  induction Hg as [|x y l l' (Hp & Hb & Hq & Hr) _ IH]; intros i H; simpl in *.
  - discriminate H.
  - rewrite Hp, Hb. destruct (decide _) as [_|_].
    + injection H as <- <-. exists y. repeat split; assumption.
    + destruct (list_find _ l) as [[j z]|] eqn:E; simpl in *; [|discriminate H].
      injection H as <- <-.
      destruct (IH j eq_refl) as (it' & -> & Hq' & Hr'). simpl.
      exists it'. repeat split; assumption.
Qed.

Lemma returnLine_grown st p b q db st' db' :
  0 < q →
  returnLine st (p, b, q) db = Continue st' db' →
  grown (Ret.items st) (Ret.items st').
Proof.
  intros Hq H.
  apply returnLine_Continue in H as (i & it & batch & Hf & _ & _ & _ & _ & ->).
  cbn [Ret.items]. apply findItem_Some in Hf as (Hi & _ & _).
  apply grown_insert; [exact Hi|].
  rewrite orZero_Some. lra.
Qed.

(** Every line of an accepted return fits what was left of the item it
    points at, as the sale stood when the request came in. *)
Lemma returnLines_fit lines st db st' db' :
  (∀ p b q, (p, b, q) ∈ lines → 0 < q) →
  returnLines lines st db = Continue st' db' →
  grown (Ret.items st) (Ret.items st')
  ∧ ∀ p b q i it,
      (p, b, q) ∈ lines →
      findItem p b (Ret.items st) = Some (i, it) →
      SaleItem.returnedQuantity it + q <= SaleItem.quantity it.
Proof.
  revert st db. induction lines as [|[[p0 b0] q0] rest IH]; intros st db Hpos H.
  - simpl in H. apply mret_Continue in H as [-> _].
    split; [apply grown_refl|]. intros p b q i it Hin. inversion Hin.
  - simpl in H. tx_step H.
    assert (Hq0 : 0 < q0) by (apply (Hpos p0 b0); left).
    pose proof (returnLine_grown _ _ _ _ _ _ _ Hq0 E) as Hg.
    destruct (IH a db0) as [Hg' Hfit]; [intros; eapply Hpos; right; eassumption|exact H|].
    split; [eapply grown_trans; eassumption|].
    intros p b q i it [[= -> -> ->]|Hin]%elem_of_cons Hf.
    + apply returnLine_Continue in E as (i' & it' & _ & Hf' & _ & Hle & _).
      rewrite Hf in Hf'. injection Hf' as <- <-. exact Hle.
    + destruct (findItem_grown _ _ _ _ _ _ Hg Hf) as (it' & Hf' & Hq' & Hr').
      specialize (Hfit _ _ _ _ _ Hin Hf'). rewrite Hq' in Hfit. lra.
Qed.

Lemma validateLines_pos raw lines :
  validateLines raw = inr lines → ∀ p b q, (p, b, q) ∈ lines → 0 < q.
Proof.
  revert lines. induction raw as [|l raw IH]; intros lines H; simpl in H.
  - injection H as <-. intros p b q Hin. inversion Hin.
  - destruct (validateLine l) as [e|[[p0 b0] q0]] eqn:El; [discriminate H|].
    destruct (validateLines raw) as [e|ls]; [discriminate H|].
    injection H as <-.
    intros p b q [[= -> -> ->]|Hin]%elem_of_cons; [|eapply IH; [reflexivity|exact Hin]].
    unfold validateLine in El.
    destruct (Req.productId l) as [[p'|]|], (Req.batchId l) as [[b'|]|];
      try discriminate El;
      destruct (Js.truthy _); simpl in El; try discriminate El;
      destruct (Req.returnQuantity l) as [| | |x|]; try discriminate El;
      destruct (Js.leb x 0) eqn:Ex; try discriminate El.
    injection El as _ _ ->. apply leb_false, Ex.
Qed.

(** ** Early replies of the return and cancel handlers *)

Lemma failsOnly_bind {A B} (m : Tx A) (f : A → Tx B) :
  failsOnly m → (∀ a, failsOnly (f a)) → failsOnly (m ≫= f).
Proof.
  unfold failsOnly, mbind, Tx_bind. intros Hm Hf db r.
  destruct (m db) as [a db1|r1] eqn:E.
  - apply Hf.
  - intros [= <-]. eapply Hm, E.
Qed.

Lemma failsOnly_check b status e : failsOnly (check b (Failure status e)).
Proof. intros db r. destruct b; simpl; [discriminate|intros [= <-]; reflexivity]. Qed.

Lemma failsOnly_found {A} (o : option A) status e :
  failsOnly (found o (Failure status e)).
Proof. intros db r. destruct o; simpl; [discriminate|intros [= <-]; reflexivity]. Qed.

Lemma failsOnly_abort {A} status e : failsOnly (@abort A (Failure status e)).
Proof. intros db r [= <-]. reflexivity. Qed.

Lemma failsOnly_read {A} (f : DB.t → A) : failsOnly (read f).
Proof. intros db r. discriminate. Qed.

Lemma failsOnly_write f : failsOnly (write f).
Proof. intros db r. discriminate. Qed.

Lemma failsOnly_mret {A} (a : A) : failsOnly (mret a : Tx A).
Proof. intros db r. discriminate. Qed.

Create HintDb failures.
#[local] Hint Resolve failsOnly_check failsOnly_found failsOnly_abort
  failsOnly_read failsOnly_write failsOnly_mret : failures.

Ltac fails_only :=
  repeat first
    [ apply failsOnly_bind; [|intros ?]
    | solve [auto with failures]
    | match goal with
      | |- failsOnly (match ?x with _ => _ end) => destruct x
      | |- failsOnly (let '(_, _) := ?x in _) => destruct x
      end ].

Lemma failsOnly_returnLine st line : failsOnly (returnLine st line).
Proof.
  destruct line as [[p b] q]. unfold returnLine, saveStock. fails_only.
Qed.

Lemma failsOnly_returnLines lines st : failsOnly (returnLines lines st).
Proof.
  revert st. induction lines as [|line rest IH]; intros st; simpl.
  - apply failsOnly_mret.
  - apply failsOnly_bind; [apply failsOnly_returnLine|exact IH].
Qed.

Lemma failsOnly_returnProductsTx env user body :
  failsOnly (returnProductsTx env user body).
Proof.
  unfold returnProductsTx. fails_only. apply failsOnly_returnLines.
Qed.

Lemma failsOnly_restoreInventory items : failsOnly (restoreInventory items).
Proof.
  induction items as [|item rest IH]; simpl.
  - apply failsOnly_mret.
  - unfold saveStock. fails_only.
Qed.

Lemma failsOnly_cancelSaleTx env user saleId :
  failsOnly (cancelSaleTx env user saleId).
Proof.
  unfold cancelSaleTx. fails_only. apply failsOnly_restoreInventory.
Qed.

Lemma isFailure_true r : isFailure r = true → ∃ status e, r = Failure status e.
Proof. destruct r; try discriminate. intros _. eexists _, _. reflexivity. Qed.

(** What a return that ran to its end went through. *)
Lemma returnProductsTx_Continue env user body db r db' :
  returnProductsTx env user body db = Continue r db' →
  ∃ id sale storeDoc raw lines st dbL,
    Req.saleId body = WellFormed id
    ∧ Req.returnedItems body = Some raw
    ∧ validateLines raw = inr lines
    ∧ DB.sales db !! id = Some sale
    ∧ DB.stores db !! Sale.store sale = Some storeDoc
    ∧ ((Store.owner storeDoc =? User._id user)%nat
       || existsb (λ staffId, (staffId =? User._id user)%nat) (Store.staff storeDoc)
       || Role_eqb (User.role user) admin) = true
    ∧ Js.gtb (daysDifference (Env.now env) (Sale.createdAt sale))
             RETURN_WINDOW_DAYS = false
    ∧ returnLines lines (Ret.mk (Sale.items sale) [] 0) db = Continue st dbL
    ∧ db' = DB.setSales dbL
              (<[id := returnedSale env user sale lines (Req.reason body) st]>
                 (DB.sales dbL))
    ∧ r = ProductsReturned
            (Refund.mk (Ret.returnSummary st) (Ret.totalRefundAmount st)
               (Sale.finalTotal
                  (returnedSale env user sale lines (Req.reason body) st))).
Proof.
  unfold returnProductsTx. intros H.
  apply bind_Continue in H as (? & d0 & Evalid & H).
  apply bind_Continue in H as (id & d1 & Eid & H).
  apply bind_Continue in H as (filter & d2 & Efilter & H).
  apply bind_Continue in H as (raw & d3 & Eraw & H).
  apply bind_Continue in H as (lines & d4 & Elines & H).
  apply bind_Continue in H as (doc & d5 & Edoc & H).
  apply bind_Continue in H as (sale & d6 & Esale & H).
  apply bind_Continue in H as (sdoc & d7 & Esdoc & H).
  apply bind_Continue in H as (storeDoc & d8 & Estore & H).
  apply bind_Continue in H as (? & d9 & Eauth & H).
  apply bind_Continue in H as (? & d10 & Ewindow & H).
  apply bind_Continue in H as (st & dbL & Eloop & H).
  apply bind_Continue in H as (? & d12 & Ewrite & H).
  tx_simpl.
  assert (d2 = db) as ->.
  { destruct (Req.storeId body) as [[s|]|]; try discriminate Efilter;
      apply mret_Continue in Efilter as [_ ->]; reflexivity. }
  assert (d4 = db) as ->.
  { destruct (validateLines raw); [discriminate Elines|].
    apply mret_Continue in Elines as [_ ->]. reflexivity. }
  exists id, sale, storeDoc, raw, lines, st, dbL.
  apply negb_true_iff in Ewindow.
  assert (Hid : Req.saleId body = WellFormed id)
    by (destruct (Req.saleId body); [injection Eid as ->; reflexivity|discriminate Eid]).
  assert (Hraw : Req.returnedItems body = Some raw)
    by (destruct (Req.returnedItems body) as [[|? ?]|];
          first [discriminate Eraw | exact Eraw]).
  assert (Hval : validateLines raw = inr lines).
  { destruct (validateLines raw) as [e|ls]; [discriminate Elines|].
    apply mret_Continue in Elines as [-> _]. reflexivity. }
  assert (Hsale : DB.sales db !! id = Some sale).
  { destruct (DB.sales db !! id) as [s|]; [|destruct filter; discriminate Esale].
    destruct filter as [f|]; [|exact Esale].
    destruct (_ =? _)%nat; [exact Esale|discriminate Esale]. }
  repeat split; assumption.
Qed.

(** ** A return that does not run to its end *)

Lemma returnProductsTx_commits env user body db r db' :
  returnProductsTx env user body db = Continue r db' → isReturned r.
Proof.
  intros H. apply returnProductsTx_Continue in H
    as (? & ? & ? & ? & ? & ? & ? & _ & _ & _ & _ & _ & _ & _ & _ & _ & ->).
  eexists. reflexivity.
Qed.

(** Whatever [returnProducts] answers, short of success, the database is
    the one it started from. *)
Lemma returnProducts_unchanged env user body db r db' :
  returnProducts env user body db = (r, db') → ¬ isReturned r → db' = db.
Proof.
  apply transaction_unchanged. intros r1 db1. apply returnProductsTx_commits.
Qed.

(** ** Stock put back on batches *)

Lemma restocked_same x : restocked 0 x x.
Proof.
  destruct x as [b|]; simpl; [|exact I].
  split; [destruct b; reflexivity|lra].
Qed.

Lemma restocked_Qeq d d' x y : d == d' → restocked d x y → restocked d' x y.
Proof.
  intros Hd. destruct x as [bx|], y as [by'|]; simpl; try tauto.
  intros [H1 H2]. split; [exact H1|]. rewrite H2, Hd. reflexivity.
Qed.

Lemma restocked_trans d1 d2 x y z :
  restocked d1 x y → restocked d2 y z → restocked (d1 + d2) x z.
Proof.
  destruct x as [bx|], y as [by'|], z as [bz|]; simpl; try tauto.
  intros [H1 H2] [H3 H4]. split.
  - rewrite H3, H1. reflexivity.
  - rewrite H4, H2. lra.
Qed.

(** Writing [currentStock + q] to batch [b] restocks [b] by [q] and every
    other batch by nothing. *)
Lemma restocked_save (batches : gmap ObjectId Batch.t) b batch q b' :
  batches !! b = Some batch →
  restocked (if (b =? b')%nat then q else 0)
    (batches !! b')
    (<[b := Batch.setStock batch (Batch.currentStock batch + q)]> batches !! b').
Proof.
  intros Hb. destruct (Nat.eqb_spec b b') as [<-|Hne].
  - rewrite lookup_insert_eq, Hb. simpl. split; reflexivity.
  - rewrite lookup_insert_ne by exact Hne. apply restocked_same.
Qed.

Lemma sameButBatches_refl db : sameButBatches db db.
Proof. repeat split. Qed.

Lemma sameButBatches_trans a b c :
  sameButBatches a b → sameButBatches b c → sameButBatches a c.
Proof.
  intros (H1 & H2 & H3 & H4) (H5 & H6 & H7 & H8).
  repeat split; congruence.
Qed.

(** The return loop as a whole: each batch gets back the sum of the lines
    that name it, nothing else in the database moves, and the refund is the
    sum of the line refunds. *)
Lemma returnLines_effects lines st db st' db' :
  returnLines lines st db = Continue st' db' →
  (∀ b, restocked (returnedOn b lines) (DB.batches db !! b) (DB.batches db' !! b))
  ∧ sameButBatches db db'
  ∧ ∃ summary,
      Ret.returnSummary st' = Ret.returnSummary st ++ summary
      ∧ Ret.totalRefundAmount st' == Ret.totalRefundAmount st + totalRefund summary.
Proof.
  revert st db. induction lines as [|[[p b0] q] rest IH]; intros st db H; simpl in H.
  - apply mret_Continue in H as [-> ->]. split; [|split].
    + intros b. apply restocked_same.
    + apply sameButBatches_refl.
    + exists []. rewrite app_nil_r. split; [reflexivity|]. simpl. lra.
  - tx_step H. destruct (IH _ _ H) as (Hstock & Hsame & summary & Hsum & Htot).
    apply returnLine_Continue in E
      as (i & it & batch & _ & _ & _ & Hb & -> & ->).
    split; [|split].
    + intros b. simpl. eapply restocked_trans; [|apply Hstock].
      simpl. apply restocked_save, Hb.
    + eapply sameButBatches_trans; [|exact Hsame]. repeat split.
    + eexists (_ :: summary). simpl in Hsum, Htot.
      rewrite Hsum, <- app_assoc. split; [reflexivity|].
      rewrite Htot. simpl. lra.
Qed.

(** ** A return of one line *)




(** ** C9 — canceling a sale *)

Lemma mayCancel_true user store :
  ((Store.owner store =? User._id user)%nat || Role_eqb (User.role user) admin) = true
  ↔ mayCancel user store.
Proof.
  unfold mayCancel. rewrite orb_true_iff, Nat.eqb_eq.
  destruct (User.role user); simpl; intuition discriminate.
Qed.

(** The restore loop never fails; it puts every item's full quantity back
    on the item's batch, where that batch still exists. *)
Lemma restoreInventory_effects items db :
  ∃ db',
    restoreInventory items db = Continue tt db'
    ∧ (∀ b, restocked (quantityOn b items)
              (DB.batches db !! b) (DB.batches db' !! b))
    ∧ sameButBatches db db'.
Proof.
  revert db. induction items as [|item rest IH]; intros db; simpl.
  - exists db. split; [reflexivity|]. split; [|apply sameButBatches_refl].
    intros b. apply restocked_same.
  - unfold mbind, Tx_bind, read, saveStock, write.
    destruct (DB.batches db !! SaleItem.batch item) as [batch|] eqn:Eb.
    + match goal with
      | |- ∃ db', restoreInventory rest ?d = _ ∧ _ =>
          destruct (IH d) as (db' & Hrun & Hstock & Hsame)
      end.
      exists db'. split; [exact Hrun|]. split.
      * intros b. eapply restocked_trans; [|apply Hstock].
        simpl. apply restocked_save, Eb.
      * eapply sameButBatches_trans; [|exact Hsame]. repeat split.
    + destruct (IH db) as (db' & Hrun & Hstock & Hsame).
      exists db'. unfold mret, Tx_ret. split; [exact Hrun|]. split; [|exact Hsame].
      intros b. specialize (Hstock b). simpl.
      destruct (Nat.eqb_spec (SaleItem.batch item) b) as [<-|Hne].
      * rewrite Eb in *.
        destruct (DB.batches db' !! SaleItem.batch item); [destruct Hstock|exact I].
      * eapply restocked_Qeq; [|exact Hstock]. lra.
Qed.

Lemma cancelSaleTx_Continue env user saleId db r db' :
  cancelSaleTx env user saleId db = Continue r db' →
  ∃ id sale store dbR,
    saleId = WellFormed id
    ∧ DB.sales db !! id = Some sale
    ∧ DB.stores db !! Sale.store sale = Some store
    ∧ mayCancel user store
    ∧ (Env.now env - Sale.createdAt sale <= 7 * msPerDay)%Z
    ∧ restoreInventory (Sale.items sale) db = Continue tt dbR
    ∧ db' = DB.setSales dbR (delete id (DB.sales dbR))
    ∧ r = SaleCanceled.
Proof.
  unfold cancelSaleTx. destruct saleId as [id|]; [|discriminate].
  intros H.
  apply bind_Continue in H as (doc & d1 & Edoc & H).
  apply bind_Continue in H as (sale & d2 & Esale & H).
  apply bind_Continue in H as (sdoc & d3 & Esdoc & H).
  apply bind_Continue in H as (store & d4 & Estore & H).
  apply bind_Continue in H as (? & d5 & Eauth & H).
  apply bind_Continue in H as (? & d6 & Ewin & H).
  apply bind_Continue in H as (u & dbR & Erestore & H).
  apply bind_Continue in H as (? & d8 & Ewrite & H).
  tx_simpl. destruct u.
  exists id, sale, store, dbR. repeat split; try assumption; try reflexivity.
  - apply mayCancel_true, Eauth.
  - apply negb_true_iff in Ewin.
    destruct (Z.le_gt_cases (Env.now env - Sale.createdAt sale) (7 * msPerDay)) as [Hle|Hgt];
      [exact Hle|].
    apply (days_gt 7) in Hgt. change (inject_Z 7) with 7 in Hgt. congruence.
Qed.






(** ** Stock never goes below zero *)

Lemma stocksNonneg_save db b batch q :
  stocksNonneg db → 0 <= q →
  stocksNonneg (DB.setBatches db (<[b := Batch.setStock batch q]> (DB.batches db))).
Proof.
  intros Hinv Hq b' batch'. simpl.
  destruct (decide (b' = b)) as [->|Hne].
  - rewrite lookup_insert_eq. intros [= <-]. exact Hq.
  - rewrite lookup_insert_ne by congruence. apply Hinv.
Qed.

Lemma stocksNonneg_restocked db db' (d : ObjectId → Q) :
  stocksNonneg db →
  (∀ b, 0 <= d b) →
  (∀ b, restocked (d b) (DB.batches db !! b) (DB.batches db' !! b)) →
  stocksNonneg db'.
Proof.
  intros Hinv Hd Hre b batch' Hb. specialize (Hre b). rewrite Hb in Hre.
  destruct (DB.batches db !! b) as [batch|] eqn:E; simpl in Hre; [|destruct Hre].
  destruct Hre as [_ Hre]. specialize (Hinv _ _ E). specialize (Hd b). lra.
Qed.

Lemma allocate_nonneg p quantity disc dflt avail st db st' db' :
  stocksNonneg db →
  Forall (λ it, 0 <= SaleItem.quantity it) (Alloc.allocations st) →
  allocate p quantity disc dflt avail st db = Continue st' db' →
  stocksNonneg db' ∧ sameButBatches db db'
  ∧ Forall (λ it, 0 <= SaleItem.quantity it) (Alloc.allocations st').
Proof.
  revert st db. induction avail as [|[id batch] rest IH]; intros st db Hinv Hitems H; simpl in H.
  - apply mret_Continue in H as [-> ->]. repeat split; assumption.
  - destruct (Js.leb (Alloc.remainingToAllocate st) 0) eqn:Erem.
    { apply mret_Continue in H as [-> ->]. repeat split; assumption. }
    destruct (Js.leb (Batch.currentStock batch) 0) eqn:Estock.
    { eapply IH; eassumption. }
    apply leb_false in Erem, Estock.
    tx_step H. unfold saveStock in E. tx_simpl.
    pose proof (Qmin_le_l (Batch.currentStock batch) (Alloc.remainingToAllocate st)).
    apply IH in H as (Hinv' & Hsame & Hitems').
    + split; [exact Hinv'|]. split; [|exact Hitems'].
      eapply sameButBatches_trans; [|exact Hsame]. repeat split.
    + apply stocksNonneg_save; [exact Hinv|lra].
    + cbn [Alloc.allocations]. apply Forall_app. split; [exact Hitems|].
      constructor; [|constructor]. cbn [SaleItem.quantity].
      destruct (Qmin_cases (Batch.currentStock batch) (Alloc.remainingToAllocate st))
        as [[_ ->]|[_ ->]]; lra.
Qed.

Lemma processItem_nonneg storeId cart item db cart' db' :
  stocksNonneg db →
  Forall (λ it, 0 <= SaleItem.quantity it) (Cart.processedItems cart) →
  processItem storeId cart item db = Continue cart' db' →
  stocksNonneg db' ∧ sameButBatches db db'
  ∧ Forall (λ it, 0 <= SaleItem.quantity it) (Cart.processedItems cart').
Proof.
  intros Hinv Hitems H. unfold processItem in H.
  destruct (Req.product item) as [p|]; [|discriminate H].
  apply bind_Continue in H as (quantity & d1 & Eq & H).
  apply bind_Continue in H as (doc & d2 & Edoc & H).
  apply bind_Continue in H as (product & d3 & Eprod & H).
  apply bind_Continue in H as (avail & d4 & Eavail & H).
  apply bind_Continue in H as (? & d5 & Enonempty & H).
  apply bind_Continue in H as (? & d6 & Etotal & H).
  tx_simpl. apply saleQuantity_Some in Eq as (_ & Hq & _).
  destruct (Req.batch item) as [raw|].
  - unfold allocateSpecified in H. destruct raw as [b|]; [|discriminate H].
    apply bind_Continue in H as (bdoc & d7 & Ebdoc & H). tx_simpl.
    destruct (DB.batches db !! b) as [specifiedBatch|]; [|discriminate H].
    destruct (_ && _); [|discriminate H].
    destruct (Js.ltb (Batch.currentStock specifiedBatch) quantity) eqn:Elt; [discriminate H|].
    apply ltb_false in Elt.
    apply bind_Continue in H as (? & d8 & Esave & H). unfold saveStock in Esave. tx_simpl.
    split; [|split].
    + apply stocksNonneg_save; [exact Hinv|lra].
    + repeat split.
    + cbn [Cart.processedItems]. apply Forall_app. split; [exact Hitems|].
      constructor; [|constructor]. cbn [SaleItem.quantity]. lra.
  - apply bind_Continue in H as (st & d7 & Ealloc & H).
    apply bind_Continue in H as (? & d8 & Edone & H). tx_simpl.
    apply allocate_nonneg in Ealloc as (Hinv' & Hsame & Hitems'); [|exact Hinv|constructor].
    split; [exact Hinv'|]. split; [exact Hsame|].
    cbn [Cart.processedItems]. apply Forall_app. split; assumption.
Qed.

Lemma processItems_nonneg storeId items cart db cart' db' :
  stocksNonneg db →
  Forall (λ it, 0 <= SaleItem.quantity it) (Cart.processedItems cart) →
  processItems storeId items cart db = Continue cart' db' →
  stocksNonneg db' ∧ sameButBatches db db'
  ∧ Forall (λ it, 0 <= SaleItem.quantity it) (Cart.processedItems cart').
Proof.
  revert cart db. induction items as [|item rest IH]; intros cart db Hinv Hitems H; simpl in H.
  - apply mret_Continue in H as [-> ->]. repeat split; assumption.
  - tx_step H. apply processItem_nonneg in E as (Hinv' & Hsame & Hitems'); try assumption.
    apply IH in H as (Hinv'' & Hsame' & Hitems''); try assumption.
    split; [exact Hinv''|]. split; [|exact Hitems''].
    eapply sameButBatches_trans; eassumption.
Qed.

Lemma checkRequest_frame env user body db c db1 :
  checkRequest env user body db = Continue c db1 →
  DB.batches db1 = DB.batches db ∧ DB.sales db1 = DB.sales db.
Proof.
  unfold checkRequest. intros H.
  apply bind_Continue in H as (? & d1 & E1 & H).
  apply bind_Continue in H as (items & d2 & E2 & H).
  apply bind_Continue in H as (payment & d3 & E3 & H).
  apply bind_Continue in H as ([subtotal total] & d4 & E4 & H).
  apply bind_Continue in H as (storeId & d5 & E5 & H).
  apply bind_Continue in H as (customerId & d6 & E6 & H).
  tx_simpl.
  assert (d5 = db) as ->.
  { unfold resolveStore in E5. destruct (User.role user).
    - destruct (Req.store body) as [[i|]|]; try discriminate E5.
      tx_step E5. tx_simpl. reflexivity.
    - tx_step E5. tx_simpl. reflexivity.
    - destruct (Req.store body) as [[i|]|]; try discriminate E5.
      tx_step E5. tx_simpl. reflexivity. }
  unfold resolveCustomer in E6. destruct (Req.customer body) as [[cid|]|]; try discriminate E6.
  - do 3 tx_step E6. tx_simpl. split; reflexivity.
  - tx_step E6. apply read_Continue in E as [-> ->].
    destruct (findOne _ _) as [[cid ?]|].
    + tx_simpl. split; reflexivity.
    + do 3 tx_step E6. tx_simpl. split; reflexivity.
Qed.

Lemma distribute_quantities pct cart :
  Forall (λ it, 0 <= SaleItem.quantity it) (Cart.processedItems cart) →
  Forall (λ it, 0 <= SaleItem.quantity it) (distribute pct cart).
Proof.
  unfold distribute. destruct (Js.gtb pct 0); [|tauto].
  intros H. apply Forall_fmap. eapply Forall_impl; [exact H|].
  intros it Hit. exact Hit.
Qed.

(** [createSale] keeps every stock and every sold quantity at or above
    zero. *)
Lemma createSale_nonneg env user body db r db' :
  createSale env user body db = (r, db') →
  stocksNonneg db → quantitiesNonneg db →
  stocksNonneg db' ∧ quantitiesNonneg db'.
Proof.
  unfold createSale, transaction. intros H Hinv Hq.
  destruct (createSaleTx env user body db) as [r1 d1|r1] eqn:E;
    injection H as <- <-; [|split; assumption].
  unfold createSaleTx in E.
  apply bind_Continue in E as (c & dc & Ec & E).
  apply bind_Continue in E as (cart & dN & Eitems & E).
  apply checkRequest_frame in Ec as [Hb Hs].
  apply processItems_nonneg in Eitems as (Hinv' & (_ & _ & _ & Hsales) & Hitems).
  2:{ intros b batch. rewrite Hb. apply Hinv. }
  2:{ constructor. }
  unfold settle in E.
  destruct (_ && negb (Req.forceCreate body)); [discriminate E|].
  apply bind_Continue in E as (? & d2 & E2 & E).
  apply bind_Continue in E as (taken & d3 & E3 & E).
  apply bind_Continue in E as (? & d4 & E4 & E).
  apply bind_Continue in E as (? & d5 & E5 & E).
  tx_simpl. split.
  - exact Hinv'.
  - intros id sale. simpl. destruct (decide (id = Env.freshSale env)) as [->|Hne].
    + rewrite lookup_insert_eq. intros [= <-]. simpl.
      apply distribute_quantities, Hitems.
    + rewrite lookup_insert_ne by congruence. rewrite Hsales, Hs. apply Hq.
Qed.

Lemma returnedOn_nonneg b lines :
  (∀ p b' q, (p, b', q) ∈ lines → 0 < q) → 0 <= returnedOn b lines.
Proof.
  induction lines as [|[[p b'] q] rest IH]; intros Hpos; simpl; [lra|].
  assert (0 < q) by (apply (Hpos p b'); left).
  assert (0 <= returnedOn b rest) by (apply IH; intros; eapply Hpos; right; eassumption).
  destruct (b' =? b)%nat; lra.
Qed.

Lemma quantityOn_nonneg b items :
  Forall (λ it, 0 <= SaleItem.quantity it) items → 0 <= quantityOn b items.
Proof.
  induction 1 as [|it rest Hit _ IH]; simpl; [lra|].
  destruct (SaleItem.batch it =? b)%nat; lra.
Qed.

Lemma grown_quantities items items' :
  grown items items' →
  Forall (λ it, 0 <= SaleItem.quantity it) items →
  Forall (λ it, 0 <= SaleItem.quantity it) items'.
Proof.
  induction 1 as [|x y l l' (_ & _ & Hq & _) _ IH]; intros H; [constructor|].
  apply Forall_cons in H as [Hx Hl]. constructor; [rewrite Hq; exact Hx|apply IH, Hl].
Qed.

(** [returnProducts] keeps every stock and every sold quantity at or above
    zero. *)
Lemma returnProducts_nonneg env user body db r db' :
  returnProducts env user body db = (r, db') →
  stocksNonneg db → quantitiesNonneg db →
  stocksNonneg db' ∧ quantitiesNonneg db'.
Proof.
  unfold returnProducts, transaction. intros H Hinv Hq.
  destruct (returnProductsTx env user body db) as [r1 d1|r1] eqn:E;
    injection H as <- <-; [|split; assumption].
  apply returnProductsTx_Continue in E
    as (id & sale & storeDoc & raw & lines & st & dbL
        & _ & _ & Hval & Hsale & _ & _ & _ & Hloop & -> & _).
  pose proof (validateLines_pos _ _ Hval) as Hpos.
  destruct (returnLines_effects _ _ _ _ _ Hloop) as (Hstock & (_ & _ & _ & Hsales) & _).
  destruct (returnLines_fit _ _ _ _ _ Hpos Hloop) as [Hgrown _].
  split.
  - apply (stocksNonneg_restocked db _ (λ b, returnedOn b lines)); try assumption.
    intros b. apply returnedOn_nonneg, Hpos.
  - intros id' sale'. simpl. rewrite Hsales.
    destruct (decide (id' = id)) as [->|Hne].
    + rewrite lookup_insert_eq. intros [= <-]. simpl.
      eapply grown_quantities; [exact Hgrown|]. simpl. eapply Hq, Hsale.
    + rewrite lookup_insert_ne by congruence. apply Hq.
Qed.

(** [cancelSale] keeps every stock and every sold quantity at or above
    zero. *)
Lemma cancelSale_nonneg env user saleId db r db' :
  cancelSale env user saleId db = (r, db') →
  stocksNonneg db → quantitiesNonneg db →
  stocksNonneg db' ∧ quantitiesNonneg db'.
Proof.
  unfold cancelSale, transaction. intros H Hinv Hq.
  destruct (cancelSaleTx env user saleId db) as [r1 d1|r1] eqn:E;
    injection H as <- <-; [|split; assumption].
  apply cancelSaleTx_Continue in E
    as (id & sale & store & dbR & _ & Hsale & _ & _ & _ & Hrun & -> & _).
  destruct (restoreInventory_effects (Sale.items sale) db)
    as (dbR' & Hrun' & Hstock & (_ & _ & _ & Hsales)).
  assert (dbR' = dbR) as -> by congruence.
  split.
  - apply (stocksNonneg_restocked db _ (λ b, quantityOn b (Sale.items sale)));
      try assumption.
    intros b. apply quantityOn_nonneg. eapply Hq, Hsale.
  - intros id' sale'. simpl. rewrite Hsales. intros Hl.
    apply lookup_delete_Some in Hl as [_ Hl]. eapply Hq, Hl.
Qed.

(** ** C1 — stock after a cancellation that follows a return *)


(** * Further properties of the sale controller *)

(** ** Queries *)

Lemma findOne_Some {A} (cond : ObjectId → A → bool) (m : gmap ObjectId A) k v :
  findOne cond m = Some (k, v) → m !! k = Some v ∧ cond k v = true.
Proof.
  unfold findOne. intros H. apply head_Some_elem_of in H.
  apply list_elem_of_In, filter_In in H as [H Hc].
  apply list_elem_of_In, elem_of_map_to_list in H. split; assumption.
Qed.

Lemma findOne_None {A} (cond : ObjectId → A → bool) (m : gmap ObjectId A) :
  findOne cond m = None → ∀ k v, m !! k = Some v → cond k v = false.
Proof.
  unfold findOne. intros H k v Hk. destruct (cond k v) eqn:E; [|reflexivity].
  assert (Hin : (k, v) ∈ List.filter (λ kv, cond kv.1 kv.2) (map_to_list m)).
  { apply list_elem_of_In, filter_In. split; [|exact E].
    apply list_elem_of_In, elem_of_map_to_list. exact Hk. }
  destruct (List.filter _ _); [inversion Hin|discriminate H].
Qed.

Lemma findOne_is_Some {A} (cond : ObjectId → A → bool) (m : gmap ObjectId A) k v :
  m !! k = Some v → cond k v = true → is_Some (findOne cond m).
Proof.
  intros Hk Hc. destruct (findOne cond m) eqn:E; [eexists; reflexivity|].
  rewrite (findOne_None _ _ E _ _ Hk) in Hc. discriminate Hc.
Qed.

Lemma findOne_unique {A} (cond : ObjectId → A → bool) (m : gmap ObjectId A) k v :
  m !! k = Some v → cond k v = true →
  (∀ k' v', m !! k' = Some v' → cond k' v' = true → k' = k) →
  findOne cond m = Some (k, v).
Proof.
  intros Hk Hc Huniq. destruct (findOne_is_Some _ _ _ _ Hk Hc) as [[k' v'] E].
  rewrite E. apply findOne_Some in E as [Hk' Hc'].
  pose proof (Huniq _ _ Hk' Hc') as ->. congruence.
Qed.

(** ** Sums *)

Lemma sumOf_cons {A} (f : A → Q) x l : sumOf f (x :: l) = f x + sumOf f l.
Proof. reflexivity. Qed.

Lemma sumOf_app {A} (f : A → Q) l1 l2 :
  sumOf f (l1 ++ l2) == sumOf f l1 + sumOf f l2.
Proof.
  induction l1 as [|x l1 IH]; simpl; [lra|].
  change (foldr (λ x acc, f x + acc) 0 (l1 ++ l2)) with (sumOf f (l1 ++ l2)).
  change (foldr (λ x acc, f x + acc) 0 l1) with (sumOf f l1).
  rewrite IH. lra.
Qed.

Lemma quantityOn_app b l1 l2 :
  quantityOn b (l1 ++ l2) == quantityOn b l1 + quantityOn b l2.
Proof. induction l1 as [|x l1 IH]; simpl; [lra|]. rewrite IH. lra. Qed.

Lemma restocked_write (batches : gmap ObjectId Batch.t) b batch q d b' :
  batches !! b = Some batch →
  q == Batch.currentStock batch + d →
  restocked (if (b =? b')%nat then d else 0)
    (batches !! b') (<[b := Batch.setStock batch q]> batches !! b').
Proof.
  intros Hb Hq. destruct (Nat.eqb_spec b b') as [<-|Hne].
  - rewrite lookup_insert_eq, Hb. simpl. split; [reflexivity|exact Hq].
  - rewrite lookup_insert_ne by exact Hne. apply restocked_same.
Qed.

(** ** What the item loop of [createSale] records and takes *)

Lemma allocate_inv p quantity disc dflt avail st db st' db' :
  NoDup avail.*1 →
  (∀ kv, kv ∈ avail → DB.batches db !! kv.1 = Some kv.2) →
  allocate p quantity disc dflt avail st db = Continue st' db' →
  ∃ new,
    Alloc.allocations st' = Alloc.allocations st ++ new
    ∧ Forall (λ it, recordOf p it
                    ∧ SaleItem.discount it
                      = batchDiscount disc (SaleItem.quantity it) quantity) new
    ∧ Alloc.subtotalSoFar st'
      == Alloc.subtotalSoFar st + sumOf SaleItem.subtotal new
    ∧ Alloc.discountSoFar st'
      == Alloc.discountSoFar st + sumOf SaleItem.discount new
    ∧ Alloc.remainingToAllocate st'
      == Alloc.remainingToAllocate st - sumOf SaleItem.quantity new
    ∧ (0 <= Alloc.remainingToAllocate st → 0 <= Alloc.remainingToAllocate st')
    ∧ (∀ b, restocked (- quantityOn b new)
              (DB.batches db !! b) (DB.batches db' !! b))
    ∧ sameButBatches db db'.
Proof.
  assert (Hnil : ∀ st db, ∃ new : list SaleItem.t,
    Alloc.allocations st = Alloc.allocations st ++ new
    ∧ Forall (λ it, recordOf p it
                    ∧ SaleItem.discount it
                      = batchDiscount disc (SaleItem.quantity it) quantity) new
    ∧ Alloc.subtotalSoFar st
      == Alloc.subtotalSoFar st + sumOf SaleItem.subtotal new
    ∧ Alloc.discountSoFar st
      == Alloc.discountSoFar st + sumOf SaleItem.discount new
    ∧ Alloc.remainingToAllocate st
      == Alloc.remainingToAllocate st - sumOf SaleItem.quantity new
    ∧ (0 <= Alloc.remainingToAllocate st → 0 <= Alloc.remainingToAllocate st)
    ∧ (∀ b, restocked (- quantityOn b new)
              (DB.batches db !! b) (DB.batches db !! b))
    ∧ sameButBatches db db).
  { intros st0 db0. exists []. rewrite app_nil_r. simpl.
    repeat split; try lra; try constructor.
    intros b. eapply restocked_Qeq; [|apply restocked_same]. lra. }
  revert st db. induction avail as [|[id batch] rest IH];
    intros st db Hnd Hdb H; simpl in H.
  - apply mret_Continue in H as [-> ->]. apply Hnil.
  - destruct (Js.leb (Alloc.remainingToAllocate st) 0) eqn:Erem.
    { apply mret_Continue in H as [-> ->]. apply Hnil. }
    apply NoDup_cons in Hnd as [Hid Hnd].
    destruct (Js.leb (Batch.currentStock batch) 0) eqn:Estock.
    { eapply IH; [exact Hnd| |exact H].
      intros kv Hkv. apply Hdb. right. exact Hkv. }
    apply leb_false in Erem, Estock.
    apply bind_Continue in H as (? & d1 & Esave & H).
    unfold saveStock in Esave. tx_simpl.
    set (take := Qmin (Batch.currentStock batch) (Alloc.remainingToAllocate st)) in *.
    assert (Htake : 0 < take ∧ take <= Alloc.remainingToAllocate st).
    { unfold take.
      destruct (Qmin_cases (Batch.currentStock batch) (Alloc.remainingToAllocate st))
        as [[? ->]|[? ->]]; split; lra. }
    pose proof (Hdb (id, batch) (list_elem_of_here _ _)) as Hbatch. simpl in Hbatch.
    apply IH in H as (new & Hallocs & Hnew & Hsub & Hdisc & Hrem & Hpos & Hstock & Hsame);
      [|exact Hnd|].
    2:{ intros kv Hkv. cbn [DB.batches DB.setBatches].
        rewrite lookup_insert_ne.
        - apply Hdb. right. exact Hkv.
        - intros ->. apply Hid. apply list_elem_of_fmap. exists kv. split; [reflexivity|exact Hkv]. }
    cbn [Alloc.allocations Alloc.subtotalSoFar Alloc.discountSoFar
         Alloc.remainingToAllocate] in *.
    eexists (_ :: new). split; [rewrite Hallocs, <- app_assoc; reflexivity|].
    split; [constructor; [|exact Hnew]|].
    { split; [|reflexivity]. repeat split. cbn [SaleItem.quantity]. apply Htake. }
    cbn [sumOf foldr SaleItem.subtotal SaleItem.discount SaleItem.quantity].
    change (foldr (λ x acc, SaleItem.subtotal x + acc) 0 new)
      with (sumOf SaleItem.subtotal new).
    change (foldr (λ x acc, SaleItem.discount x + acc) 0 new)
      with (sumOf SaleItem.discount new).
    change (foldr (λ x acc, SaleItem.quantity x + acc) 0 new)
      with (sumOf SaleItem.quantity new).
    split; [rewrite Hsub; lra|]. split; [rewrite Hdisc; lra|].
    split; [rewrite Hrem; lra|]. split; [intros Hr; apply Hpos; lra|].
    split.
    + intros b. cbn [quantityOn SaleItem.batch SaleItem.quantity].
      eapply restocked_Qeq; [|eapply restocked_trans; [|apply Hstock]].
      2:{ cbn [DB.batches DB.setBatches].
          apply (restocked_write _ id batch _ (- take) b Hbatch). lra. }
      destruct (id =? b)%nat; lra.
    + eapply sameButBatches_trans; [|exact Hsame]. repeat split.
Qed.

Lemma sumOf_batchDiscount disc quantity (new : list SaleItem.t) :
  0 < quantity →
  Forall (λ it, SaleItem.discount it
                = batchDiscount disc (SaleItem.quantity it) quantity) new →
  sumOf SaleItem.discount new * quantity
  == Js.orZero disc * sumOf SaleItem.quantity new.
Proof.
  intros Hq. induction 1 as [|it new Hit _ IH]; simpl; [lra|].
  change (foldr (λ x acc, SaleItem.discount x + acc) 0 new)
    with (sumOf SaleItem.discount new).
  change (foldr (λ x acc, SaleItem.quantity x + acc) 0 new)
    with (sumOf SaleItem.quantity new).
  rewrite Hit. unfold batchDiscount, Js.orZero in *.
  destruct disc as [d|]; [destruct (Js.truthyQ d)|].
  - transitivity (d * SaleItem.quantity it
                  + sumOf SaleItem.discount new * quantity); [field; lra|].
    rewrite IH. ring.
  - rewrite Qmult_plus_distr_l, IH. ring.
  - rewrite Qmult_plus_distr_l, IH. ring.
Qed.

Lemma processItem_inv storeId cart item db cart' db' :
  processItem storeId cart item db = Continue cart' db' →
  ∃ group,
    Cart.processedItems cart' = Cart.processedItems cart ++ group
    ∧ served item group
    ∧ Cart.calculatedSubtotal cart'
      == Cart.calculatedSubtotal cart + sumOf SaleItem.subtotal group
    ∧ Cart.totalItemDiscount cart'
      == Cart.totalItemDiscount cart + sumOf SaleItem.discount group
    ∧ sumOf SaleItem.discount group == requestedDiscount item
    ∧ (∀ b, restocked (- quantityOn b group)
              (DB.batches db !! b) (DB.batches db' !! b))
    ∧ sameButBatches db db'.
Proof.
  intros H. unfold processItem in H.
  destruct (Req.product item) as [p|] eqn:Ep; [|discriminate H].
  apply bind_Continue in H as (quantity & d1 & Eq & H).
  apply bind_Continue in H as (doc & d2 & Edoc & H).
  apply bind_Continue in H as (product & d3 & Eprod & H).
  apply bind_Continue in H as (avail & d4 & Eavail & H).
  apply bind_Continue in H as (? & d5 & Enonempty & H).
  apply bind_Continue in H as (? & d6 & Etotal & H).
  tx_simpl. pose proof (saleQuantity_Some _ _ Eq) as (_ & Hq & _).
  destruct (Req.batch item) as [raw|] eqn:Eb.
  - unfold allocateSpecified in H. destruct raw as [b|]; [|discriminate H].
    apply bind_Continue in H as (bdoc & d7 & Ebdoc & H). tx_simpl.
    destruct (DB.batches db !! b) as [specifiedBatch|] eqn:Ebatch; [|discriminate H].
    destruct (_ && _); [|discriminate H].
    destruct (Js.ltb (Batch.currentStock specifiedBatch) quantity) eqn:Elt;
      [discriminate H|].
    apply bind_Continue in H as (? & d8 & Esave & H).
    unfold saveStock in Esave. tx_simpl.
    eexists [_]. split; [reflexivity|]. cbn [Cart.calculatedSubtotal Cart.totalItemDiscount].
    split; [|split; [|split; [|split; [|split]]]].
    + exists p, quantity. split; [exact Ep|]. split; [exact Eq|].
      split; [constructor; [|constructor]; repeat split; exact Hq|].
      cbn [sumOf foldr SaleItem.quantity SaleItem.discount].
      split; [lra|].
      intros raw Hraw. rewrite Eb in Hraw. injection Hraw as <-.
      eexists b, _. repeat split.
    + cbn [sumOf foldr SaleItem.subtotal]. lra.
    + cbn [sumOf foldr SaleItem.discount]. lra.
    + unfold requestedDiscount. cbn [sumOf foldr SaleItem.discount]. lra.
    + intros b'. cbn [quantityOn SaleItem.batch SaleItem.quantity DB.batches DB.setBatches].
      eapply restocked_Qeq;
        [|apply (restocked_write _ b specifiedBatch _ (- quantity) b' Ebatch); lra].
      destruct (b =? b')%nat; lra.
    + repeat split.
  - apply bind_Continue in H as (st & d7 & Ealloc & H).
    apply bind_Continue in H as (? & d8 & Edone & H). tx_simpl.
    apply allocate_inv in Ealloc
      as (new & Hallocs & Hnew & Hsub & Hdisc & Hrem & Hpos & Hstock & Hsame).
    2:{ apply availableBatches_NoDup. }
    2:{ intros [id batch] Hkv. apply availableBatches_elem in Hkv as [Hkv _]. exact Hkv. }
    cbn [Alloc.allocations Alloc.subtotalSoFar Alloc.discountSoFar
         Alloc.remainingToAllocate] in *.
    rewrite app_nil_l in Hallocs.
    apply negb_true_iff, gtb_false in Edone.
    assert (Hsum : sumOf SaleItem.quantity new == quantity).
    { assert (0 <= Alloc.remainingToAllocate st) by (apply Hpos; lra). lra. }
    exists new. cbn [Cart.processedItems Cart.calculatedSubtotal Cart.totalItemDiscount].
    rewrite Hallocs. split; [reflexivity|].
    split; [|split; [exact Hsub|split; [exact Hdisc|split;
      [|split; [exact Hstock|exact Hsame]]]]].
    { exists p, quantity. split; [exact Ep|]. split; [exact Eq|].
      split; [eapply Forall_impl; [exact Hnew|]; intros it [Hit _]; exact Hit|].
      split; [exact Hsum|].
      intros raw Hraw; rewrite Eb in Hraw; discriminate Hraw. }
    unfold requestedDiscount. apply (Qmult_inj_r _ _ quantity); [lra|].
    rewrite sumOf_batchDiscount with (disc := Req.discount item) (quantity := quantity).
    + rewrite Hsum. reflexivity.
    + exact Hq.
    + eapply Forall_impl; [exact Hnew|]. intros it [_ Hit]. exact Hit.
Qed.

Lemma sumOf_concat {A} (f : A → Q) (groups : list (list A)) :
  sumOf f (concat groups) == sumOf (sumOf f) groups.
Proof.
  induction groups as [|g groups IH]; simpl; [lra|].
  change (foldr (λ x acc, sumOf f x + acc) 0 groups) with (sumOf (sumOf f) groups).
  rewrite <- IH. apply sumOf_app.
Qed.

Lemma processItems_inv storeId items cart db cart' db' :
  processItems storeId items cart db = Continue cart' db' →
  ∃ groups,
    Cart.processedItems cart' = Cart.processedItems cart ++ concat groups
    ∧ Forall2 served items groups
    ∧ Cart.calculatedSubtotal cart'
      == Cart.calculatedSubtotal cart + sumOf SaleItem.subtotal (concat groups)
    ∧ Cart.totalItemDiscount cart'
      == Cart.totalItemDiscount cart + sumOf SaleItem.discount (concat groups)
    ∧ sumOf SaleItem.discount (concat groups) == sumOf requestedDiscount items
    ∧ (∀ b, restocked (- quantityOn b (concat groups))
              (DB.batches db !! b) (DB.batches db' !! b))
    ∧ sameButBatches db db'.
Proof.
  revert cart db. induction items as [|item rest IH]; intros cart db H; simpl in H.
  - apply mret_Continue in H as [-> ->]. exists []. simpl. rewrite app_nil_r.
    repeat split; try lra; try constructor.
    intros b. eapply restocked_Qeq; [|apply restocked_same]. lra.
  - apply bind_Continue in H as (cart1 & db1 & E & H).
    apply processItem_inv in E
      as (g & Hg & Hserved & Hsub & Hdisc & Hreq & Hstock & Hsame).
    apply IH in H as (gs & Hgs & Hall & Hsub' & Hdisc' & Hreq' & Hstock' & Hsame').
    exists (g :: gs). cbn [concat].
    split; [rewrite Hgs, Hg, <- app_assoc; reflexivity|].
    split; [constructor; assumption|].
    split; [rewrite Hsub', Hsub, sumOf_app; lra|].
    split; [rewrite Hdisc', Hdisc, sumOf_app; lra|].
    split.
    { rewrite sumOf_app, Hreq, Hreq'. reflexivity. }
    split; [|eapply sameButBatches_trans; eassumption].
    intros b. eapply restocked_Qeq;
      [|eapply restocked_trans; [apply Hstock|apply Hstock']].
    rewrite quantityOn_app. lra.
Qed.

(** ** A created sale, taken apart *)

Lemma checkRequest_only_customers env user body db c db1 :
  checkRequest env user body db = Continue c db1 →
  db1 = DB.setCustomers db (DB.customers db1).
Proof.
  unfold checkRequest. intros H.
  apply bind_Continue in H as (? & d1 & E1 & H).
  apply bind_Continue in H as (items & d2 & E2 & H).
  apply bind_Continue in H as (payment & d3 & E3 & H).
  apply bind_Continue in H as ([subtotal total] & d4 & E4 & H).
  apply bind_Continue in H as (storeId & d5 & E5 & H).
  apply bind_Continue in H as (customerId & d6 & E6 & H).
  tx_simpl.
  assert (d5 = db) as ->.
  { unfold resolveStore in E5. destruct (User.role user).
    - destruct (Req.store body) as [[i|]|]; try discriminate E5.
      tx_step E5. tx_simpl. reflexivity.
    - tx_step E5. tx_simpl. reflexivity.
    - destruct (Req.store body) as [[i|]|]; try discriminate E5.
      tx_step E5. tx_simpl. reflexivity. }
  unfold resolveCustomer in E6.
  destruct (Req.customer body) as [[cid|]|]; try discriminate E6.
  - do 3 tx_step E6. tx_simpl. destruct db; reflexivity.
  - tx_step E6. apply read_Continue in E as [-> ->].
    destruct (findOne _ _) as [[cid ?]|].
    + tx_simpl. destruct db; reflexivity.
    + do 3 tx_step E6. tx_simpl. destruct db; reflexivity.
Qed.

Lemma failsOnly_allocate p quantity disc dflt avail st :
  failsOnly (allocate p quantity disc dflt avail st).
Proof.
  revert st. induction avail as [|[id batch] rest IH]; intros st; simpl.
  - fails_only.
  - destruct (Js.leb _ 0); [fails_only|].
    destruct (Js.leb _ 0); [apply IH|].
    apply failsOnly_bind; [unfold saveStock; fails_only|intros ?; apply IH].
Qed.

Lemma failsOnly_processItem storeId cart item :
  failsOnly (processItem storeId cart item).
Proof.
  unfold processItem. destruct (Req.product item); [|fails_only].
  apply failsOnly_bind; [fails_only|intros quantity].
  apply failsOnly_bind; [fails_only|intros doc].
  apply failsOnly_bind; [fails_only|intros product].
  apply failsOnly_bind; [fails_only|intros avail].
  apply failsOnly_bind; [fails_only|intros ?].
  apply failsOnly_bind; [fails_only|intros ?].
  destruct (Req.batch item) as [[b|]|].
  - unfold allocateSpecified. apply failsOnly_bind; [fails_only|intros [batch|]];
      [|fails_only].
    destruct (_ && _); [|fails_only]. destruct (Js.ltb _ _); [fails_only|].
    unfold saveStock. fails_only.
  - unfold allocateSpecified. fails_only.
  - apply failsOnly_bind; [apply failsOnly_allocate|intros st]. fails_only.
Qed.

Lemma failsOnly_processItems storeId items cart :
  failsOnly (processItems storeId items cart).
Proof.
  revert cart. induction items as [|item rest IH]; intros cart; simpl.
  - fails_only.
  - apply failsOnly_bind; [apply failsOnly_processItem|intros ?; apply IH].
Qed.

Lemma failsOnly_checkRequest env user body : failsOnly (checkRequest env user body).
Proof.
  unfold checkRequest.
  apply failsOnly_bind; [fails_only|intros ?].
  apply failsOnly_bind; [fails_only|intros items].
  apply failsOnly_bind; [fails_only|intros payment].
  apply failsOnly_bind; [fails_only|intros [subtotal total]].
  apply failsOnly_bind; [|intros storeId].
  { unfold resolveStore. destruct (User.role user); fails_only. }
  apply failsOnly_bind; [|intros customerId; fails_only].
  unfold resolveCustomer. destruct (Req.customer body) as [[cid|]|]; [fails_only..|].
  apply failsOnly_bind; [fails_only|intros [[cid ?]|]]; fails_only.
Qed.

(** An early reply of [createSale] is a failure or the recalculation. *)
Lemma createSaleTx_Reply env user body db r :
  createSaleTx env user body db = Reply r →
  (∃ status e, r = Failure status e) ∨ (∃ x, r = Recalculation x).
Proof.
  unfold createSaleTx. intros E.
  destruct (checkRequest env user body db) as [c dc|r0] eqn:Ec.
  2:{ erewrite bind_abort in E by exact Ec. injection E as <-.
      left. apply isFailure_true. eapply failsOnly_checkRequest, Ec. }
  erewrite bind_step in E by exact Ec. cbv beta in E.
  destruct (processItems (Checked.storeId c) (Checked.items c) Cart.empty dc)
    as [cart dN|r0] eqn:Ei.
  2:{ erewrite bind_abort in E by exact Ei. injection E as <-.
      left. apply isFailure_true. eapply failsOnly_processItems, Ei. }
  erewrite bind_step in E by exact Ei. cbv beta in E.
  unfold settle in E.
  destruct (_ && negb (Req.forceCreate body)).
  { injection E as <-. right. eexists. reflexivity. }
  left. apply isFailure_true. revert E. generalize dN r.
  change (failsOnly
    (check (saleValidates (Js.numOrZero (Req.discountPct body))
              (Checked.payment c) cart) (Failure 400 SaleValidationError);;
     taken ← read (invoiceTaken
       (SaleInit.invoiceNumber
          (saleInit env user (Checked.storeId c) (Checked.customerId c)
             (Req.forceCreate body) (Js.numOrZero (Req.discountPct body))
             (Js.numOrZero (Req.tax body)) (Checked.subtotal c) (Checked.total c)
             (Checked.payment c) cart)));
     check (negb taken) (Failure 409 DuplicateKey);;
     write (λ db0, DB.setSales db0
       (<[Env.freshSale env :=
            newSale (saleInit env user (Checked.storeId c)
               (Checked.customerId c) (Req.forceCreate body)
               (Js.numOrZero (Req.discountPct body))
               (Js.numOrZero (Req.tax body))
               (Checked.subtotal c) (Checked.total c)
               (Checked.payment c) cart)]> (DB.sales db0)));;
     mret (SaleCreated (Env.freshSale env)
             (newSale (saleInit env user (Checked.storeId c)
               (Checked.customerId c) (Req.forceCreate body)
               (Js.numOrZero (Req.discountPct body))
               (Js.numOrZero (Req.tax body))
               (Checked.subtotal c) (Checked.total c)
               (Checked.payment c) cart))))).
  fails_only.
Qed.

Lemma createSale_created env user body db id s db' :
  createSale env user body db = (SaleCreated id s, db') →
  ∃ c db1 cart dbN,
    checkRequest env user body db = Continue c db1
    ∧ processItems (Checked.storeId c) (Checked.items c) Cart.empty db1
      = Continue cart dbN
    ∧ saleValidates (Js.numOrZero (Req.discountPct body)) (Checked.payment c) cart
      = true
    ∧ invoiceTaken (Env.stamp env, Env.random env) dbN = false
    ∧ (Req.forceCreate body = false →
       Js.discrepancy (Cart.calculatedSubtotal cart) (Checked.subtotal c) = false
       ∧ Js.discrepancy
           (calculatedTotal (Js.numOrZero (Req.discountPct body))
                            (Js.numOrZero (Req.tax body)) cart)
           (Checked.total c) = false)
    ∧ id = Env.freshSale env
    ∧ s = newSale (saleInit env user (Checked.storeId c) (Checked.customerId c)
                     (Req.forceCreate body)
                     (Js.numOrZero (Req.discountPct body))
                     (Js.numOrZero (Req.tax body))
                     (Checked.subtotal c) (Checked.total c)
                     (Checked.payment c) cart)
    ∧ db' = DB.setSales dbN (<[id := s]> (DB.sales dbN)).
Proof.
  unfold createSale, transaction. intros H.
  destruct (createSaleTx env user body db) as [r1 d1|r1] eqn:E;
    injection H as -> <-.
  2:{ apply createSaleTx_Reply in E as [(? & ? & [=])|(? & [=])]. }
  unfold createSaleTx in E.
  apply bind_Continue in E as (c & dc & Ec & E).
  apply bind_Continue in E as (cart & dN & Eitems & E).
  exists c, dc, cart, dN. split; [exact Ec|]. split; [exact Eitems|].
  unfold settle in E.
  destruct (_ && negb (Req.forceCreate body)) eqn:Erecalc; [discriminate E|].
  apply bind_Continue in E as (? & d2 & E2 & E).
  apply bind_Continue in E as (taken & d3 & E3 & E).
  apply bind_Continue in E as (? & d4 & E4 & E).
  apply bind_Continue in E as (? & d5 & E5 & E).
  tx_simpl. split; [exact E2|]. cbn [SaleInit.invoiceNumber saleInit] in E4.
  apply negb_true_iff in E4. split; [exact E4|].
  split.
  { intros Hforce. rewrite Hforce in Erecalc.
    unfold saleValidates in E2.
    destruct (Cart.nan cart); [discriminate E2|]. simpl in Erecalc.
    rewrite andb_true_r in Erecalc. apply orb_false_iff in Erecalc. exact Erecalc. }
  apply mret_Continue in E as [E ->]. injection E as -> ->.
  repeat split.
Qed.

Lemma distribute_map pct cart :
  ∃ f, distribute pct cart = map f (Cart.processedItems cart)
       ∧ ∀ it, f it = SaleItem.setDiscount it (SaleItem.discount (f it)).
Proof.
  unfold distribute. destruct (Js.gtb pct 0).
  - eexists. split; [reflexivity|]. intros it. reflexivity.
  - exists id. split; [symmetry; apply map_id|]. intros []; reflexivity.
Qed.

Section UpToDiscount.
Context (f : SaleItem.t → SaleItem.t).
Context (Hf : ∀ it, f it = SaleItem.setDiscount it (SaleItem.discount (f it))).

Lemma quantityOn_map b l : quantityOn b (map f l) = quantityOn b l.
Proof using Hf.
  induction l as [|it l IH]; simpl; [reflexivity|].
  rewrite IH, (Hf it). reflexivity.
Qed.

Lemma sumOf_subtotal_map l :
  sumOf SaleItem.subtotal (map f l) = sumOf SaleItem.subtotal l.
Proof using Hf.
  induction l as [|it l IH]; [reflexivity|].
  cbn [map]. rewrite !sumOf_cons, IH, (Hf it). reflexivity.
Qed.

Lemma sumOf_quantity_map l :
  sumOf SaleItem.quantity (map f l) = sumOf SaleItem.quantity l.
Proof using Hf.
  induction l as [|it l IH]; [reflexivity|].
  cbn [map]. rewrite !sumOf_cons, IH, (Hf it). reflexivity.
Qed.

Lemma served_map item group : served item group → served item (map f group).
Proof using Hf.
  intros (p & q & Hp & Hq & Hrec & Hsum & Hnamed).
  exists p, q. split; [exact Hp|]. split; [exact Hq|].
  split; [|split].
  - apply Forall_fmap. eapply Forall_impl; [exact Hrec|].
    intros it (H1 & H2 & H3 & H4). unfold recordOf. simpl. rewrite (Hf it).
    repeat split; assumption.
  - rewrite sumOf_quantity_map. exact Hsum.
  - intros raw Hraw. destruct (Hnamed raw Hraw) as (b & it & -> & -> & Hb).
    exists b, (f it). repeat split. rewrite (Hf it). exact Hb.
Qed.
End UpToDiscount.

Lemma sumOf_withCartShare cd S (l : list SaleItem.t) :
  ¬ S == 0 →
  sumOf SaleItem.discount (map (withCartShare cd S) l)
  == sumOf SaleItem.discount l + cd * (sumOf SaleItem.subtotal l / S).
Proof.
  intros HS. induction l as [|it l IH].
  - cbn. field. exact HS.
  - cbn [map]. rewrite !sumOf_cons, IH.
    cbn [withCartShare SaleItem.setDiscount SaleItem.discount].
    rewrite (orZero_Some (SaleItem.discount it)). field. exact HS.
Qed.

Lemma cartDiscountAmount_Qeq pct S S' :
  S == S' → cartDiscountAmount pct S == cartDiscountAmount pct S'.
Proof.
  intros H. unfold cartDiscountAmount. destruct (Js.gtb pct 0); [|reflexivity].
  rewrite H. reflexivity.
Qed.

(** What [createSale] stores, in terms of the request. *)
Lemma createSale_sums env user body db id s db' :
  createSale env user body db = (SaleCreated id s, db') →
  ∃ items groups c cart,
    Req.items body = Some items
    ∧ Sale.items s = concat groups
    ∧ Forall2 served items groups
    ∧ Cart.calculatedSubtotal cart == sumOf SaleItem.subtotal (Sale.items s)
    ∧ calculatedDiscountAmount (Sale.discount s) cart
      == sumOf SaleItem.discount (Sale.items s)
    ∧ sumOf SaleItem.discount (Sale.items s)
      == sumOf requestedDiscount items
         + cartDiscountAmount (Sale.discount s)
             (sumOf SaleItem.subtotal (Sale.items s))
    ∧ Sale.discount s = Js.numOrZero (Req.discountPct body)
    ∧ Sale.tax s = Js.numOrZero (Req.tax body)
    ∧ Sale.subtotal s
      = Js.toFixed2 (if Req.forceCreate body then Cart.calculatedSubtotal cart
                     else Checked.subtotal c)
    ∧ Sale.total s
      = Js.toFixed2 (if Req.forceCreate body
                     then calculatedTotal (Sale.discount s) (Sale.tax s) cart
                     else Checked.total c)
    ∧ (Req.forceCreate body = false →
       Js.discrepancy (Cart.calculatedSubtotal cart) (Checked.subtotal c) = false
       ∧ Js.discrepancy (calculatedTotal (Sale.discount s) (Sale.tax s) cart)
                        (Checked.total c) = false).
Proof.
  intros H. apply createSale_created in H
    as (c & db1 & cart & dbN & Ec & Ei & Hval & _ & Hdisc & _ & -> & _).
  apply checkRequest_Continue in Ec as (_ & _ & Hitems & _).
  apply processItems_inv in Ei as (groups & Hgroups & Hserved & Hsub & Hd & Hreq & _).
  cbn [Cart.empty Cart.processedItems Cart.calculatedSubtotal Cart.totalItemDiscount]
    in Hgroups, Hsub, Hd.
  rewrite app_nil_l in Hgroups.
  set (pct := Js.numOrZero (Req.discountPct body)) in *.
  set (tax := Js.numOrZero (Req.tax body)) in *.
  destruct (distribute_map pct cart) as (f & Hmap & Hf).
  exists (Checked.items c), (map (map f) groups), c, cart.
  cbn [newSale saleInit Sale.items Sale.discount Sale.tax Sale.subtotal Sale.total
       SaleInit.items SaleInit.discount SaleInit.tax SaleInit.subtotal SaleInit.total].
  assert (Hsubs : Cart.calculatedSubtotal cart
                  == sumOf SaleItem.subtotal (distribute pct cart)).
  { rewrite Hmap, (sumOf_subtotal_map f Hf), Hgroups, Hsub. lra. }
  assert (Hdiscs : calculatedDiscountAmount pct cart
                   == sumOf SaleItem.discount (distribute pct cart)).
  { unfold calculatedDiscountAmount, distribute.
    unfold saleValidates, shareNaN in Hval.
    destruct (Js.gtb pct 0) eqn:Epct.
    - destruct (Qeq_bool (Cart.calculatedSubtotal cart) 0) eqn:ES.
      { rewrite andb_false_r in Hval. discriminate Hval. }
      apply Qeq_bool_neq in ES.
      rewrite sumOf_withCartShare by exact ES.
      rewrite Hgroups, Hd.
      assert (Hone : sumOf SaleItem.subtotal (concat groups)
                     / Cart.calculatedSubtotal cart == 1).
      { rewrite Hsub. field. rewrite Hsub in ES. lra. }
      rewrite Hone. lra.
    - rewrite Hgroups, Hd. lra. }
  split; [exact Hitems|].
  split; [rewrite Hmap, Hgroups; apply concat_map|].
  split.
  { apply Forall2_fmap_r. eapply Forall2_impl; [exact Hserved|].
    intros item g Hg. apply served_map; assumption. }
  split; [exact Hsubs|]. split; [exact Hdiscs|].
  split.
  { pose proof (cartDiscountAmount_Qeq pct _ _ Hsubs) as Hc.
    rewrite <- Hdiscs, <- Hc. unfold calculatedDiscountAmount, cartDiscountAmount.
    destruct (Js.gtb pct 0); lra. }
  repeat split; try reflexivity; apply Hdisc; assumption.
Qed.

Lemma served_records items groups :
  Forall2 served items groups →
  Forall (λ it, 0 < SaleItem.quantity it
                ∧ SaleItem.returnedQuantity it = 0
                ∧ SaleItem.subtotal it
                  = SaleItem.quantity it * SaleItem.unitPrice it)
         (concat groups).
Proof.
  induction 1 as [|item g items groups (p & q & _ & _ & Hrec & _) _ IH]; simpl.
  - constructor.
  - apply Forall_app. split; [|exact IH].
    eapply Forall_impl; [exact Hrec|]. intros it (_ & H1 & H2 & H3).
    repeat split; assumption.
Qed.



(** ** The items of a created sale *)







(** ** Stock conservation *)

Lemma createSale_stock env user body db id s db' :
  createSale env user body db = (SaleCreated id s, db') →
  (∀ b, restocked (- quantityOn b (Sale.items s))
          (DB.batches db !! b) (DB.batches db' !! b))
  ∧ DB.stores db' = DB.stores db
  ∧ DB.products db' = DB.products db
  ∧ DB.sales db' = <[id := s]> (DB.sales db).
Proof.
  intros H. apply createSale_created in H
    as (c & db1 & cart & dbN & Ec & Ei & _ & _ & _ & _ & Hs & ->).
  apply checkRequest_only_customers in Ec.
  apply processItems_inv in Ei
    as (groups & Hgroups & _ & _ & _ & _ & Hstock & (Hst & _ & Hpr & Hsa)).
  cbn [Cart.empty Cart.processedItems] in Hgroups. rewrite app_nil_l in Hgroups.
  assert (Hitems : ∀ b, quantityOn b (Sale.items s) = quantityOn b (concat groups)).
  { intros b. rewrite Hs. cbn [newSale saleInit Sale.items SaleInit.items].
    destruct (distribute_map (Js.numOrZero (Req.discountPct body)) cart)
      as (f & -> & Hf).
    rewrite (quantityOn_map f Hf), Hgroups. reflexivity. }
  cbn [DB.setSales DB.batches DB.stores DB.products DB.sales].
  rewrite Hst, Hpr, Hsa, Ec. cbn [DB.setCustomers DB.stores DB.products DB.sales].
  repeat split. intros b. rewrite Hitems.
  specialize (Hstock b). rewrite Ec in Hstock at 1. exact Hstock.
Qed.

Lemma cancelSale_canceled env user saleId db db' :
  cancelSale env user saleId db = (SaleCanceled, db') →
  ∃ id sale,
    saleId = WellFormed id
    ∧ DB.sales db !! id = Some sale
    ∧ (∀ b, restocked (quantityOn b (Sale.items sale))
              (DB.batches db !! b) (DB.batches db' !! b))
    ∧ DB.stores db' = DB.stores db
    ∧ DB.customers db' = DB.customers db
    ∧ DB.products db' = DB.products db
    ∧ DB.sales db' = delete id (DB.sales db).
Proof.
  unfold cancelSale, transaction. intros H.
  destruct (cancelSaleTx env user saleId db) as [r1 d1|r1] eqn:E;
    injection H as -> <-.
  2:{ apply failsOnly_cancelSaleTx in E. discriminate E. }
  apply cancelSaleTx_Continue in E
    as (id & sale & store & dbR & -> & Hsale & _ & _ & _ & Hrun & -> & _).
  destruct (restoreInventory_effects (Sale.items sale) db)
    as (dbR' & Hrun' & Hstock & (Hst & Hcu & Hpr & Hsa)).
  assert (dbR' = dbR) as -> by congruence.
  exists id, sale. cbn [DB.setSales DB.batches DB.stores DB.products DB.sales DB.customers].
  rewrite Hsa. repeat split; assumption.
Qed.





(** ** All or nothing *)

(** X6.  Each of the three stock-moving handlers either answers with its
    success reply (sale created, products returned, sale canceled) or
    leaves the database exactly as it found it, whatever the request and
    whatever the reason for refusing it. *)
Theorem handlers_all_or_nothing env user db :
  (∀ body r db', createSale env user body db = (r, db') →
     (∃ id s, r = SaleCreated id s) ∨ db' = db)
  ∧ (∀ body r db', returnProducts env user body db = (r, db') →
       (∃ x, r = ProductsReturned x) ∨ db' = db)
  ∧ (∀ saleId r db', cancelSale env user saleId db = (r, db') →
       r = SaleCanceled ∨ db' = db).
Proof.
  split; [|split].
  - intros body r db'. unfold createSale, transaction.
    destruct (createSaleTx env user body db) as [r1 d1|r1] eqn:E;
      intros [= <- <-]; [left|right; reflexivity].
    apply createSaleTx_commits in E. exact E.
  - intros body r db'. unfold returnProducts, transaction.
    destruct (returnProductsTx env user body db) as [r1 d1|r1] eqn:E;
      intros [= <- <-]; [left|right; reflexivity].
    apply returnProductsTx_commits in E. exact E.
  - intros saleId r db'. unfold cancelSale, transaction.
    destruct (cancelSaleTx env user saleId db) as [r1 d1|r1] eqn:E;
      intros [= <- <-]; [left|right; reflexivity].
    apply cancelSaleTx_Continue in E as (? & ? & ? & ? & _ & _ & _ & _ & _ & _ & _ & E).
    exact E.
Qed.

Lemma handlers_all_or_nothing_witness :
  (createSale Scenario.env0 Scenario.theOwner Scenario.twoLines Scenario.db0).2
  = Scenario.db0.
Proof.
  destruct (proj1 (handlers_all_or_nothing Scenario.env0 Scenario.theOwner
                     Scenario.db0)
              Scenario.twoLines
              (Failure 400 (InsufficientTotalStock Scenario.P 12 13))
              (createSale Scenario.env0 Scenario.theOwner Scenario.twoLines
                 Scenario.db0).2)
    as [(id & s & H)|H].
  - vm_compute; reflexivity.
  - discriminate H.
  - exact H.
Defined.

(** X7.  A canceled sale is gone for good: its id no longer resolves, a second
    cancellation answers 404 "Sale not found", no return against it is
    accepted, and [getSaleById] answers 404; none of these changes
    anything. *)
Theorem cancelSale_is_final env user id db db' :
  cancelSale env user (WellFormed id) db = (SaleCanceled, db') →
  DB.sales db' !! id = None
  ∧ (∀ env2 user2,
       cancelSale env2 user2 (WellFormed id) db' = (Failure 404 SaleNotFound, db'))
  ∧ (∀ env2 user2 body, Req.saleId body = WellFormed id →
       ∃ status e, returnProducts env2 user2 body db' = (Failure status e, db'))
  ∧ (∀ user2, getSaleById user2 (WellFormed id) db' = Refused 404 NoSuchSale).
Proof.
  intros H. apply cancelSale_canceled in H
    as (id' & sale & [= <-] & _ & _ & _ & _ & _ & Hsales).
  assert (Hgone : DB.sales db' !! id = None)
    by (rewrite Hsales; apply lookup_delete_eq).
  split; [exact Hgone|]. split; [|split].
  - intros env2 user2. unfold cancelSale, cancelSaleTx.
    apply transaction_Reply.
    erewrite bind_step by (unfold read; rewrite Hgone; reflexivity).
    reflexivity.
  - intros env2 user2 body Hid. unfold returnProducts, transaction.
    destruct (returnProductsTx env2 user2 body db') as [r1 d1|r1] eqn:E.
    + apply returnProductsTx_Continue in E
        as (i & sale' & ? & ? & ? & ? & ? & Hi & _ & _ & Hsale & _).
      rewrite Hid in Hi. injection Hi as <-. rewrite Hgone in Hsale. discriminate Hsale.
    + apply failsOnly_returnProductsTx, isFailure_true in E as (status & e & ->).
      exists status, e. reflexivity.
  - intros user2. unfold getSaleById. rewrite Hgone. reflexivity.
Qed.

Lemma cancelSale_is_final_witness :
  cancelSale (Scenario.at_ (2 * Scenario.day)) Scenario.theOwner (WellFormed 200)
    (cancelSale (Scenario.at_ Scenario.day) Scenario.theOwner (WellFormed 200)
       Scenario.db1).2
  = (Failure 404 SaleNotFound,
     (cancelSale (Scenario.at_ Scenario.day) Scenario.theOwner (WellFormed 200)
        Scenario.db1).2).
Proof.
  apply (cancelSale_is_final (Scenario.at_ Scenario.day) Scenario.theOwner 200%nat
           Scenario.db1).
  vm_compute; reflexivity.
Defined.

(** ** Stock and quantities stay non-negative *)

(** X8.  Whatever a handler is asked and whatever it answers, it leaves no
    batch with a negative stock and no sale item with a negative
    quantity, provided there was none before. *)
Theorem handlers_keep_stock_nonneg env user db :
  stocksNonneg db → quantitiesNonneg db →
  (∀ body r db', createSale env user body db = (r, db') →
     stocksNonneg db' ∧ quantitiesNonneg db')
  ∧ (∀ body r db', returnProducts env user body db = (r, db') →
       stocksNonneg db' ∧ quantitiesNonneg db')
  ∧ (∀ saleId r db', cancelSale env user saleId db = (r, db') →
       stocksNonneg db' ∧ quantitiesNonneg db').
Proof.
  intros Hs Hq. split; [|split].
  - intros body r db' H. eapply createSale_nonneg; eassumption.
  - intros body r db' H. eapply returnProducts_nonneg; eassumption.
  - intros saleId r db' H. eapply cancelSale_nonneg; eassumption.
Qed.

Lemma handlers_keep_stock_nonneg_witness :
  stocksNonneg Scenario.db1 ∧ quantitiesNonneg Scenario.db1.
Proof.
  assert (Hs : stocksNonneg Scenario.db0).
  { intros b batch H. apply elem_of_map_to_list in H. vm_compute in H.
    repeat (apply elem_of_cons in H as [[= -> ->]|H]);
      [vm_compute; discriminate..|inversion H]. }
  assert (Hq : quantitiesNonneg Scenario.db0).
  { intros id sale H.
    change (DB.sales Scenario.db0) with (∅ : gmap ObjectId Sale.t) in H.
    rewrite lookup_empty in H. discriminate H. }
  apply (proj1 (handlers_keep_stock_nonneg Scenario.env0 Scenario.theOwner
                  Scenario.db0 Hs Hq)
           Scenario.eightUnits (SaleCreated 200 Case.sold)).
  vm_compute; reflexivity.
Defined.

(** ** Returns *)

Lemma onlyReturned_refl items : onlyReturned items items.
Proof.
  induction items as [|it items IH]; constructor; [|exact IH].
  split; [destruct it; reflexivity|apply Qle_refl].
Qed.

Lemma onlyReturned_trans a b c :
  onlyReturned a b → onlyReturned b c → onlyReturned a c.
Proof.
  intros Hab. revert c. induction Hab as [|x y a b [Hxy Hr] _ IH]; intros c Hbc.
  - inversion Hbc. constructor.
  - inversion Hbc as [|y' z b' c' [Hyz Hr'] Hrest]; subst. constructor; [|apply IH, Hrest].
    split; [rewrite Hyz, Hxy; reflexivity|eapply Qle_trans; eassumption].
Qed.

Lemma onlyReturned_insert items i it r :
  items !! i = Some it →
  SaleItem.returnedQuantity it <= r →
  onlyReturned items (<[i := SaleItem.setReturned it r]> items).
Proof.
  revert i. induction items as [|x l IH]; intros [|i] Hi Hr; simpl in *;
    try discriminate.
  - injection Hi as ->. constructor; [|apply onlyReturned_refl].
    split; [reflexivity|exact Hr].
  - constructor; [|apply IH; assumption].
    split; [destruct x; reflexivity|apply Qle_refl].
Qed.

Lemma returnLines_onlyReturned lines st db st' db' :
  (∀ p b q, (p, b, q) ∈ lines → 0 < q) →
  returnLines lines st db = Continue st' db' →
  onlyReturned (Ret.items st) (Ret.items st').
Proof.
  revert st db. induction lines as [|[[p0 b0] q0] rest IH]; intros st db Hpos H.
  - simpl in H. apply mret_Continue in H as [-> _]. apply onlyReturned_refl.
  - simpl in H. apply bind_Continue in H as (st1 & db1 & E & H).
    assert (Hq0 : 0 < q0) by (apply (Hpos p0 b0); left).
    eapply onlyReturned_trans;
      [|eapply IH; [intros; eapply Hpos; right; eassumption|exact H]].
    apply returnLine_Continue in E as (i & it & batch & Hf & _ & _ & _ & _ & ->).
    apply findItem_Some in Hf as (Hi & _). cbn [Ret.items].
    apply onlyReturned_insert; [exact Hi|].
    pose proof (orZero_Some (SaleItem.returnedQuantity it)). lra.
Qed.

Lemma returnProducts_returned env user body db r db' :
  returnProducts env user body db = (ProductsReturned r, db') →
  returnProductsTx env user body db = Continue (ProductsReturned r) db'.
Proof.
  unfold returnProducts, transaction.
  destruct (returnProductsTx env user body db) as [r1 d1|r1] eqn:E;
    intros [= -> <-]; [reflexivity|].
  apply failsOnly_returnProductsTx in E. discriminate E.
Qed.

(** X9.  A return only marks quantities as returned and appends its record:
    the sale it is made against keeps every item (product, batch,
    quantity, unit price, discount and subtotal as they were, the returned
    quantity never lower), keeps its store, invoice number, customer,
    payment, staff member, creation date, subtotal, discount, tax and
    total, and gains exactly one return record, dated now, processed by
    the caller, listing the returned lines and the amount refunded.  No
    other sale, and no store, customer or product changes. *)
Theorem returnProducts_only_marks_returns env user body db r db' :
  returnProducts env user body db = (ProductsReturned r, db') →
  ∃ id sale sale' raw lines record,
    Req.saleId body = WellFormed id
    ∧ Req.returnedItems body = Some raw
    ∧ validateLines raw = inr lines
    ∧ DB.sales db !! id = Some sale
    ∧ DB.sales db' = <[id := sale']> (DB.sales db)
    ∧ onlyReturned (Sale.items sale) (Sale.items sale')
    ∧ Sale.returns sale' = Sale.returns sale ++ [record]
    ∧ ReturnRecord.items record = lines
    ∧ ReturnRecord.refundAmount record = Refund.totalRefundAmount r
    ∧ ReturnRecord.processedBy record = User._id user
    ∧ ReturnRecord.date record = Env.now env
    ∧ (Sale.store sale', Sale.invoiceNumber sale', Sale.customer sale',
       Sale.payment sale', Sale.staffMember sale', Sale.createdAt sale')
      = (Sale.store sale, Sale.invoiceNumber sale, Sale.customer sale,
         Sale.payment sale, Sale.staffMember sale, Sale.createdAt sale)
    ∧ (Sale.subtotal sale', Sale.discount sale', Sale.tax sale', Sale.total sale')
      = (Sale.subtotal sale, Sale.discount sale, Sale.tax sale, Sale.total sale)
    ∧ DB.stores db' = DB.stores db
    ∧ DB.customers db' = DB.customers db
    ∧ DB.products db' = DB.products db.
Proof.
  intros H. apply returnProducts_returned, returnProductsTx_Continue in H
    as (id & sale & storeDoc & raw & lines & st & dbL & Hid & Hraw & Hval & Hsale
        & _ & _ & _ & Hrun & -> & [= ->]).
  pose proof (returnLines_onlyReturned _ _ _ _ _ (validateLines_pos _ _ Hval) Hrun)
    as Honly.
  apply returnLines_effects in Hrun as (_ & (Hst & Hcu & Hpr & Hsa) & _).
  eexists id, sale, _, raw, lines, _.
  cbn [DB.setSales DB.sales DB.stores DB.customers DB.products
       Refund.totalRefundAmount].
  rewrite Hsa.
  repeat split; try eassumption; try reflexivity.
Qed.

Lemma returnProducts_only_marks_returns_witness :
  ∃ sale',
    DB.sales Scenario.db2 = <[200%nat := sale']> (DB.sales Scenario.db1)
    ∧ onlyReturned (Sale.items Case.sold) (Sale.items sale')
    ∧ length (Sale.returns sale') = 1%nat.
Proof.
  destruct (returnProducts_only_marks_returns (Scenario.at_ Scenario.day)
              Scenario.aClerk (Scenario.giveBack Scenario.idB2 2) Scenario.db1
              (Refund.mk [RefundLine.mk Scenario.P Scenario.idB2 2 12 0 (12 - 0)
                            ((12 - 0) * 2)]
                         (0 + (12 - 0) * 2) (86 - (0 + (0 + (12 - 0) * 2))))
              Scenario.db2)
    as (id & sale & sale' & raw & lines & record & [= <-] & _ & _ & Hsale & Hdb
        & Honly & Hret & _).
  - vm_compute; reflexivity.
  - assert (Es : DB.sales Scenario.db1 !! 200%nat = Some Case.sold)
      by (vm_compute; reflexivity).
    pose proof (eq_trans (eq_sym Hsale) Es) as Heq. injection Heq as ->.
    exists sale'. split; [exact Hdb|]. split; [exact Honly|].
    rewrite Hret. reflexivity.
Defined.


(** ** Reading a sale *)

Lemma getSaleByInvoiceNumber_Done env user param storeId db view :
  getSaleByInvoiceNumber env user param storeId db = Done view →
  ∃ inv id sale store,
    param = InvoiceText inv
    ∧ DB.sales db !! id = Some sale
    ∧ Sale.invoiceNumber sale = inv
    ∧ DB.stores db !! Sale.store sale = Some store
    ∧ canAccess user store = true
    ∧ view = saleView env id sale.
Proof.
  unfold getSaleByInvoiceNumber. intros H.
  destruct param as [| |inv]; [discriminate H| |].
  { destruct storeId as [[?|]|]; discriminate H. }
  assert (∃ f why,
            match findOne (λ _ s, invoiceQuery inv f s) (DB.sales db) with
            | Some (id, sale) =>
                match DB.stores db !! Sale.store sale with
                | Some store =>
                    if canAccess user store then Done (saleView env id sale)
                    else Refused 403 ViewForbidden
                | None => Refused 500 FetchFailed
                end
            | None => Refused 404 why
            end = Done view) as (f & why & Hf).
  { destruct storeId as [[s|]|];
      [eexists _, _; exact H|discriminate H|eexists _, _; exact H]. }
  clear H.
  destruct (findOne _ _) as [[id sale]|] eqn:E; [|discriminate Hf].
  apply findOne_Some in E as [Hsale Hq].
  destruct (DB.stores db !! Sale.store sale) as [store|] eqn:Es; [|discriminate Hf].
  destruct (canAccess user store) eqn:Ea; [|discriminate Hf].
  injection Hf as <-. exists inv, id, sale, store.
  unfold invoiceQuery in Hq. apply andb_true_iff in Hq as [Hq _].
  unfold Invoice_eqb in Hq. apply andb_true_iff in Hq as [H1 H2].
  apply Z.eqb_eq in H1. apply Nat.eqb_eq in H2.
  repeat split; try assumption.
  destruct (Sale.invoiceNumber sale), inv; simpl in *; congruence.
Qed.



Lemma Invoice_eqb_refl inv : Invoice_eqb inv inv = true.
Proof. unfold Invoice_eqb. rewrite Z.eqb_refl, Nat.eqb_refl. reflexivity. Qed.

Lemma checkRequest_store env user body db c db1 :
  checkRequest env user body db = Continue c db1 →
  ∃ store,
    DB.stores db !! Checked.storeId c = Some store
    ∧ (User.role user = owner → Store.owner store = User._id user).
Proof.
  unfold checkRequest. intros H.
  apply bind_Continue in H as (? & d1 & E1 & H).
  apply bind_Continue in H as (items & d2 & E2 & H).
  apply bind_Continue in H as (payment & d3 & E3 & H).
  apply bind_Continue in H as ([subtotal total] & d4 & E4 & H).
  apply bind_Continue in H as (storeId & d5 & E5 & H).
  apply bind_Continue in H as (customerId & d6 & E6 & H).
  tx_simpl. cbn [Checked.storeId].
  unfold resolveStore in E5. destruct (User.role user) eqn:Erole.
  - destruct (Req.store body) as [[i|]|]; try discriminate E5.
    apply bind_Continue in E5 as (doc & d & Er & E5). tx_simpl.
    destruct (DB.stores db !! i) as [store|] eqn:Es; [|discriminate E5].
    injection E5 as <-. exists store. split; [exact Es|discriminate].
  - apply bind_Continue in E5 as (doc & d & Er & E5). tx_simpl.
    destruct (findOne _ _) as [[k store]|] eqn:Ef; [|discriminate E5].
    injection E5 as <-. apply findOne_Some in Ef as [Hk Ho].
    exists store. split; [exact Hk|]. intros _. apply Nat.eqb_eq, Ho.
  - destruct (Req.store body) as [[i|]|]; try discriminate E5.
    apply bind_Continue in E5 as (doc & d & Er & E5). tx_simpl.
    destruct (DB.stores db !! i) as [store|] eqn:Es; [|discriminate E5].
    injection E5 as <-. exists store. split; [exact Es|discriminate].
Qed.

(** X12.  A created sale can be read back: [getSaleById] with the returned id
    and [getSaleByInvoiceNumber] with the sale's invoice number both
    answer with exactly the sale [createSale] returned, to every caller
    who is owner, staff or admin of the sale's store, and with 403 to
    everybody else; an owner who created the sale is among the former.
    The invoice view shows every item as fully remaining. *)
Theorem createSale_then_read env user body db id s db' :
  createSale env user body db = (SaleCreated id s, db') →
  ∃ store,
    DB.stores db' !! Sale.store s = Some store
    ∧ (User.role user = owner → canAccess user store = true)
    ∧ (∀ reader,
         getSaleById reader (WellFormed id) db'
         = if canAccess reader store then Done s else Refused 403 ViewForbidden)
    ∧ (∀ env' reader,
         getSaleByInvoiceNumber env' reader (InvoiceText (Sale.invoiceNumber s))
           None db'
         = if canAccess reader store then Done (saleView env' id s)
           else Refused 403 ViewForbidden)
    ∧ Forall (λ d, ItemDetails.remainingQuantity d
                   == SaleItem.quantity (ItemDetails.item d))
             (map itemWithDetails (Sale.items s)).
Proof.
  intros H. pose proof (createSale_stock _ _ _ _ _ _ _ H) as (_ & Hst & _ & Hsa).
  pose proof (createSale_sums _ _ _ _ _ _ _ H)
    as (items & groups & _ & _ & _ & Hitems & Hserved & _).
  apply createSale_created in H
    as (c & db1 & cart & dbN & Ec & Ei & _ & Htaken & _ & _ & Hs & _).
  pose proof (checkRequest_frame _ _ _ _ _ _ Ec) as [_ Hsales1].
  apply checkRequest_store in Ec as (store & Hstore & Howner).
  apply processItems_inv in Ei as (_ & _ & _ & _ & _ & _ & _ & (_ & _ & _ & HsalesN)).
  assert (Estore : Sale.store s = Checked.storeId c) by (rewrite Hs; reflexivity).
  assert (Einv : Sale.invoiceNumber s = (Env.stamp env, Env.random env))
    by (rewrite Hs; reflexivity).
  exists store. rewrite Hst, Estore.
  split; [exact Hstore|]. split.
  { intros Ho. unfold canAccess. rewrite (Howner Ho), Nat.eqb_refl. reflexivity. }
  assert (Hlook : DB.sales db' !! id = Some s) by (rewrite Hsa; apply lookup_insert_eq).
  split.
  { intros reader. unfold getSaleById. rewrite Hlook, Hst, Estore, Hstore. reflexivity. }
  split.
  { intros env' reader. unfold getSaleByInvoiceNumber.
    rewrite (findOne_unique _ _ id s Hlook).
    - rewrite Hst, Estore, Hstore. reflexivity.
    - unfold invoiceQuery. rewrite Invoice_eqb_refl. reflexivity.
    - intros k' v' Hk' Hq. destruct (decide (k' = id)) as [->|Hne]; [reflexivity|].
      exfalso. rewrite Hsa, lookup_insert_ne in Hk' by congruence.
      unfold invoiceTaken in Htaken. apply bool_decide_eq_false in Htaken.
      apply Htaken. rewrite HsalesN, Hsales1.
      eapply findOne_is_Some; [exact Hk'|].
      unfold invoiceQuery in Hq. apply andb_true_iff in Hq as [Hq _].
      rewrite <- Einv. exact Hq. }
  rewrite Hitems. apply Forall_fmap.
  eapply Forall_impl; [apply (served_records _ _ Hserved)|].
  intros it (_ & Hret & _). unfold compose.
  cbn [itemWithDetails ItemDetails.item ItemDetails.remainingQuantity].
  rewrite (orZero_Some (SaleItem.returnedQuantity it)), Hret. ring.
Qed.

Lemma createSale_then_read_witness :
  getSaleById Scenario.aClerk (WellFormed 200) Scenario.db1 = Done Case.sold
  ∧ getSaleById (User.mk 9 staff) (WellFormed 200) Scenario.db1
    = Refused 403 ViewForbidden.
Proof.
  destruct (createSale_then_read Scenario.env0 Scenario.theOwner
              Scenario.eightUnits Scenario.db0 200%nat Case.sold Scenario.db1)
    as (store & Hstore & _ & Hread & _).
  - vm_compute; reflexivity.
  - assert (Es : DB.stores Scenario.db1 !! Sale.store Case.sold
                 = Some (Store.mk 7 [8%nat])) by (vm_compute; reflexivity).
    pose proof (eq_trans (eq_sym Hstore) Es) as Heq. injection Heq as ->.
    split; rewrite Hread; reflexivity.
Defined.

(** ** Invariants of the sales collection *)

Lemma createSale_fresh env user body db id s db' :
  createSale env user body db = (SaleCreated id s, db') →
  Sale.returnTotal s = 0 ∧ Sale.returns s = []
  ∧ Sale.finalTotal s = Sale.total s
  ∧ ∀ k v, DB.sales db !! k = Some v →
           Sale.invoiceNumber v ≠ Sale.invoiceNumber s.
Proof.
  intros H. apply createSale_created in H
    as (c & db1 & cart & dbN & Ec & Ei & _ & Htaken & _ & _ & Hs & _).
  apply checkRequest_frame in Ec as [_ Hsales1].
  apply processItems_inv in Ei as (_ & _ & _ & _ & _ & _ & _ & (_ & _ & _ & HsalesN)).
  rewrite Hs. repeat split.
  intros k v Hk Heq. unfold invoiceTaken in Htaken.
  apply bool_decide_eq_false in Htaken. apply Htaken.
  rewrite HsalesN, Hsales1. eapply findOne_is_Some; [exact Hk|].
  cbn beta. rewrite Heq. apply Invoice_eqb_refl.
Qed.

Lemma returnProducts_sale env user body db r db' :
  returnProducts env user body db = (ProductsReturned r, db') →
  ∃ id sale lines st,
    DB.sales db !! id = Some sale
    ∧ DB.sales db'
      = <[id := returnedSale env user sale lines (Req.reason body) st]> (DB.sales db).
Proof.
  intros H. apply returnProducts_returned, returnProductsTx_Continue in H
    as (id & sale & storeDoc & raw & lines & st & dbL & _ & _ & _ & Hsale
        & _ & _ & _ & Hrun & -> & _).
  apply returnLines_effects in Hrun as (_ & (_ & _ & _ & Hsa) & _).
  exists id, sale, lines, st. split; [exact Hsale|].
  cbn [DB.setSales DB.sales]. rewrite Hsa. reflexivity.
Qed.

Lemma updatePaymentStatus_Done user req r sale' r' :
  updatePaymentStatus user req r = (Done sale', r') →
  ∃ id sale store,
    PaymentUpdate.validationErrors req = false
    ∧ PaymentUpdate.saleId req = WellFormed id
    ∧ DB.sales (Records.db r) !! id = Some sale
    ∧ DB.stores (Records.db r) !! Sale.store sale = Some store
    ∧ canAccess user store = true
    ∧ statusListed (PaymentUpdate.status req) = true
    ∧ sale' = setPaymentStatus sale (PaymentUpdate.status req)
    ∧ r' = Records.mk
             (DB.setSales (Records.db r) (<[id := sale']> (DB.sales (Records.db r))))
             (match PaymentUpdate.transactionId req with
              | Some t =>
                  if String.eqb t "" then Records.transactionIds r
                  else <[id := t]> (Records.transactionIds r)
              | None => Records.transactionIds r
              end).
Proof.
  unfold updatePaymentStatus. intros H.
  destruct (PaymentUpdate.validationErrors req); [discriminate H|].
  destruct (PaymentUpdate.saleId req) as [id|]; [|discriminate H].
  destruct (DB.sales (Records.db r) !! id) as [sale|] eqn:Es; [|discriminate H].
  destruct (DB.stores (Records.db r) !! Sale.store sale) as [store|] eqn:Est;
    [|discriminate H].
  destruct (canAccess user store) eqn:Ea; [|discriminate H].
  destruct (statusListed (PaymentUpdate.status req)) eqn:El; [|discriminate H].
  cbn [negb] in H. injection H as <- <-.
  exists id, sale, store. repeat split; assumption.
Qed.

Lemma updatePaymentStatus_Refused user req r status why r' :
  updatePaymentStatus user req r = (Refused status why, r') → r' = r.
Proof.
  unfold updatePaymentStatus. intros H.
  repeat match type of H with
  | (if ?b then _ else _) = _ => destruct b
  | match ?x with _ => _ end = _ => destruct x
  end; congruence.
Qed.

Lemma cancelSale_sales env user saleId db r db' :
  cancelSale env user saleId db = (r, db') →
  db' = db ∨ ∃ id, DB.sales db' = delete id (DB.sales db).
Proof.
  unfold cancelSale, transaction.
  destruct (cancelSaleTx env user saleId db) as [r1 d1|r1] eqn:E;
    intros [= <- <-]; [right|left; reflexivity].
  apply cancelSaleTx_Continue in E
    as (id & sale & store & dbR & _ & _ & _ & _ & _ & Hrun & -> & _).
  destruct (restoreInventory_effects (Sale.items sale) db)
    as (dbR' & Hrun' & _ & (_ & _ & _ & Hsa)).
  assert (dbR' = dbR) as -> by congruence.
  exists id. cbn [DB.setSales DB.sales]. rewrite Hsa. reflexivity.
Qed.




(** X14.  No two stored sales share an invoice number, and each of the four
    handlers that write sales keeps it so: [createSale] refuses an invoice
    number that is taken, the others never change one. *)
Theorem handlers_keep_invoices_unique env user db :
  invoicesUnique db →
  (∀ body r db', createSale env user body db = (r, db') → invoicesUnique db')
  ∧ (∀ body r db', returnProducts env user body db = (r, db') → invoicesUnique db')
  ∧ (∀ saleId r db', cancelSale env user saleId db = (r, db') → invoicesUnique db')
  ∧ (∀ req tids a r',
       updatePaymentStatus user req (Records.mk db tids) = (a, r') →
       invoicesUnique (Records.db r')).
Proof.
  intros Hinv.
  assert (Hsame : ∀ id sale sale' (sales' : gmap ObjectId Sale.t),
            DB.sales db !! id = Some sale →
            Sale.invoiceNumber sale' = Sale.invoiceNumber sale →
            sales' = <[id := sale']> (DB.sales db) →
            ∀ i j s t, sales' !! i = Some s → sales' !! j = Some t →
              Sale.invoiceNumber s = Sale.invoiceNumber t → i = j).
  { intros id sale sale' sales' Hsale Hnum -> i j s t.
    destruct (decide (i = id)) as [->|Hi], (decide (j = id)) as [->|Hj];
      rewrite ?lookup_insert_eq, ?lookup_insert_ne by congruence.
    - reflexivity.
    - intros [= <-] Ht Heq. rewrite Hnum in Heq. apply (Hinv _ _ _ _ Hsale Ht Heq).
    - intros Hs [= <-] Heq. rewrite Hnum in Heq. apply (Hinv _ _ _ _ Hs Hsale Heq).
    - apply Hinv. }
  split; [|split; [|split]].
  - intros body r db' H.
    destruct r as [status e|x|id s| |x];
      try (rewrite (createSale_unchanged _ _ _ _ _ _ H);
           [exact Hinv|intros (? & ? & ?); discriminate]).
    pose proof (createSale_fresh _ _ _ _ _ _ _ H) as (_ & _ & _ & Hfresh).
    apply createSale_stock in H as (_ & _ & _ & Hsa).
    intros i j s1 t1. rewrite Hsa.
    destruct (decide (i = id)) as [->|Hi], (decide (j = id)) as [->|Hj];
      rewrite ?lookup_insert_eq, ?lookup_insert_ne by congruence.
    + reflexivity.
    + intros [= <-] Ht Heq. exfalso. apply (Hfresh _ _ Ht). congruence.
    + intros Hs [= <-] Heq. exfalso. apply (Hfresh _ _ Hs). congruence.
    + apply Hinv.
  - intros body r db' H.
    destruct r as [status e|x|id s| |x];
      try (rewrite (returnProducts_unchanged _ _ _ _ _ _ H);
           [exact Hinv|intros (? & ?); discriminate]).
    apply returnProducts_sale in H as (id & sale & lines & st & Hsale & Hsa).
    exact (Hsame id sale (returnedSale env user sale lines (Req.reason body) st) _
             Hsale eq_refl Hsa).
  - intros saleId r db' H.
    apply cancelSale_sales in H as [->|[id Hsa]]; [exact Hinv|].
    intros i j s t. rewrite Hsa. intros Hi Hj.
    apply lookup_delete_Some in Hi as [_ Hi]. apply lookup_delete_Some in Hj as [_ Hj].
    apply (Hinv _ _ _ _ Hi Hj).
  - intros req tids a r' H. destruct a as [status why|sale'].
    + apply updatePaymentStatus_Refused in H as ->. exact Hinv.
    + apply updatePaymentStatus_Done in H
        as (id & sale & store & _ & _ & Hsale & _ & _ & _ & -> & ->).
      cbn [Records.db] in *.
      exact (Hsame id sale (setPaymentStatus sale (PaymentUpdate.status req)) _
               Hsale eq_refl eq_refl).
Qed.

Lemma handlers_keep_invoices_unique_witness : invoicesUnique Scenario.db1.
Proof.
  assert (H0 : invoicesUnique Scenario.db0).
  { intros i j s t H.
    change (DB.sales Scenario.db0) with (∅ : gmap ObjectId Sale.t) in H.
    rewrite lookup_empty in H. discriminate H. }
  apply (proj1 (handlers_keep_invoices_unique Scenario.env0 Scenario.theOwner
                  Scenario.db0 H0)
           Scenario.eightUnits (SaleCreated 200 Case.sold)).
  vm_compute; reflexivity.
Defined.

(** ** Payment status *)

(** X15.  [updatePaymentStatus] changes the payment status of one sale and
    nothing else: on success the sale is the stored one with the new
    status (one of pending, completed, failed), its payment method, items
    and totals as before; no other sale and no batch changes; the
    transaction id of the sale is replaced only when a non-empty one is
    sent, and that of every other sale is kept.  Doing the same update
    again answers the same and changes nothing.  Any refusal leaves
    everything as it was. *)
Theorem updatePaymentStatus_only_payment user req r :
  (∀ sale' r', updatePaymentStatus user req r = (Done sale', r') →
     ∃ id sale,
       PaymentUpdate.saleId req = WellFormed id
       ∧ DB.sales (Records.db r) !! id = Some sale
       ∧ sale' = setPaymentStatus sale (PaymentUpdate.status req)
       ∧ is_Some (Payment.status (Sale.payment sale'))
       ∧ statusAllowed (Payment.status (Sale.payment sale')) = true
       ∧ Records.db r'
         = DB.setSales (Records.db r) (<[id := sale']> (DB.sales (Records.db r)))
       ∧ (∀ id', id' ≠ id →
            Records.transactionIds r' !! id' = Records.transactionIds r !! id')
       ∧ Records.transactionIds r' !! id
         = match PaymentUpdate.transactionId req with
           | Some t =>
               if String.eqb t "" then Records.transactionIds r !! id else Some t
           | None => Records.transactionIds r !! id
           end
       ∧ updatePaymentStatus user req r' = (Done sale', r'))
  ∧ (∀ status why r',
       updatePaymentStatus user req r = (Refused status why, r') → r' = r).
Proof.
  split; [|intros status why r'; apply updatePaymentStatus_Refused].
  intros sale' r' H. apply updatePaymentStatus_Done in H
    as (id & sale & store & Hval & Hid & Hsale & Hstore & Hacc & Hlisted & Hs & ->).
  exists id, sale. cbn [Records.db Records.transactionIds].
  split; [exact Hid|]. split; [exact Hsale|]. split; [exact Hs|].
  assert (Hstatus : is_Some (PaymentUpdate.status req)
                    ∧ statusAllowed (PaymentUpdate.status req) = true).
  { destruct (PaymentUpdate.status req) as [st|]; [|discriminate Hlisted].
    split; [eexists; reflexivity|exact Hlisted]. }
  split; [rewrite Hs; apply Hstatus|]. split; [rewrite Hs; apply Hstatus|].
  split; [reflexivity|]. split; [|split].
  - intros id' Hne. destruct (PaymentUpdate.transactionId req) as [t|]; [|reflexivity].
    destruct (String.eqb t ""); [reflexivity|].
    apply lookup_insert_ne. congruence.
  - destruct (PaymentUpdate.transactionId req) as [t|]; [|reflexivity].
    destruct (String.eqb t ""); [reflexivity|apply lookup_insert_eq].
  - unfold updatePaymentStatus. rewrite Hval, Hid.
    cbn [Records.db Records.transactionIds DB.sales DB.setSales DB.stores].
    rewrite lookup_insert_eq.
    assert (Es : Sale.store sale' = Sale.store sale) by (rewrite Hs; reflexivity).
    rewrite Es, Hstore, Hacc, Hlisted. cbn [negb].
    assert (Eu : setPaymentStatus sale' (PaymentUpdate.status req) = sale')
      by (rewrite Hs; reflexivity).
    rewrite Eu, insert_insert_eq. f_equal. f_equal.
    destruct (PaymentUpdate.transactionId req) as [t|]; [|reflexivity].
    destruct (String.eqb t ""); [reflexivity|apply insert_insert_eq].
Qed.

Lemma updatePaymentStatus_only_payment_witness :
  Records.transactionIds Case.paidRecords !! 200%nat = Some "TX-1"%string
  ∧ updatePaymentStatus Scenario.aClerk Case.paidRequest Case.paidRecords
    = (Done Case.paid, Case.paidRecords).
Proof.
  destruct (proj1 (updatePaymentStatus_only_payment Scenario.aClerk
                     Case.paidRequest (Records.mk Scenario.db1 ∅))
              Case.paid Case.paidRecords)
    as (id & sale & [= <-] & _ & _ & _ & _ & _ & _ & Htx & Hagain).
  - vm_compute; reflexivity.
  - split; [exact Htx|exact Hagain].
Defined.

(** ** The pre-save hook *)

(** X16.  The [pre("save")] hook of the sale schema changes nothing that the
    handlers save: on the sale [createSale] stores it leaves every path as
    it is and [finalTotal] equal (as a number) to the stored [total]; on
    the sale [returnProducts] stores it is the identity, whether or not
    [returnTotal] counts as modified. *)
Theorem preSave_keeps_what_the_handlers_save :
  (∀ env user body db id s db',
     createSale env user body db = (SaleCreated id s, db') →
     ∀ modified, sameSale s (preSave modified s))
  ∧ (∀ env user body db r db',
       returnProducts env user body db = (ProductsReturned r, db') →
       ∃ id sale',
         Req.saleId body = WellFormed id
         ∧ DB.sales db' !! id = Some sale'
         ∧ ∀ modified, preSave modified sale' = sale').
Proof.
  split.
  - intros env user body db id s db' H modified.
    apply createSale_fresh in H as (Hrt & _ & Hft & _).
    unfold preSave, sameSale.
    destruct (modified || negb (Js.truthyQ (Sale.finalTotal s))).
    + cbn [setFinalTotal Sale.finalTotal]. split; [reflexivity|].
      rewrite Hft, (orZero_Some (Sale.returnTotal s)), Hrt. ring.
    + split; [destruct s; reflexivity|reflexivity].
  - intros env user body db r db' H.
    apply returnProducts_returned, returnProductsTx_Continue in H
      as (id & sale & storeDoc & raw & lines & st & dbL & Hid & _ & _ & _
          & _ & _ & _ & _ & -> & _).
    eexists id, _. split; [exact Hid|].
    split; [cbn [DB.setSales DB.sales]; apply lookup_insert_eq|].
    intros modified. unfold preSave.
    destruct (modified || _); reflexivity.
Qed.

Lemma preSave_keeps_what_the_handlers_save_witness :
  sameSale Case.sold (preSave true Case.sold)
  ∧ sameSale Case.sold (preSave false Case.sold).
Proof.
  split;
    apply (proj1 preSave_keeps_what_the_handlers_save Scenario.env0
             Scenario.theOwner Scenario.eightUnits Scenario.db0 200%nat Case.sold
             Scenario.db1);
    vm_compute; reflexivity.
Defined.

(** ** Rounding and the recalculation reply *)

Lemma toFixed2_cents (k : Z) : Js.toFixed2 (Qred (k # 100)) = Qred (k # 100).
Proof.
  unfold Js.toFixed2.
  assert (Hfloor : Qfloor (Qabs (Qred (k # 100)) * 100 + (1 # 2)) = Z.abs k).
  { rewrite (Qfloor_comp _ ((Z.abs k # 100) * 100 + (1 # 2))).
    2:{ rewrite (Qred_correct (k # 100)). reflexivity. }
    unfold Qfloor, Qplus, Qmult. cbn [Qnum Qden].
    symmetry. apply (Z.div_unique _ _ _ 100%Z); lia. }
  rewrite Hfloor.
  assert (Hsign : Qle_bool 0 (Qred (k # 100)) = (0 <=? k)%Z).
  { apply eq_true_iff_eq. rewrite Qle_bool_iff, (Qred_correct (k # 100)).
    unfold Qle. cbn [Qnum Qden]. rewrite Z.leb_le. lia. }
  rewrite Hsign. f_equal. f_equal. destruct (Z.leb_spec 0 k); lia.
Qed.

Lemma toFixed2_idem x : Js.toFixed2 (Js.toFixed2 x) = Js.toFixed2 x.
Proof. unfold Js.toFixed2 at 2 3. apply toFixed2_cents. Qed.

Lemma toFixed2_no_discrepancy x : Js.discrepancy x (Js.toFixed2 x) = false.
Proof.
  unfold Js.discrepancy. apply gtb_false.
  pose proof (toFixed2_close x) as H. apply Qabs_Qle_condition in H.
  unfold Js.epsilon. apply Qabs_Qle_condition. split; lra.
Qed.

Lemma createSale_recalculated env user body db r db' :
  createSale env user body db = (Recalculation r, db') →
  ∃ c db1 cart dbN,
    db' = db
    ∧ checkRequest env user body db = Continue c db1
    ∧ processItems (Checked.storeId c) (Checked.items c) Cart.empty db1
      = Continue cart dbN
    ∧ Req.forceCreate body = false
    ∧ r = recalculation (Js.numOrZero (Req.discountPct body))
            (Js.numOrZero (Req.tax body))
            (Checked.subtotal c) (Checked.total c) cart.
Proof.
  unfold createSale, transaction. intros H.
  destruct (createSaleTx env user body db) as [r1 d1|r1] eqn:E;
    injection H as -> <-.
  { apply createSaleTx_commits in E as (? & ? & [=]). }
  unfold createSaleTx in E.
  destruct (checkRequest env user body db) as [c dc|r0] eqn:Ec.
  2:{ erewrite bind_abort in E by exact Ec. injection E as ->.
      apply failsOnly_checkRequest in Ec. discriminate Ec. }
  erewrite bind_step in E by exact Ec. cbv beta in E.
  destruct (processItems (Checked.storeId c) (Checked.items c) Cart.empty dc)
    as [cart dN|r0] eqn:Ei.
  2:{ erewrite bind_abort in E by exact Ei. injection E as ->.
      apply failsOnly_processItems in Ei. discriminate Ei. }
  erewrite bind_step in E by exact Ei. cbv beta in E.
  exists c, dc, cart, dN. split; [reflexivity|]. split; [reflexivity|].
  split; [exact Ei|].
  unfold settle in E.
  destruct (_ && negb (Req.forceCreate body)) eqn:Econd.
  - injection E as <-. apply andb_true_iff in Econd as [_ Hf].
    apply negb_true_iff in Hf. split; [exact Hf|reflexivity].
  - exfalso. revert E. generalize dN. 
    assert (F : failsOnly
      (check (saleValidates (Js.numOrZero (Req.discountPct body))
                (Checked.payment c) cart) (Failure 400 SaleValidationError);;
       taken ← read (invoiceTaken
         (SaleInit.invoiceNumber
            (saleInit env user (Checked.storeId c) (Checked.customerId c)
               (Req.forceCreate body) (Js.numOrZero (Req.discountPct body))
               (Js.numOrZero (Req.tax body)) (Checked.subtotal c) (Checked.total c)
               (Checked.payment c) cart)));
       check (negb taken) (Failure 409 DuplicateKey);;
       write (λ db0, DB.setSales db0
         (<[Env.freshSale env :=
              newSale (saleInit env user (Checked.storeId c)
                 (Checked.customerId c) (Req.forceCreate body)
                 (Js.numOrZero (Req.discountPct body))
                 (Js.numOrZero (Req.tax body))
                 (Checked.subtotal c) (Checked.total c)
                 (Checked.payment c) cart)]> (DB.sales db0)));;
       mret (SaleCreated (Env.freshSale env)
               (newSale (saleInit env user (Checked.storeId c)
                 (Checked.customerId c) (Req.forceCreate body)
                 (Js.numOrZero (Req.discountPct body))
                 (Js.numOrZero (Req.tax body))
                 (Checked.subtotal c) (Checked.total c)
                 (Checked.payment c) cart))))) by fails_only.
    intros d E. apply F in E. discriminate E.
Qed.

Lemma checkRequest_withTotals env user body db c db1 subtotal total :
  checkRequest env user body db = Continue c db1 →
  checkRequest env user (withTotals body subtotal total) db
  = Continue (Checked.mk (Checked.items c) (Checked.payment c) subtotal total
                         (Checked.storeId c) (Checked.customerId c)) db1.
Proof.
  unfold checkRequest. intros H.
  apply bind_Continue in H as (? & d1 & E1 & H).
  apply bind_Continue in H as (items & d2 & E2 & H).
  apply bind_Continue in H as (payment & d3 & E3 & H).
  apply bind_Continue in H as ([subtotal0 total0] & d4 & E4 & H).
  apply bind_Continue in H as (storeId & d5 & E5 & H).
  apply bind_Continue in H as (customerId & d6 & E6 & H).
  tx_simpl. cbn [withTotals Req.validationErrors Req.items Req.payment Req.subtotal
                 Req.total Req.discountPct Req.tax Req.store Req.customer
                 Checked.items Checked.payment Checked.storeId Checked.customerId].
  erewrite bind_step by (rewrite E1; reflexivity). cbv beta.
  erewrite bind_step by (rewrite E2; reflexivity). cbv beta.
  erewrite bind_step by (rewrite E3; reflexivity). cbv beta.
  erewrite (bind_step _ _ _ (subtotal, total)).
  2:{ destruct (Req.subtotal body); try discriminate E4.
      destruct (Req.total body); try discriminate E4.
      destruct (Req.discountPct body), (Req.tax body);
        first [discriminate E4 | reflexivity]. }
  cbv beta.
  erewrite bind_step by exact E5. cbv beta.
  erewrite bind_step by exact E6. reflexivity.
Qed.

(** X17.  The recalculation reply can be taken at its word: when [createSale]
    answers with recalculated values (and has changed nothing), the same
    request with [subtotal] and [total] replaced by the recalculated ones
    is not answered with a recalculation again and fails on none of the
    request, stock or price checks: the sale is created, with exactly the
    recalculated subtotal and total stored, unless the document fails
    schema validation (400) or the invoice number is taken (409), in
    which cases nothing changes. *)
Theorem createSale_accepts_recalculated_amounts env user body db r db' :
  createSale env user body db = (Recalculation r, db') →
  db' = db
  ∧ ((∃ id s db2,
        createSale env user (withTotals body (Recalc.subtotal r) (Recalc.total r)) db
        = (SaleCreated id s, db2)
        ∧ Sale.subtotal s = Recalc.subtotal r
        ∧ Sale.total s = Recalc.total r)
     ∨ createSale env user (withTotals body (Recalc.subtotal r) (Recalc.total r)) db
       = (Failure 400 SaleValidationError, db)
     ∨ createSale env user (withTotals body (Recalc.subtotal r) (Recalc.total r)) db
       = (Failure 409 DuplicateKey, db)).
Proof.
  intros H. apply createSale_recalculated in H
    as (c & db1 & cart & dbN & -> & Ec & Ei & Hforce & ->).
  split; [reflexivity|].
  cbn [recalculation Recalc.subtotal Recalc.total].
  set (pct := Js.numOrZero (Req.discountPct body)).
  set (tax := Js.numOrZero (Req.tax body)).
  set (sub := Js.toFixed2 (Cart.calculatedSubtotal cart)).
  set (tot := Js.toFixed2 (calculatedTotal pct tax cart)).
  pose proof (checkRequest_withTotals _ _ _ _ _ _ sub tot Ec) as Ec'.
  unfold createSale, createSaleTx.
  assert (Hsettle :
    ∀ k, transaction
           (c0 ← checkRequest env user (withTotals body sub tot);
            cart0 ← processItems (Checked.storeId c0) (Checked.items c0) Cart.empty;
            settle env user (withTotals body sub tot) c0 cart0) db = k
         ↔ match settle env user (withTotals body sub tot)
                   (Checked.mk (Checked.items c) (Checked.payment c) sub tot
                      (Checked.storeId c) (Checked.customerId c)) cart dbN with
           | Continue r2 d2 => (r2, d2)
           | Reply r2 => (r2, db)
           end = k).
  { intros k. unfold transaction.
    erewrite bind_step by exact Ec'. cbv beta.
    cbn [Checked.storeId Checked.items].
    erewrite bind_step by exact Ei. cbv beta. reflexivity. }
  unfold settle in Hsettle.
  cbn [withTotals Req.discountPct Req.tax Req.forceCreate Checked.subtotal
       Checked.total Checked.storeId Checked.customerId Checked.payment] in Hsettle.
  fold pct tax in Hsettle.
  assert (Hd1 : Js.discrepancy (Cart.calculatedSubtotal cart) sub = false)
    by apply toFixed2_no_discrepancy.
  assert (Hd2 : Js.discrepancy (calculatedTotal pct tax cart) tot = false)
    by apply toFixed2_no_discrepancy.
  rewrite Hd1, Hd2, !andb_false_r in Hsettle. cbn [orb andb] in Hsettle.
  destruct (saleValidates pct (Checked.payment c) cart) eqn:Hval.
  2:{ right. left. apply Hsettle. reflexivity. }
  destruct (invoiceTaken (Env.stamp env, Env.random env) dbN) eqn:Htaken.
  2:{ left. eexists _, _, _. split.
      - apply Hsettle. unfold mbind, Tx_bind, check, read, write, mret, Tx_ret.
        cbn [saleInit SaleInit.invoiceNumber]. rewrite Htaken. reflexivity.
      - rewrite Hforce. cbn [newSale saleInit Sale.subtotal Sale.total
                             SaleInit.subtotal SaleInit.total].
        unfold sub, tot. split; apply toFixed2_idem. }
  right. right. apply Hsettle.
  unfold mbind, Tx_bind, check, read, write, mret, Tx_ret, abort.
  cbn [saleInit SaleInit.invoiceNumber]. rewrite Htaken. reflexivity.
Qed.

Lemma createSale_accepts_recalculated_amounts_witness :
  ∃ id s db2,
    createSale Scenario.env0 Scenario.theOwner
      (withTotals Case.mispriced 86 86) Scenario.db0
    = (SaleCreated id s, db2)
    ∧ Sale.subtotal s = 86.
Proof.
  destruct (createSale_accepts_recalculated_amounts Scenario.env0 Scenario.theOwner
              Case.mispriced Scenario.db0 Case.recalculated Scenario.db0)
    as (_ & [H|[H|H]]).
  - vm_compute; reflexivity.
  - destruct H as (id & s & db2 & H & Hs & _).
    exists id, s, db2. split; [exact H|]. rewrite Hs. reflexivity.
  - vm_compute in H. discriminate H.
  - vm_compute in H. discriminate H.
Defined.

(** ** The walk-in customer *)

Lemma findOne_None_intro {A} (cond : ObjectId → A → bool) (m : gmap ObjectId A) :
  (∀ k v, m !! k = Some v → cond k v = false) → findOne cond m = None.
Proof.
  intros H. destruct (findOne cond m) as [[k v]|] eqn:E; [|reflexivity].
  apply findOne_Some in E as [Hk Hc]. rewrite (H _ _ Hk) in Hc. discriminate Hc.
Qed.

Lemma isWalkIn_walkIn s : isWalkIn s (walkIn s) = true.
Proof. unfold isWalkIn, walkIn. cbn. rewrite Nat.eqb_refl. reflexivity. Qed.

Lemma resolveCustomer_walkIn env s db c db1 :
  resolveCustomer env s None db = Continue c db1 →
  (∃ doc, DB.customers db !! c = Some doc ∧ isWalkIn s doc = true ∧ db1 = db)
  ∨ (noWalkIn s db
     ∧ c = Env.freshCustomer env
     ∧ db1 = DB.setCustomers db (<[c := walkIn s]> (DB.customers db))).
Proof.
  unfold resolveCustomer. intros H.
  apply bind_Continue in H as (existing & d & E & H).
  apply read_Continue in E as [-> ->].
  destruct (findOne _ _) as [[k doc]|] eqn:Ef.
  - apply mret_Continue in H as [-> ->]. left.
    apply findOne_Some in Ef as [Hk Hw]. exists doc. repeat split; assumption.
  - apply bind_Continue in H as (clash & d1 & E1 & H).
    apply bind_Continue in H as (? & d2 & E2 & H).
    apply bind_Continue in H as (? & d3 & E3 & H).
    tx_simpl. right. split; [|split; reflexivity].
    intros k doc Hk. apply (findOne_None _ _ Ef _ _ Hk).
Qed.

Lemma checkRequest_parts env user body db c db1 :
  checkRequest env user body db = Continue c db1 →
  resolveStore user (Req.store body) db = Continue (Checked.storeId c) db
  ∧ resolveCustomer env (Checked.storeId c) (Req.customer body) db
    = Continue (Checked.customerId c) db1.
Proof.
  unfold checkRequest. intros H.
  apply bind_Continue in H as (? & d1 & E1 & H).
  apply bind_Continue in H as (items & d2 & E2 & H).
  apply bind_Continue in H as (payment & d3 & E3 & H).
  apply bind_Continue in H as ([subtotal total] & d4 & E4 & H).
  apply bind_Continue in H as (storeId & d5 & E5 & H).
  apply bind_Continue in H as (customerId & d6 & E6 & H).
  tx_simpl. cbn [Checked.storeId Checked.customerId].
  assert (d5 = db) as ->.
  { unfold resolveStore in E5. destruct (User.role user).
    - destruct (Req.store body) as [[i|]|]; try discriminate E5.
      tx_step E5. tx_simpl. reflexivity.
    - tx_step E5. tx_simpl. reflexivity.
    - destruct (Req.store body) as [[i|]|]; try discriminate E5.
      tx_step E5. tx_simpl. reflexivity. }
  split; assumption.
Qed.

Lemma checkRequest_header env user body db c db1 env' user' db' :
  checkRequest env user body db = Continue c db1 →
  checkRequest env' user' body db'
  = (storeId ← resolveStore user' (Req.store body);
     customerId ← resolveCustomer env' storeId (Req.customer body);
     mret (Checked.mk (Checked.items c) (Checked.payment c)
                      (Checked.subtotal c) (Checked.total c)
                      storeId customerId)) db'.
Proof.
  unfold checkRequest. intros H.
  apply bind_Continue in H as (? & d1 & E1 & H).
  apply bind_Continue in H as (items & d2 & E2 & H).
  apply bind_Continue in H as (payment & d3 & E3 & H).
  apply bind_Continue in H as ([subtotal total] & d4 & E4 & H).
  apply bind_Continue in H as (storeId & d5 & E5 & H).
  apply bind_Continue in H as (customerId & d6 & E6 & H).
  tx_simpl. cbn [Checked.items Checked.payment Checked.subtotal Checked.total].
  erewrite bind_step by (rewrite E1; reflexivity). cbv beta.
  erewrite bind_step by (rewrite E2; reflexivity). cbv beta.
  erewrite bind_step by (rewrite E3; reflexivity). cbv beta.
  erewrite bind_step by (rewrite E4; reflexivity). cbv beta.
  reflexivity.
Qed.

Lemma createSale_customers env user body db id s db' :
  createSale env user body db = (SaleCreated id s, db') →
  ∃ c db1,
    checkRequest env user body db = Continue c db1
    ∧ Sale.store s = Checked.storeId c
    ∧ Sale.customer s = Checked.customerId c
    ∧ DB.customers db' = DB.customers db1.
Proof.
  intros H. apply createSale_created in H
    as (c & db1 & cart & dbN & Ec & Ei & _ & _ & _ & _ & Hs & ->).
  apply processItems_inv in Ei as (_ & _ & _ & _ & _ & _ & _ & (_ & Hcu & _ & _)).
  exists c, db1. split; [exact Ec|]. rewrite Hs.
  split; [reflexivity|]. split; [reflexivity|exact Hcu].
Qed.

(** X18.  A sale without a customer is booked on the store's walk-in customer:
    the customer of the created sale is a stored customer of the sale's
    store named "Walk-in Customer" without e-mail and phone number.  When
    the store had one already, no customer is created; when it had none,
    exactly one is created, under the fresh id, and it is the one used. *)
Theorem createSale_walk_in_customer env user body db id s db' :
  createSale env user body db = (SaleCreated id s, db') →
  Req.customer body = None →
  (∃ doc, DB.customers db' !! Sale.customer s = Some doc
          ∧ isWalkIn (Sale.store s) doc = true)
  ∧ ((∃ k doc, DB.customers db !! k = Some doc
               ∧ isWalkIn (Sale.store s) doc = true) →
     DB.customers db' = DB.customers db)
  ∧ (noWalkIn (Sale.store s) db →
     Sale.customer s = Env.freshCustomer env
     ∧ DB.customers db'
       = <[Sale.customer s := walkIn (Sale.store s)]> (DB.customers db)).
Proof.
  intros H Hnone. apply createSale_customers in H as (c & db1 & Ec & -> & -> & ->).
  apply checkRequest_parts in Ec as [_ Ec]. rewrite Hnone in Ec.
  apply resolveCustomer_walkIn in Ec
    as [(doc & Hdoc & Hw & ->)|(Hno & Hc & ->)].
  - split; [exists doc; split; assumption|]. split; [reflexivity|].
    intros Hno. rewrite (Hno _ _ Hdoc) in Hw. discriminate Hw.
  - cbn [DB.setCustomers DB.customers]. split; [|split].
    + exists (walkIn (Checked.storeId c)).
      split; [apply lookup_insert_eq|apply isWalkIn_walkIn].
    + intros (k & doc & Hk & Hw). rewrite (Hno _ _ Hk) in Hw. discriminate Hw.
    + intros _. split; [exact Hc|reflexivity].
Qed.

Lemma createSale_walk_in_customer_witness :
  ∃ doc, DB.customers Scenario.db1 !! Sale.customer Case.sold = Some doc
         ∧ isWalkIn (Sale.store Case.sold) doc = true.
Proof.
  apply (createSale_walk_in_customer Scenario.env0 Scenario.theOwner
           Scenario.eightUnits Scenario.db0 200%nat Case.sold Scenario.db1).
  - vm_compute; reflexivity.
  - reflexivity.
Defined.

(** X19.  The walk-in customer of one store blocks the walk-in customer of
    every other: the document is saved with [email: null], and the
    unique index on [email] admits one such document.  Once a sale without
    customer has created the walk-in customer of its store, the same
    request sent for a store [b] that has no walk-in customer of its own
    is answered 409 and changes nothing. *)
Theorem walk_in_of_one_store_blocks_another
    env user body db id s db1 env' user' b :
  createSale env user body db = (SaleCreated id s, db1) →
  Req.customer body = None →
  noWalkIn (Sale.store s) db →
  resolveStore user' (Req.store body) db1 = Continue b db1 →
  noWalkIn b db1 →
  createSale env' user' body db1 = (Failure 409 DuplicateKey, db1).
Proof.
  intros H Hnone Hno Hstore Hnob.
  apply createSale_customers in H as (c & dbc & Ec & Es & Hc & Hcu).
  pose proof (checkRequest_parts _ _ _ _ _ _ Ec) as [_ Er]. rewrite Hnone in Er.
  apply resolveCustomer_walkIn in Er
    as [(doc & Hdoc & Hw & ->)|(_ & Hfresh & ->)].
  { rewrite Es in Hno. rewrite (Hno _ _ Hdoc) in Hw. discriminate Hw. }
  cbn [DB.setCustomers DB.customers] in Hcu.
  unfold createSale. apply transaction_Reply. unfold createSaleTx.
  apply bind_abort. rewrite (checkRequest_header _ _ _ _ _ _ env' user' db1 Ec).
  erewrite bind_step by exact Hstore. cbv beta.
  apply bind_abort. rewrite Hnone. unfold resolveCustomer.
  erewrite bind_step by reflexivity. cbv beta.
  rewrite (findOne_None_intro _ _ Hnob).
  erewrite bind_step by reflexivity. cbv beta.
  apply bind_abort.
  assert (Hclash : is_Some (findOne (λ _ c0, isNull (Customer.email c0))
                                    (DB.customers db1))).
  { eapply (findOne_is_Some _ _ (Checked.customerId c)
              (walkIn (Checked.storeId c))).
    - rewrite Hcu. apply lookup_insert_eq.
    - reflexivity. }
  rewrite (bool_decide_eq_true_2 _ Hclash). reflexivity.
Qed.

Lemma walk_in_of_one_store_blocks_another_witness :
  createSale Scenario.env0 Case.otherOwner Scenario.eightUnits Case.twoStoresSold
  = (Failure 409 DuplicateKey, Case.twoStoresSold).
Proof.
  apply (walk_in_of_one_store_blocks_another Scenario.env0 Scenario.theOwner
           Scenario.eightUnits Case.twoStores 200%nat Case.sold Case.twoStoresSold
           Scenario.env0 Case.otherOwner Case.otherStore).
  - vm_compute; reflexivity.
  - reflexivity.
  - intros k doc H.
    change (DB.customers Case.twoStores) with (∅ : gmap ObjectId Customer.t) in H.
    rewrite lookup_empty in H. discriminate H.
  - vm_compute; reflexivity.
  - intros k doc H. apply elem_of_map_to_list in H. vm_compute in H.
    repeat (apply elem_of_cons in H as [[= -> ->]|H]); [reflexivity|inversion H].
Defined.

(** ** The store of an owner *)

(** X20.  For an owner the [store] of the request is not read at all: whatever
    it is (another store, a malformed id, nothing), [createSale] answers
    the same and leaves the same database, the sale going to the store
    [Store.findOne({ owner })] returns. *)
Theorem createSale_owner_store env user body db store' :
  User.role user = owner →
  createSale env user (withStore body store') db = createSale env user body db.
Proof.
  intros Hrole. unfold createSale, createSaleTx, checkRequest, settle, resolveStore.
  rewrite Hrole. reflexivity.
Qed.

Lemma createSale_owner_store_witness :
  createSale Scenario.env0 Scenario.theOwner
    (withStore Scenario.eightUnits (Some Malformed)) Scenario.db0
  = createSale Scenario.env0 Scenario.theOwner Scenario.eightUnits Scenario.db0.
Proof.
  apply (createSale_owner_store Scenario.env0 Scenario.theOwner Scenario.eightUnits
           Scenario.db0 (Some Malformed)).
  reflexivity.
Defined.

(** ** Who may touch a sale *)

(** X21.  A caller who is neither the owner, nor on the staff, nor an admin of a
    sale's store can do nothing with the sale: reading it by id and
    updating its payment are answered 403, cancelling it is answered 403
    (also when it is older than seven days), no return against it is
    accepted, and no invoice lookup shows it; the database stays as it
    is. *)
Theorem strangers_are_refused env user db id sale store :
  DB.sales db !! id = Some sale →
  DB.stores db !! Sale.store sale = Some store →
  canAccess user store = false →
  getSaleById user (WellFormed id) db = Refused 403 ViewForbidden
  ∧ (∀ status transactionId tids,
       updatePaymentStatus user
         (PaymentUpdate.mk false (WellFormed id) status transactionId)
         (Records.mk db tids)
       = (Refused 403 UpdateForbidden, Records.mk db tids))
  ∧ cancelSale env user (WellFormed id) db = (Failure 403 CancelForbidden, db)
  ∧ (∀ body, Req.saleId body = WellFormed id →
       ∃ status e, returnProducts env user body db = (Failure status e, db))
  ∧ (∀ param storeId view,
       getSaleByInvoiceNumber env user param storeId db = Done view →
       SaleView._id view ≠ id).
Proof.
  intros Hsale Hstore Hacc. split; [|split; [|split; [|split]]].
  - unfold getSaleById. rewrite Hsale, Hstore, Hacc. reflexivity.
  - intros status transactionId tids. unfold updatePaymentStatus.
    cbn [PaymentUpdate.validationErrors PaymentUpdate.saleId Records.db].
    rewrite Hsale, Hstore, Hacc. reflexivity.
  - unfold cancelSale, cancelSaleTx. apply transaction_Reply.
    erewrite bind_step by reflexivity. cbv beta.
    erewrite bind_step by (rewrite Hsale; reflexivity). cbv beta.
    erewrite bind_step by reflexivity. cbv beta.
    erewrite bind_step by (rewrite Hstore; reflexivity). cbv beta.
    apply bind_abort. unfold canAccess in Hacc.
    apply orb_false_iff in Hacc as [Hacc Hadmin].
    apply orb_false_iff in Hacc as [Howner _].
    rewrite Howner, Hadmin. reflexivity.
  - intros body Hid. unfold returnProducts, transaction.
    destruct (returnProductsTx env user body db) as [r1 d1|r1] eqn:E.
    + exfalso. apply returnProductsTx_Continue in E
        as (i & sale' & store' & ? & ? & ? & ? & Hi & _ & _ & Hsale' & Hstore'
            & Hauth & _).
      rewrite Hid in Hi. injection Hi as <-.
      pose proof (eq_trans (eq_sym Hsale') Hsale) as Heq. injection Heq as ->.
      pose proof (eq_trans (eq_sym Hstore') Hstore) as Heq. injection Heq as ->.
      unfold canAccess in Hacc. rewrite Hacc in Hauth. discriminate Hauth.
    + apply failsOnly_returnProductsTx, isFailure_true in E as (status & e & ->).
      exists status, e. reflexivity.
  - intros param storeId view H.
    apply getSaleByInvoiceNumber_Done in H
      as (inv & id' & sale' & store' & _ & Hsale' & _ & Hstore' & Hacc' & ->).
    cbn [saleView SaleView._id]. intros ->.
    pose proof (eq_trans (eq_sym Hsale') Hsale) as Heq. injection Heq as ->.
    pose proof (eq_trans (eq_sym Hstore') Hstore) as Heq. injection Heq as ->.
    rewrite Hacc in Hacc'. discriminate Hacc'.
Qed.

Lemma strangers_are_refused_witness :
  getSaleById Case.otherOwner (WellFormed 200) Scenario.db1
  = Refused 403 ViewForbidden
  ∧ cancelSale (Scenario.at_ Scenario.day) Case.otherOwner (WellFormed 200)
      Scenario.db1
    = (Failure 403 CancelForbidden, Scenario.db1).
Proof.
  destruct (strangers_are_refused (Scenario.at_ Scenario.day) Case.otherOwner
              Scenario.db1 200%nat Case.sold (Store.mk 7 [8%nat]))
    as (H1 & _ & H2 & _).
  - vm_compute; reflexivity.
  - vm_compute; reflexivity.
  - reflexivity.
  - split; [exact H1|exact H2].
Defined.

(** ** Returned units and return records *)






(** ** Payment enums *)

Lemma withDefaultStatus_listed p :
  statusAllowed (Payment.status p) = true →
  statusListed (Payment.status (withDefaultStatus p)) = true.
Proof. destruct p as [m [s|]]; simpl; [tauto|reflexivity]. Qed.

(** X23.  Every stored sale has a payment method among cash, card and
    mobileBanking and a payment status among pending, completed and
    failed; each of the four handlers that write sales keeps it so.
    [createSale] stores the method and the status of the request, with
    the schema's default "pending" for a status the request leaves out (a
    request with another method or status is answered 400 once its items
    have been processed, and rolled back); [updatePaymentStatus] accepts
    no other status. *)
Theorem handlers_keep_payments_valid env user db :
  paymentsValid db →
  (∀ body r db', createSale env user body db = (r, db') → paymentsValid db')
  ∧ (∀ body id s db',
       createSale env user body db = (SaleCreated id s, db') →
       ∃ pay,
         Req.payment body = Some pay
         ∧ Payment.method (Sale.payment s) = Payment.method pay
         ∧ Payment.status (Sale.payment s)
           = Some (default "pending"%string (Payment.status pay)))
  ∧ (∀ body r db', returnProducts env user body db = (r, db') → paymentsValid db')
  ∧ (∀ saleId r db', cancelSale env user saleId db = (r, db') → paymentsValid db')
  ∧ (∀ req tids a r',
       updatePaymentStatus user req (Records.mk db tids) = (a, r') →
       paymentsValid (Records.db r')).
Proof.
  intros Hinv. split; [|split; [|split; [|split]]].
  - intros body r db' H.
    destruct r as [status e|x|id s| |x];
      try (rewrite (createSale_unchanged _ _ _ _ _ _ H);
           [exact Hinv|intros (? & ? & ?); discriminate]).
    pose proof (createSale_created _ _ _ _ _ _ _ H)
      as (c & db1 & cart & dbN & _ & _ & Hval & _ & _ & _ & Hs & _).
    apply createSale_stock in H as (_ & _ & _ & Hsa).
    intros k v. rewrite Hsa. destruct (decide (k = id)) as [->|Hne].
    + rewrite lookup_insert_eq. intros [= <-]. rewrite Hs.
      unfold paymentValid. cbn [newSale saleInit Sale.payment SaleInit.payment].
      unfold saleValidates in Hval.
      apply andb_true_iff in Hval as [Hval Hstatus].
      apply andb_true_iff in Hval as [_ Hmethod].
      split; [exact Hmethod|apply withDefaultStatus_listed, Hstatus].
    + rewrite lookup_insert_ne by congruence. apply Hinv.
  - intros body id s db' H.
    apply createSale_created in H
      as (c & db1 & cart & dbN & Hc & _ & _ & _ & _ & _ & -> & _).
    apply checkRequest_Continue in Hc as (_ & _ & _ & Hpay).
    exists (Checked.payment c). split; [exact Hpay|]. split; reflexivity.
  - intros body r db' H.
    destruct r as [status e|x|id s| |x];
      try (rewrite (returnProducts_unchanged _ _ _ _ _ _ H);
           [exact Hinv|intros (? & ?); discriminate]).
    apply returnProducts_sale in H as (id & sale & lines & st & Hsale & Hsa).
    intros k v. rewrite Hsa. destruct (decide (k = id)) as [->|Hne].
    + rewrite lookup_insert_eq. intros [= <-]. apply (Hinv _ _ Hsale).
    + rewrite lookup_insert_ne by congruence. apply Hinv.
  - intros saleId r db' H.
    apply cancelSale_sales in H as [->|[id Hsa]]; [exact Hinv|].
    intros k v. rewrite Hsa. intros Hk. apply lookup_delete_Some in Hk as [_ Hk].
    eapply Hinv, Hk.
  - intros req tids a r' H. destruct a as [status why|sale'].
    + apply updatePaymentStatus_Refused in H as ->. exact Hinv.
    + apply updatePaymentStatus_Done in H
        as (id & sale & store & _ & _ & Hsale & _ & _ & Hlisted & -> & ->).
      cbn [Records.db] in *. intros k v. cbn [DB.setSales DB.sales].
      destruct (decide (k = id)) as [->|Hne].
      * rewrite lookup_insert_eq. intros [= <-]. unfold paymentValid.
        cbn [setPaymentStatus Sale.payment Payment.method Payment.status].
        split; [apply (Hinv _ _ Hsale)|].
        destruct (PaymentUpdate.status req) as [s|]; [|discriminate Hlisted].
        exact Hlisted.
      * rewrite lookup_insert_ne by congruence. apply Hinv.
Qed.

Lemma handlers_keep_payments_valid_witness :
  paymentsValid Scenario.db1
  ∧ Payment.status (Sale.payment Case.sold) = Some "pending"%string.
Proof.
  assert (H0 : paymentsValid Scenario.db0).
  { intros id sale H.
    change (DB.sales Scenario.db0) with (∅ : gmap ObjectId Sale.t) in H.
    rewrite lookup_empty in H. discriminate H. }
  split; [|reflexivity].
  apply (proj1 (handlers_keep_payments_valid Scenario.env0 Scenario.theOwner
                  Scenario.db0 H0)
           Scenario.eightUnits (SaleCreated 200 Case.sold)).
  vm_compute; reflexivity.
Defined.

(** * Verification on doubles *)

Import Ieee.

(** ** Comparisons and NaN *)

Section Doubles.
Implicit Types x y q : Num.t.

(** NaN is contagious: a sum, a difference or a product that is a number
    was computed from numbers. *)
Lemma add_number x y :
  Num.isNaN (Num.add x y) = false → Num.isNaN x = false ∧ Num.isNaN y = false.
Proof.
  destruct x, y; intros H; first [split; reflexivity | discriminate H].
Qed.

Lemma sub_number x y :
  Num.isNaN (Num.sub x y) = false → Num.isNaN x = false ∧ Num.isNaN y = false.
Proof.
  destruct x, y; intros H; first [split; reflexivity | discriminate H].
Qed.

Lemma mul_number x y :
  Num.isNaN (Num.mul x y) = false → Num.isNaN x = false ∧ Num.isNaN y = false.
Proof.
  destruct x, y; intros H; first [split; reflexivity | discriminate H].
Qed.

Lemma abs_number x : Num.isNaN (Num.abs x) = false → Num.isNaN x = false.
Proof. destruct x; intros H; first [reflexivity | discriminate H]. Qed.

(** A comparison that holds compares numbers. *)
Lemma ltb_number x y :
  Num.ltb x y = true → Num.isNaN x = false ∧ Num.isNaN y = false.
Proof.
  destruct x, y; intros H; first [split; reflexivity | discriminate H].
Qed.

Lemma leb_number x y :
  Num.leb x y = true → Num.isNaN x = false ∧ Num.isNaN y = false.
Proof.
  destruct x, y; intros H; first [split; reflexivity | discriminate H].
Qed.

Lemma compare_number x y :
  Num.isNaN x = false → Num.isNaN y = false → is_Some (SFcompare x y).
Proof.
  destruct x, y; intros Hx Hy; first [discriminate | eexists; reflexivity].
Qed.

Lemma compare_antisym x y c :
  SFcompare x y = Some c → SFcompare y x = Some (CompOpp c).
Proof.
  destruct x as [sx|sx| |sx mx ex], y as [sy|sy| |sy my ey]; simpl;
    try discriminate;
    try (intros [= <-]; reflexivity);
    try (destruct sx; intros [= <-]; reflexivity);
    try (destruct sy; intros [= <-]; reflexivity);
    try (destruct sx, sy; intros [= <-]; reflexivity).
  intros [= <-]. f_equal.
  rewrite (Z.compare_antisym ex ey).
  destruct sx, sy; try reflexivity;
    destruct (ex ?= ey)%Z; simpl; try reflexivity.
  - rewrite (Pos.compare_cont_antisym mx my Eq). reflexivity.
  - rewrite (Pos.compare_cont_antisym mx my Eq). reflexivity.
Qed.

(** Between numbers, [not (x < y)] is [y <= x]. *)
Lemma ltb_false_leb x y :
  Num.isNaN x = false → Num.isNaN y = false →
  Num.ltb x y = false → Num.leb y x = true.
Proof.
  intros Hx Hy. unfold Num.ltb, Num.leb, SFltb, SFleb.
  destruct (compare_number x y Hx Hy) as [c Hc].
  rewrite Hc, (compare_antisym _ _ _ Hc).
  destruct c; simpl; first [reflexivity | discriminate].
Qed.


(** [x] is truthy and not [<= 0] exactly when it is above zero. *)
Lemma positive x :
  Num.truthy x && negb (Num.leb x Num.zero) = Num.gtb x Num.zero.
Proof. destruct x as [s|s| |s m e]; try destruct s; reflexivity. Qed.

(** Adding to zero, as far as comparisons go, adds nothing. *)
Lemma compare_add_zero q y s :
  SFcompare (Num.add (S754_zero s) q) y = SFcompare q y.
Proof.
  destruct q as [sq|sq| |sq mq eq]; try reflexivity.
  destruct s, sq, y; reflexivity.
Qed.

Lemma add_zero_number q s :
  Num.isNaN (Num.add (S754_zero s) q) = Num.isNaN q.
Proof. destruct q as [sq|sq| |sq mq eq]; try reflexivity. destruct s, sq; reflexivity. Qed.

End Doubles.

(** ** Stepping through a session *)

Section Sessions.
Context {A B : Type}.
Implicit Types (m : Tx A) (f : A → Tx B) (db : DB.t).

Lemma run_bind m f db b db2 :
  (m ≫= f) db = Continue b db2
  ↔ ∃ a db1, m db = Continue a db1 ∧ f a db1 = Continue b db2.
Proof.
  unfold mbind, Tx_bind. destruct (m db) as [a db1|r]; split.
  - intros H. exists a, db1. split; [reflexivity|exact H].
  - intros (a' & db1' & [= -> ->] & H). exact H.
  - intros H. discriminate H.
  - intros (a' & db1' & H & _). discriminate H.
Qed.

Lemma run_step m f db a db1 :
  m db = Continue a db1 → (m ≫= f) db = f a db1.
Proof. unfold mbind, Tx_bind. intros ->. reflexivity. Qed.

Lemma run_abort m f db r : m db = Reply r → (m ≫= f) db = Reply r.
Proof. unfold mbind, Tx_bind. intros ->. reflexivity. Qed.

End Sessions.

Lemma run_check b r db u db' :
  check b r db = Continue u db' ↔ b = true ∧ db' = db.
Proof.
  destruct b; simpl; split.
  - intros [= _ ->]. split; reflexivity.
  - intros [_ ->]. destruct u. reflexivity.
  - intros H. discriminate H.
  - intros [H _]. discriminate H.
Qed.

Lemma run_found {A} (o : option A) r db a db' :
  found o r db = Continue a db' ↔ o = Some a ∧ db' = db.
Proof.
  destruct o as [x|]; simpl; split.
  - intros [= -> ->]. split; reflexivity.
  - intros [[= ->] ->]. reflexivity.
  - intros H. discriminate H.
  - intros [H _]. discriminate H.
Qed.

Lemma run_read {A} (f : DB.t → A) db a db' :
  read f db = Continue a db' ↔ a = f db ∧ db' = db.
Proof.
  unfold read. split.
  - intros [= <- <-]. split; reflexivity.
  - intros [-> ->]. reflexivity.
Qed.

Lemma run_write (f : DB.t → DB.t) db u db' :
  write f db = Continue u db' ↔ db' = f db.
Proof.
  unfold write. split.
  - intros [= _ <-]. reflexivity.
  - intros ->. destruct u. reflexivity.
Qed.

Lemma run_mret {A} (a : A) db a' db' :
  (mret a : Tx A) db = Continue a' db' ↔ a' = a ∧ db' = db.
Proof.
  unfold mret, Tx_ret. split.
  - intros [= <- <-]. split; reflexivity.
  - intros [-> ->]. reflexivity.
Qed.

Lemma run_saveStock thrown id batch q db u db' :
  saveStock thrown id batch q db = Continue u db'
  ↔ Num.isNaN q = false
    ∧ db' = DB.setBatches db (<[id := Batch.setStock batch q]> (DB.batches db)).
Proof.
  unfold saveStock. rewrite run_bind. split.
  - intros (? & d & H1 & H2). apply run_check in H1 as [H1 ->].
    apply run_write in H2 as ->. apply negb_true_iff in H1. split; [exact H1|reflexivity].
  - intros [H ->]. exists tt, db. rewrite H. split; [reflexivity|].
    destruct u. reflexivity.
Qed.

Lemma rolled_back body db r :
  body db = Reply r → transaction body db = (r, db).
Proof. unfold transaction. intros ->. reflexivity. Qed.

Lemma committed body db r db' :
  body db = Continue r db' → transaction body db = (r, db').
Proof. unfold transaction. intros ->. reflexivity. Qed.

(** Peel the next step off a session known to have run to its end. *)
Ltac run_next H :=
  let a := fresh "a" in
  let db := fresh "db" in
  let E := fresh "E" in
  apply run_bind in H as (a & db & E & H); cbv beta in H.

Ltac run_simpl :=
  repeat match goal with
  | H : check _ _ _ = Continue _ _ |- _ =>
      apply run_check in H as [H ->]
  | H : found _ _ _ = Continue _ _ |- _ =>
      apply run_found in H as [H ->]
  | H : read _ _ = Continue _ _ |- _ =>
      apply run_read in H as [-> ->]
  | H : write _ _ = Continue _ _ |- _ =>
      apply run_write in H as ->
  | H : saveStock _ _ _ _ _ = Continue _ _ |- _ =>
      apply run_saveStock in H as [H ->]
  | H : mret _ _ = Continue _ _ |- _ =>
      apply run_mret in H as [-> ->]
  | H : abort _ _ = Continue _ _ |- _ => discriminate H
  end.

(** ** Sessions that can only fail *)

Lemma failsOnly_step {A B} (m : Tx A) (f : A → Tx B) :
  failsOnly m → (∀ a, failsOnly (f a)) → failsOnly (m ≫= f).
Proof.
  unfold failsOnly, mbind, Tx_bind. intros Hm Hf db r.
  destruct (m db) as [a db1|r1] eqn:E.
  - apply Hf.
  - intros [= <-]. eapply Hm, E.
Qed.

Lemma failsOnly_checking b status e : failsOnly (check b (Failure status e)).
Proof. intros db r. destruct b; simpl; [discriminate|intros [= <-]; reflexivity]. Qed.

Lemma failsOnly_finding {A} (o : option A) status e :
  failsOnly (found o (Failure status e)).
Proof. intros db r. destruct o; simpl; [discriminate|intros [= <-]; reflexivity]. Qed.

Lemma failsOnly_aborting {A} status e : failsOnly (@abort A (Failure status e)).
Proof. intros db r [= <-]. reflexivity. Qed.

Lemma failsOnly_reading {A} (f : DB.t → A) : failsOnly (read f).
Proof. intros db r. discriminate. Qed.

Lemma failsOnly_writing f : failsOnly (write f).
Proof. intros db r. discriminate. Qed.

Lemma failsOnly_returning {A} (a : A) : failsOnly (mret a : Tx A).
Proof. intros db r. discriminate. Qed.

Lemma failsOnly_saveStock status e id batch q :
  failsOnly (saveStock (Failure status e) id batch q).
Proof.
  unfold saveStock. apply failsOnly_step; [apply failsOnly_checking|].
  intros _. apply failsOnly_writing.
Qed.

Create HintDb refusals.
#[local] Hint Resolve failsOnly_checking failsOnly_finding failsOnly_aborting
  failsOnly_reading failsOnly_writing failsOnly_returning failsOnly_saveStock
  : refusals.

Ltac only_fails :=
  repeat first
    [ apply failsOnly_step; [|intros ?]
    | solve [auto with refusals]
    | match goal with
      | |- failsOnly (match ?x with _ => _ end) => destruct x
      | |- failsOnly (let '(_, _) := ?x in _) => destruct x
      | |- failsOnly (if ?x then _ else _) => destruct x
      end ].

Lemma is_failure r : isFailure r = true → ∃ status e, r = Failure status e.
Proof. destruct r; try discriminate. intros _. eexists _, _. reflexivity. Qed.

(** ** The item loop *)

Lemma processItems_split storeId pre post cart db :
  processItems storeId (pre ++ post) cart db
  = (processItems storeId pre cart ≫= processItems storeId post) db.
Proof.
  revert cart db. induction pre as [|item pre IH]; intros cart db; simpl.
  - reflexivity.
  - unfold mbind, Tx_bind in *.
    destruct (processItem storeId cart item db) as [cart' db'|r]; [|reflexivity].
    apply IH.
Qed.


(** The two stock guards of [processItem], reached with a well-formed
    product id, a valid quantity and a product of the store. *)
Lemma processItem_short storeId cart item db p quantity product :
  Req.product item = WellFormed p →
  saleQuantity (Req.quantity item) = Some quantity →
  DB.products db !! p = Some product →
  Product.store product = storeId →
  Num.ltb (totalAvailableStock (availableBatches p storeId db)) quantity = true →
  processItem storeId cart item db
  = Reply (shortage p (availableBatches p storeId db) quantity).
Proof.
  intros Hp Hq Hprod Hstore Hlt. unfold processItem. rewrite Hp, Hq.
  unfold mbind, Tx_bind, found, read, mret, Tx_ret. simpl.
  rewrite Hprod, Hstore, Nat.eqb_refl.
  unfold shortage. destruct (availableBatches p storeId db) as [|kv avail] eqn:E.
  - reflexivity.
  - cbn [length Nat.eqb negb check]. unfold mret, Tx_ret.
    rewrite Hlt. reflexivity.
Qed.

(** ** C3 — a stock shortage on any cart item rolls the whole sale back *)

(** C3.  When the item loop of [createSale] reaches an item (the request
    checks and every earlier item having gone through) whose product has
    less stock in its eligible batches, summed as the handler sums them
    (in doubles, in expiry order, from 0), than the item asks for, the
    handler answers with the 400 stock-shortage reply (the
    insufficient-total-stock message; the no-available-batches message when
    the product has no batch with stock at all) and the database, batches
    decremented for the earlier items included, is exactly the one the
    call started from. *)
Theorem createSale_shortage_rolls_back
    env user body db c db1 pre item post cart dbN p quantity product :
  checkRequest env user body db = Continue c db1 →
  Checked.items c = pre ++ item :: post →
  processItems (Checked.storeId c) pre Cart.empty db1 = Continue cart dbN →
  Req.product item = WellFormed p →
  saleQuantity (Req.quantity item) = Some quantity →
  DB.products dbN !! p = Some product →
  Product.store product = Checked.storeId c →
  Num.ltb (totalAvailableStock (availableBatches p (Checked.storeId c) dbN))
          quantity = true →
  createSale env user body db
  = (shortage p (availableBatches p (Checked.storeId c) dbN) quantity, db).
Proof.
  intros Hc Hitems Hpre Hp Hq Hprod Hstore Hlt.
  apply rolled_back. unfold createSaleTx.
  rewrite (run_step _ _ _ _ _ Hc). apply run_abort.
  rewrite Hitems, processItems_split, (run_step _ _ _ _ _ Hpre).
  simpl. apply run_abort.
  eapply processItem_short; eassumption.
Qed.

Lemma createSale_shortage_rolls_back_witness :
  (∃ cart dbN,
     processItems Scenario.theStore [Run.line None (Run.n 3)] Cart.empty
       (Run.withWalkIn Run.db0)
     = Continue cart dbN
     ∧ DB.batches dbN !! Scenario.idB1
       = Some (Batch.setStock Run.B1 (Run.n 2)))
  ∧ Run.sell Run.twoLines Run.db0
    = (Failure 400 (InsufficientTotalStock Scenario.P (Run.n 12) (Run.n 13)),
       Run.db0).
Proof.
  split; [eexists _, _; split; vm_compute; reflexivity|].
  etransitivity.
  - eapply (createSale_shortage_rolls_back
              Scenario.env0 Scenario.theOwner Run.twoLines Run.db0
              _ _ [Run.line None (Run.n 3)] (Run.line None (Run.n 13)) []
              _ _ Scenario.P (Run.n 13)).
    + vm_compute; reflexivity.
    + vm_compute; reflexivity.
    + vm_compute; reflexivity.
    + reflexivity.
    + vm_compute; reflexivity.
    + vm_compute; reflexivity.
    + reflexivity.
    + vm_compute; reflexivity.
  - vm_compute; reflexivity.
Defined.

(** ** The eligible batches, oldest expiry first *)








(** ** The walk over the batches *)


Lemma sameButBatches_here db : sameButBatches db db.
Proof. repeat split. Qed.

Lemma sameButBatches_then a b c :
  sameButBatches a b → sameButBatches b c → sameButBatches a c.
Proof.
  intros (H1 & H2 & H3 & H4) (H5 & H6 & H7 & H8).
  repeat split; congruence.
Qed.




(** ** C2 — first expiry, first out *)



(** The walk can fall short although the stock guard passed: with stocks
    of 0.7 and 0.3 the handler's sum is 1, a sale of one unit takes 0.7
    and 0.3, is left with 2^-54 to allocate and is answered with the 500
    reply; nothing is written. *)
Example allocation_falls_short :
  totalAvailableStock (availableBatches Scenario.P Scenario.theStore Run.dbTenths)
  = Run.n 1
  ∧ fefo (availableBatches Scenario.P Scenario.theStore Run.dbTenths) (Run.n 1)
    = [(Scenario.idB1, Run.d (7 # 10)); (Scenario.idB2, Run.d (3 # 10))]
  ∧ fefoRest (availableBatches Scenario.P Scenario.theStore Run.dbTenths) (Run.n 1)
    = Run.d (1 # 18014398509481984)
  ∧ Run.sell Run.oneUnit Run.dbTenths
    = (Failure 500 (AllocationFailed Scenario.P), Run.dbTenths).
Proof. repeat split; vm_compute; reflexivity. Qed.

(** ** What the request checks hand on *)

Lemma checkRequest_hands_on env user body db c db1 :
  checkRequest env user body db = Continue c db1 →
  Req.subtotal body = Js.Num (Checked.subtotal c)
  ∧ Req.total body = Js.Num (Checked.total c)
  ∧ Req.items body = Some (Checked.items c)
  ∧ Req.payment body = Some (Checked.payment c).
Proof.
  unfold checkRequest. intros H. do 4 run_next H.
  destruct a2 as [subtotal total]. do 2 run_next H. run_simpl. simpl.
  destruct (Req.subtotal body) as [| | |s|]; try discriminate E2.
  destruct (Req.total body) as [| | |t|]; try discriminate E2.
  assert (s = subtotal ∧ t = total) as [-> ->].
  { destruct (Req.discountPct body), (Req.tax body);
      first [discriminate E2 | injection E2 as -> ->; split; reflexivity]. }
  repeat split.
  - destruct (Req.items body) as [[|i l]|]; first [discriminate E0 | exact E0].
  - destruct (Req.payment body) as [pay|]; [|discriminate E1].
    destruct (String.eqb _ _); first [discriminate E1 | exact E1].
Qed.

(** ** Prices that are missing *)

(** A subtotal that is a number was added up from priced items only: an
    [undefined] price turns the subtotal of its line, and every sum after
    it, into NaN. *)
Lemma ofOption_number (o : option Num.t) :
  Num.isNaN (Num.ofOption o) = false → is_Some o.
Proof. destruct o; [eexists; reflexivity|discriminate]. Qed.

Lemma allocate_priced p quantity disc dflt avail st db st' db' :
  allocate p quantity disc dflt avail st db = Continue st' db' →
  Num.isNaN (Alloc.subtotalSoFar st') = false →
  Num.isNaN (Alloc.subtotalSoFar st) = false
  ∧ (Forall priced (Alloc.allocations st) → Forall priced (Alloc.allocations st')).
Proof.
  revert st db. induction avail as [|[id batch] rest IH]; intros st db H Hnum;
    simpl in H.
  - apply run_mret in H as [-> ->]. split; [exact Hnum|tauto].
  - destruct (Num.leb (Alloc.remainingToAllocate st) Num.zero).
    { apply run_mret in H as [-> ->]. split; [exact Hnum|tauto]. }
    destruct (Num.leb (Batch.currentStock batch) Num.zero); [eapply IH; eassumption|].
    run_next H. run_simpl.
    destruct (IH _ _ H Hnum) as [Hsub Hall].
    cbn [Alloc.subtotalSoFar Alloc.allocations] in Hsub, Hall.
    apply add_number in Hsub as [Hsub Hline].
    apply mul_number in Hline as [_ Hprice].
    split; [exact Hsub|]. intros Hold. apply Hall.
    apply Forall_app. split; [exact Hold|].
    constructor; [|constructor]. apply ofOption_number, Hprice.
Qed.

Lemma processItem_priced storeId cart item db cart' db' :
  processItem storeId cart item db = Continue cart' db' →
  Num.isNaN (Cart.calculatedSubtotal cart') = false →
  Num.isNaN (Cart.calculatedSubtotal cart) = false
  ∧ (Forall priced (Cart.processedItems cart)
     → Forall priced (Cart.processedItems cart')).
Proof.
  unfold processItem. intros H Hnum.
  destruct (Req.product item) as [p|]; [|inversion H].
  do 6 run_next H. run_simpl.
  destruct (Req.batch item) as [raw|].
  - unfold allocateSpecified in H. destruct raw as [b|]; [|discriminate H].
    run_next H. run_simpl.
    destruct (DB.batches db !! b) as [batch|]; [|discriminate H].
    destruct (_ && _); [|discriminate H].
    destruct (Num.ltb (Batch.currentStock batch) _); [discriminate H|].
    run_next H. run_simpl.
    cbn [Cart.calculatedSubtotal Cart.processedItems] in *.
    apply add_number in Hnum as [Hsub Hline].
    apply mul_number in Hline as [_ Hprice].
    split; [exact Hsub|]. intros Hold.
    apply Forall_app. split; [exact Hold|].
    constructor; [|constructor]. apply ofOption_number, Hprice.
  - apply run_bind in H as (st & dbA & Ealloc & H). run_next H. run_simpl.
    cbn [Cart.calculatedSubtotal Cart.processedItems] in *.
    apply allocate_priced in Ealloc as [Hsub Hall]; [|exact Hnum].
    split; [exact Hsub|]. intros Hold.
    apply Forall_app. split; [exact Hold|]. apply Hall. constructor.
Qed.

Lemma processItems_priced storeId items cart db cart' db' :
  processItems storeId items cart db = Continue cart' db' →
  Num.isNaN (Cart.calculatedSubtotal cart') = false →
  Forall priced (Cart.processedItems cart) →
  Forall priced (Cart.processedItems cart').
Proof.
  revert cart db. induction items as [|item rest IH]; intros cart db H Hnum Hold;
    simpl in H.
  - apply run_mret in H as [-> ->]. exact Hold.
  - run_next H. eapply IH; [exact H|exact Hnum|].
    assert (Hmid : Num.isNaN (Cart.calculatedSubtotal a) = false).
    { clear -H Hnum. revert a db0 H.
      induction rest as [|item' rest IH]; intros a db0 H; simpl in H.
      - apply run_mret in H as [-> ->]. exact Hnum.
      - run_next H. apply IH in H.
        eapply processItem_priced; eassumption. }
    eapply processItem_priced; eassumption.
Qed.

(** Two amounts more than 0.01 apart are numbers. *)
Lemma apart_number x y :
  Num.gtb (Num.abs (Num.sub x y)) (Num.ofQ (1 # 100)) = true →
  Num.isNaN x = false.
Proof.
  intros H. apply ltb_number in H as [_ H].
  apply abs_number, sub_number in H as [H _]. exact H.
Qed.

Lemma calculatedTotal_number pct tax cart :
  Num.isNaN (calculatedTotal pct tax cart) = false →
  Num.isNaN (Cart.calculatedSubtotal cart) = false.
Proof.
  unfold calculatedTotal. intros H.
  apply add_number in H as [H _]. apply sub_number in H as [H _]. exact H.
Qed.

(** ** The cart discount, distributed *)

Lemma distribute_discounted pct cart :
  distribute pct cart
  = map (λ item, Line.setDiscount item (discounted pct cart item))
        (Cart.processedItems cart).
Proof.
  unfold distribute, discounted, cartShare, withCartShare, cartDiscountAmount.
  destruct (Num.gtb pct Num.zero); [reflexivity|].
  induction (Cart.processedItems cart) as [|[] l IH]; simpl; [reflexivity|].
  f_equal. exact IH.
Qed.

Lemma recalculation_reports pct tax subtotal total cart :
  Forall priced (Cart.processedItems cart) →
  ∃ r,
    recalculation pct tax subtotal total cart = Some r
    ∧ Recalc.subtotal r = Num.toFixed2 (Cart.calculatedSubtotal cart)
    ∧ Recalc.discountPercentage r = pct
    ∧ Recalc.discountAmount r
      = Num.toFixed2 (calculatedDiscountAmount pct cart)
    ∧ Recalc.tax r = tax
    ∧ Recalc.total r = Num.toFixed2 (calculatedTotal pct tax cart)
    ∧ Forall2 (reports pct cart) (Cart.processedItems cart) (Recalc.items r)
    ∧ Recalc.originalSubtotal r = subtotal
    ∧ Recalc.originalTotal r = total.
Proof.
  intros Hpriced. unfold recalculation. rewrite distribute_discounted.
  assert (Hitems : ∃ items,
    mapM recalcLine
      (map (λ item, Line.setDiscount item (discounted pct cart item))
           (Cart.processedItems cart)) = Some items
    ∧ Forall2 (reports pct cart) (Cart.processedItems cart) items).
  { induction Hpriced as [|item l [u Hu] _ (items & Hmap & Hall)].
    - exists []. split; [reflexivity|constructor].
    - eexists (_ :: items). split.
      + cbn [map]. rewrite mapM_Some. constructor; [|apply mapM_Some, Hmap].
        unfold recalcLine. cbn [Line.unitPrice Line.setDiscount].
        rewrite Hu. reflexivity.
      + constructor; [|exact Hall].
        unfold reports. simpl. rewrite Hu. repeat split. }
  destruct Hitems as (items & -> & Hall).
  eexists. split; [reflexivity|]. repeat split. exact Hall.
Qed.

(** ** C5 — a price discrepancy without [forceCreate] commits nothing *)

(** C5.  When the request checks and every item go through, [forceCreate]
    is false and the computed subtotal or the computed total (subtotal -
    discount amount + tax) is more than 0.01 away from the submitted one
    ([Math.abs(calculated - submitted) > 0.01], all in doubles),
    [createSale] answers with the recalculation reply (status 200, not a
    failure).  The reply carries the recalculated subtotal, discount amount
    and total to two decimals, the percentage and the tax, one entry per
    processed item with its product, batch and quantity and its unit
    price, subtotal and discount (the share of the cart discount included)
    to two decimals, and the submitted subtotal and total; the database is
    the one the call started from: no sale, no decremented batch, no new
    walk-in customer. *)
Theorem createSale_recalculation env user body db c db1 cart dbN :
  checkRequest env user body db = Continue c db1 →
  processItems (Checked.storeId c) (Checked.items c) Cart.empty db1
  = Continue cart dbN →
  Req.forceCreate body = false →
  let pct := Js.numOrZero (Req.discountPct body) in
  let tax := Js.numOrZero (Req.tax body) in
  let total :=
    Num.add (Num.sub (Cart.calculatedSubtotal cart)
                     (calculatedDiscountAmount pct cart)) tax in
  Num.gtb (Num.abs (Num.sub (Cart.calculatedSubtotal cart) (Checked.subtotal c)))
          (Num.ofQ (1 # 100)) = true
  ∨ Num.gtb (Num.abs (Num.sub total (Checked.total c))) (Num.ofQ (1 # 100))
    = true →
  ∃ r,
    createSale env user body db = (Recalculation r, db)
    ∧ isFailure (Recalculation r) = false
    ∧ Recalc.subtotal r = Num.toFixed2 (Cart.calculatedSubtotal cart)
    ∧ Recalc.discountPercentage r = pct
    ∧ Recalc.discountAmount r
      = Num.toFixed2 (calculatedDiscountAmount pct cart)
    ∧ Recalc.tax r = tax
    ∧ Recalc.total r = Num.toFixed2 total
    ∧ Forall2 (reports pct cart) (Cart.processedItems cart) (Recalc.items r)
    ∧ Req.subtotal body = Js.Num (Recalc.originalSubtotal r)
    ∧ Req.total body = Js.Num (Recalc.originalTotal r).
Proof.
  intros Hc Hitems Hforce pct tax total Hdiff.
  destruct (checkRequest_hands_on _ _ _ _ _ _ Hc) as (Hsub & Htot & _ & _).
  assert (Hnum : Num.isNaN (Cart.calculatedSubtotal cart) = false).
  { destruct Hdiff as [H|H]; apply apart_number in H; [exact H|].
    eapply calculatedTotal_number, H. }
  assert (Hpriced : Forall priced (Cart.processedItems cart)).
  { eapply processItems_priced; [exact Hitems|exact Hnum|constructor]. }
  destruct (recalculation_reports pct tax (Checked.subtotal c) (Checked.total c)
              cart Hpriced)
    as (r & Hr & H1 & H2 & H3 & H4 & H5 & H6 & H7 & H8).
  exists r. split; [|rewrite H7, H8; repeat split; assumption].
  apply rolled_back. unfold createSaleTx.
  rewrite (run_step _ _ _ _ _ Hc), (run_step _ _ _ _ _ Hitems).
  unfold settle. rewrite Hforce. fold pct tax. cbn [negb].
  rewrite andb_true_r, Hr.
  replace (_ || _) with true; [reflexivity|].
  symmetry. apply orb_true_iff.
  destruct Hdiff as [H|H]; [left|right]; exact H.
Qed.

Lemma createSale_recalculation_witness :
  ∃ r,
    Run.sell Run.threeDimes Run.dbDime = (Recalculation r, Run.dbDime)
    ∧ Recalc.subtotal r = Run.d (3 # 10)
    ∧ Recalc.total r = Run.d (3 # 10)
    ∧ Recalc.originalSubtotal r = Run.d (29 # 100)
    ∧ Recalc.originalTotal r = Run.d (29 # 100).
Proof.
  destruct (createSale_recalculation
              Scenario.env0 Scenario.theOwner Run.threeDimes Run.dbDime
              (Run.checked [Run.line None (Run.n 3)] (Run.d (29 # 100))
                           (Run.d (29 # 100)))
              (Run.withWalkIn Run.dbDime)
              (Cart.mk [Line.mk Scenario.P Scenario.idB1 (Run.n 3)
                                (Some (Run.d (1 # 10)))
                                (Num.mul (Run.n 3) (Run.d (1 # 10))) Num.zero]
                       (Num.add Num.zero (Num.mul (Run.n 3) (Run.d (1 # 10))))
                       (Num.add Num.zero Num.zero))
              (DB.setBatches (Run.withWalkIn Run.dbDime)
                 (<[Scenario.idB1 := Batch.setStock Run.dime (Run.n 7)]>
                    (DB.batches Run.dbDime))))
    as (r & Hr & _ & Hs & _ & _ & _ & Ht & _ & Hos & Hot).
  - vm_compute; reflexivity.
  - vm_compute; reflexivity.
  - reflexivity.
  - left. vm_compute; reflexivity.
  - exists r. split; [exact Hr|].
    injection Hos as Hos. injection Hot as Hot.
    rewrite Hs, Ht, <- Hos, <- Hot. repeat split; vm_compute; reflexivity.
Defined.

(** Three units at 0.1 come to 0.30000000000000004 in doubles, which is
    more than 0.01 above a submitted 0.29: the handler recalculates. *)
Example three_dimes_recalculated :
  Num.mul (Run.n 3) (Run.d (1 # 10)) = Run.d (30000000000000004 # 100000000000000000)
  ∧ Js.discrepancy (Num.mul (Run.n 3) (Run.d (1 # 10))) (Run.d (29 # 100)) = true
  ∧ ∃ r, (Run.sell Run.threeDimes Run.dbDime).1 = Recalculation r.
Proof.
  split; [vm_compute; reflexivity|]. split; [vm_compute; reflexivity|].
  eexists. vm_compute. reflexivity.
Qed.

(** ** What [new Sale] keeps and [save] validates *)

Lemma castNumber_Some x y : castNumber x = Some y → y = x ∧ Num.isNaN x = false.
Proof.
  unfold castNumber. destruct (Num.isNaN x); [discriminate|].
  intros [= <-]. split; reflexivity.
Qed.

Lemma newItem_Some l it :
  newItem l = Some it → storedWith (Line.discount l) l it.
Proof.
  unfold newItem. intros H.
  destruct (castNumber (Line.quantity l)) as [q|] eqn:Eq; [|discriminate H].
  destruct (Line.unitPrice l) as [u|] eqn:Eu; [|discriminate H].
  cbn in H.
  destruct (castNumber u) as [u'|] eqn:Eu'; [|discriminate H].
  destruct (castNumber (Line.discount l)) as [d|] eqn:Ed; [|discriminate H].
  destruct (castNumber (Line.subtotal l)) as [s|] eqn:Es; [|discriminate H].
  cbn in H. injection H as <-.
  apply castNumber_Some in Eq as [-> _], Eu' as [-> _], Ed as [-> _], Es as [-> _].
  repeat split. exact Eu.
Qed.

Lemma newSale_Some init sale :
  newSale init = Some sale →
  Forall2 (λ l it, storedWith (Line.discount l) l it)
          (SaleInit.items init) (Sale.items sale)
  ∧ Sale.store sale = SaleInit.store init
  ∧ Sale.invoiceNumber sale = SaleInit.invoiceNumber init
  ∧ Sale.customer sale = SaleInit.customer init
  ∧ Sale.subtotal sale = SaleInit.subtotal init
  ∧ Sale.discount sale = SaleInit.discount init
  ∧ Sale.tax sale = SaleInit.tax init
  ∧ Sale.total sale = SaleInit.total init
  ∧ Sale.returnTotal sale = Num.zero
  ∧ Sale.finalTotal sale = SaleInit.finalTotal init
  ∧ newPayment (SaleInit.payment init) = Some (Sale.payment sale)
  ∧ Sale.staffMember sale = SaleInit.staffMember init
  ∧ Sale.returns sale = []
  ∧ Sale.createdAt sale = SaleInit.createdAt init.
Proof.
  unfold newSale. intros H.
  destruct (mapM newItem (SaleInit.items init)) as [items|] eqn:Ei; [|discriminate H].
  destruct (castNumber (SaleInit.subtotal init)) as [s|] eqn:Es; [|discriminate H].
  destruct (castNumber (SaleInit.discount init)) as [d|] eqn:Ed; [|discriminate H].
  destruct (castNumber (SaleInit.tax init)) as [x|] eqn:Ex; [|discriminate H].
  destruct (castNumber (SaleInit.total init)) as [t|] eqn:Et; [|discriminate H].
  destruct (castNumber (SaleInit.finalTotal init)) as [f|] eqn:Ef; [|discriminate H].
  destruct (newPayment (SaleInit.payment init)) as [pay|] eqn:Ep; [|discriminate H].
  cbn in H. injection H as <-.
  apply castNumber_Some in Es as [-> _], Ed as [-> _], Ex as [-> _],
    Et as [-> _], Ef as [-> _].
  cbn. repeat split.
  apply mapM_Some in Ei. eapply Forall2_impl; [exact Ei|].
  intros l it. apply newItem_Some.
Qed.

(** ** C6 — what a forced sale stores *)

(** C6, as the code has it.  With [forceCreate] set, once the request
    checks and the items have gone through, the document validates and the
    invoice number is free, [createSale] stores a sale whose subtotal and
    total are the server-computed subtotal and
    subtotal - discount amount + tax, each passed through
    [parseFloat(x.toFixed(2))], and hands the Sale constructor the
    server-computed discount amount (the item discounts plus, for a
    percentage above zero, subtotal * percentage / 100) rounded the same
    way, whatever subtotal and total the client submitted; every stored
    item is the processed item, carrying on top of its own discount the
    cart discount times its share of the subtotal. *)
Theorem createSale_forced env user body db c db1 cart dbN sale :
  checkRequest env user body db = Continue c db1 →
  processItems (Checked.storeId c) (Checked.items c) Cart.empty db1
  = Continue cart dbN →
  Req.forceCreate body = true →
  let pct := Js.numOrZero (Req.discountPct body) in
  let tax := Js.numOrZero (Req.tax body) in
  let init := saleInit env user (Checked.storeId c) (Checked.customerId c) true
                       pct tax (Checked.subtotal c) (Checked.total c)
                       (Checked.payment c) cart in
  let discountAmount :=
    if Num.gtb pct Num.zero
    then Num.add (Cart.totalItemDiscount cart)
                 (Num.div (Num.mul (Cart.calculatedSubtotal cart) pct)
                          (Num.ofZ 100))
    else Cart.totalItemDiscount cart in
  newSale init = Some sale →
  invoiceTaken (Env.stamp env, Env.random env) dbN = false →
  createSale env user body db
  = (SaleCreated (Env.freshSale env) sale,
     DB.setSales dbN (<[Env.freshSale env := sale]> (DB.sales dbN)))
  ∧ Sale.subtotal sale = Num.toFixed2 (Cart.calculatedSubtotal cart)
  ∧ SaleInit.discountAmount init = Num.toFixed2 discountAmount
  ∧ Sale.total sale
    = Num.toFixed2 (Num.add (Num.sub (Cart.calculatedSubtotal cart)
                                     discountAmount) tax)
  ∧ Sale.finalTotal sale = Sale.total sale
  ∧ (∀ subtotal' total',
       saleInit env user (Checked.storeId c) (Checked.customerId c) true
                pct tax subtotal' total' (Checked.payment c) cart
       = init)
  ∧ Forall2 (sharedOut pct cart) (Cart.processedItems cart) (Sale.items sale).
Proof.
  intros Hc Hitems Hforce pct tax init discountAmount Hnew Hfree.
  split.
  { apply committed. unfold createSaleTx.
    rewrite (run_step _ _ _ _ _ Hc), (run_step _ _ _ _ _ Hitems).
    unfold settle. rewrite Hforce, andb_false_r. fold pct tax. fold init.
    rewrite Hnew. unfold found, check, mbind, Tx_bind, mret, Tx_ret, read, write.
    change (SaleInit.invoiceNumber init) with (Env.stamp env, Env.random env).
    rewrite Hfree. reflexivity. }
  apply newSale_Some in Hnew
    as (Hall & _ & _ & _ & Hs & _ & _ & Ht & _ & Hf & _).
  assert (Hd : calculatedDiscountAmount pct cart = discountAmount).
  { unfold calculatedDiscountAmount, cartDiscountAmount, discountAmount.
    destruct (Num.gtb pct Num.zero); reflexivity. }
  rewrite Hs, Ht, Hf. subst init. cbn [saleInit SaleInit.subtotal SaleInit.total
    SaleInit.finalTotal SaleInit.discountAmount]. unfold calculatedTotal.
  rewrite Hd. repeat split.
  cbn [saleInit SaleInit.items] in Hall. rewrite distribute_discounted in Hall.
  apply Forall2_fmap_l in Hall. eapply Forall2_impl; [exact Hall|].
  intros l it H. exact H.
Qed.

Lemma createSale_forced_witness :
  ∃ s db',
    Run.sell Run.forced Run.dbCheap = (SaleCreated 200 s, db')
    ∧ Sale.subtotal s = Run.d (999 # 100)
    ∧ Sale.total s = Run.d (849 # 100)
    ∧ Forall (λ it, SaleItem.discount it = Run.d (14985 # 10000)) (Sale.items s).
Proof.
  destruct (createSale_forced
              Scenario.env0 Scenario.theOwner Run.forced Run.dbCheap
              (Run.checked [Run.line None (Run.n 1)] (Run.n 0) (Run.n 0))
              (Run.withWalkIn Run.dbCheap)
              (Cart.mk [Line.mk Scenario.P Scenario.idB1 (Run.n 1)
                                (Some (Run.d (999 # 100)))
                                (Num.mul (Run.n 1) (Run.d (999 # 100))) Num.zero]
                       (Num.add Num.zero (Num.mul (Run.n 1) (Run.d (999 # 100))))
                       (Num.add Num.zero Num.zero))
              (DB.setBatches (Run.withWalkIn Run.dbCheap)
                 (<[Scenario.idB1 := Batch.setStock Run.cheap (Run.n 9)]>
                    (DB.batches Run.dbCheap)))
              (Sale.mk Scenario.theStore (0%Z, 42%nat) 100
                 [SaleItem.mk Scenario.P Scenario.idB1 (Run.n 1)
                    (Run.d (999 # 100)) (Run.d (14985 # 10000))
                    (Run.d (999 # 100)) Num.zero]
                 (Run.d (999 # 100)) (Run.n 15) Num.zero (Run.d (849 # 100))
                 Num.zero (Run.d (849 # 100))
                 (Payment.mk "cash" (Some "pending"%string)) 7 [] 0))
    as (Hr & Hs & _ & Ht & _ & _ & _).
  - vm_compute; reflexivity.
  - vm_compute; reflexivity.
  - reflexivity.
  - vm_compute; reflexivity.
  - vm_compute; reflexivity.
  - eexists _, _. split; [exact Hr|].
    split; [vm_compute; reflexivity|]. split; [vm_compute; reflexivity|].
    repeat constructor.
Defined.

(** C6 as stated fails: one unit at 9.99 with a 15 % cart discount is
    computed at 8.4915, and the forced sale stores 8.49. *)
Lemma forced_sale_stores_rounded_total :
  ∃ cart dbN s db',
    processItems Scenario.theStore [Run.line None (Run.n 1)] Cart.empty
      (Run.withWalkIn Run.dbCheap) = Continue cart dbN
    ∧ Run.sell Run.forced Run.dbCheap = (SaleCreated 200 s, db')
    ∧ calculatedTotal (Run.n 15) Num.zero cart = Run.d (84915 # 10000)
    ∧ Sale.total s = Run.d (849 # 100)
    ∧ Sale.total s ≠ calculatedTotal (Run.n 15) Num.zero cart.
Proof.
  eexists _, _, _, _. split; [vm_compute; reflexivity|].
  split; [vm_compute; reflexivity|].
  split; [vm_compute; reflexivity|].
  split; [vm_compute; reflexivity|].
  vm_compute. discriminate.
Qed.

(** What is rounded is the double the handler computed: 0.5 less 1 % is
    the double nearest to 0.495, which lies just below it, and the forced
    sale stores 0.49. *)
Example forced_sale_rounds_the_double :
  ∃ s db',
    Run.sell Run.forcedHalf Run.dbHalf = (SaleCreated 200 s, db')
    ∧ Sale.subtotal s = Run.d (1 # 2)
    ∧ Sale.total s = Run.d (49 # 100)
    ∧ Num.sub (Run.d (1 # 2)) (Run.d (5 # 1000)) = Run.d (495 # 1000)
    ∧ Num.toFixed2 (Run.d (495 # 1000)) = Run.d (49 # 100).
Proof.
  eexists _, _. split; [vm_compute; reflexivity|].
  repeat split; vm_compute; reflexivity.
Qed.

(** ** The return loop *)

Lemma findItem_at p b items i it :
  findItem p b items = Some (i, it) →
  items !! i = Some it ∧ SaleItem.product it = p ∧ SaleItem.batch it = b.
Proof.
  unfold findItem. intros H. apply list_find_Some in H as (Hi & [Hp Hb] & _).
  repeat split; assumption.
Qed.

(** When a return line is accepted, and what it then does. *)
Lemma returnLine_iff st p b q db st' db' :
  returnLine st (p, b, q) db = Continue st' db'
  ↔ ∃ i it batch product,
      findItem p b (Ret.items st) = Some (i, it)
      ∧ exceedsPurchased it q = false
      ∧ alreadyReturned it q = false
      ∧ DB.batches db !! b = Some batch
      ∧ Num.isNaN (Num.add (Batch.currentStock batch) q) = false
      ∧ DB.products db !! p = Some product
      ∧ db' = DB.setBatches db
                (<[b := Batch.setStock batch
                          (Num.add (Batch.currentStock batch) q)]>
                   (DB.batches db))
      ∧ st' = Ret.mk
                (<[i := SaleItem.setReturned it (returnedAfter it q)]>
                   (Ret.items st))
                (Ret.returnSummary st ++
                   [RefundLine.mk p b q (SaleItem.unitPrice it)
                      (discountPerUnit it) (effectiveUnitPrice it)
                      (itemRefundAmount it q)])
                (Num.add (Ret.totalRefundAmount st) (itemRefundAmount it q)).
Proof.
  unfold returnLine. split.
  - intros H.
    apply run_bind in H as ([i it] & d0 & Hf & H). cbv beta iota in H.
    apply run_bind in H as (? & d1 & H1 & H).
    apply run_bind in H as (? & d2 & H2 & H).
    apply run_bind in H as (doc & d3 & Hdoc & H).
    apply run_bind in H as (batch & d4 & Hb & H).
    apply run_bind in H as (? & d5 & Hsave & H).
    apply run_bind in H as (pdoc & d6 & Hpdoc & H).
    apply run_bind in H as (product & d7 & Hp & H).
    run_simpl. apply negb_true_iff in H1, H2.
    exists i, it, batch, product. cbn [DB.products DB.setBatches] in Hp.
    repeat split; assumption.
  - intros (i & it & batch & product & Hf & H1 & H2 & Hb & Hnum & Hp & -> & ->).
    erewrite run_step by (rewrite Hf; reflexivity). cbv beta iota.
    erewrite run_step by (rewrite H1; reflexivity). cbv beta.
    erewrite run_step by (rewrite H2; reflexivity). cbv beta.
    erewrite run_step by reflexivity. cbv beta.
    erewrite run_step by (rewrite Hb; reflexivity). cbv beta.
    erewrite run_step with (a := tt)
      by (apply run_saveStock; split; [exact Hnum|reflexivity]).
    cbv beta.
    erewrite run_step by reflexivity. cbv beta.
    cbn [DB.products DB.setBatches].
    erewrite run_step by (rewrite Hp; reflexivity). cbv beta.
    reflexivity.
Qed.

Lemma returnLines_split pre post st db :
  returnLines (pre ++ post) st db
  = (returnLines pre st ≫= returnLines post) db.
Proof.
  revert st db. induction pre as [|line pre IH]; intros st db; simpl.
  - reflexivity.
  - unfold mbind, Tx_bind in *.
    destruct (returnLine st line db) as [st1 db1|r]; [|reflexivity].
    apply IH.
Qed.

Lemma refusals_returnLine st line : failsOnly (returnLine st line).
Proof.
  destruct line as [[p b] q]. unfold returnLine, returnFailed. only_fails.
Qed.

Lemma refusals_returnLines lines st : failsOnly (returnLines lines st).
Proof.
  revert st. induction lines as [|line rest IH]; intros st; simpl.
  - apply failsOnly_returning.
  - apply failsOnly_step; [apply refusals_returnLine|exact IH].
Qed.

Lemma refusals_returnProductsTx env user body :
  failsOnly (returnProductsTx env user body).
Proof.
  unfold returnProductsTx, returnFailed. only_fails. apply refusals_returnLines.
Qed.

(** ** The lines of a return request *)



(** ** A return request as a whole *)

(** When a return runs to its end, and what it then answers and stores. *)
Lemma returnProductsTx_iff env user body db r db' :
  returnProductsTx env user body db = Continue r db'
  ↔ ∃ id sale storeDoc raw lines st dbL,
      Req.returnValidationErrors body = false
      ∧ Req.saleId body = WellFormed id
      ∧ Req.storeId body ≠ Some Malformed
      ∧ Req.returnedItems body = Some raw
      ∧ raw ≠ []
      ∧ validateLines raw = inr lines
      ∧ DB.sales db !! id = Some sale
      ∧ (∀ s, Req.storeId body = Some (WellFormed s) → Sale.store sale = s)
      ∧ DB.stores db !! Sale.store sale = Some storeDoc
      ∧ mayReturn user storeDoc = true
      ∧ Num.gtb (daysDifference (Env.now env) (Sale.createdAt sale))
                RETURN_WINDOW_DAYS = false
      ∧ returnLines lines (Ret.mk (Sale.items sale) [] Num.zero) db
        = Continue st dbL
      ∧ saleSaves (returnedSale env user sale lines (Req.reason body) st) = true
      ∧ db' = DB.setSales dbL
                (<[id := returnedSale env user sale lines (Req.reason body) st]>
                   (DB.sales dbL))
      ∧ r = ProductsReturned
              (Refund.mk (Ret.returnSummary st) (Ret.totalRefundAmount st)
                 (Sale.finalTotal
                    (returnedSale env user sale lines (Req.reason body) st))).
Proof.
  unfold returnProductsTx. split.
  - intros H.
    apply run_bind in H as (? & d0 & Evalid & H).
    apply run_bind in H as (id & d1 & Eid & H).
    apply run_bind in H as (filter & d2 & Efilter & H).
    apply run_bind in H as (raw & d3 & Eraw & H).
    apply run_bind in H as (lines & d4 & Elines & H).
    apply run_bind in H as (doc & d5 & Edoc & H).
    apply run_bind in H as (sale & d6 & Esale & H).
    apply run_bind in H as (sdoc & d7 & Esdoc & H).
    apply run_bind in H as (storeDoc & d8 & Estore & H).
    apply run_bind in H as (? & d9 & Eauth & H).
    apply run_bind in H as (? & d10 & Ewindow & H).
    apply run_bind in H as (st & dbL & Eloop & H).
    apply run_bind in H as (? & d11 & Esave & H).
    apply run_bind in H as (? & d12 & Ewrite & H).
    run_simpl.
    assert (d2 = db ∧ Req.storeId body ≠ Some Malformed
            ∧ filter = (Req.storeId body ≫= λ raw,
                          match raw with WellFormed s => Some s | Malformed => None end))
      as (-> & Hfilter & ->).
    { destruct (Req.storeId body) as [[s|]|]; try discriminate Efilter;
        apply run_mret in Efilter as [-> ->]; repeat split; discriminate. }
    assert (d4 = db ∧ validateLines raw = inr lines) as [-> Hval].
    { destruct (validateLines raw); [discriminate Elines|].
      apply run_mret in Elines as [-> ->]. split; reflexivity. }
    exists id, sale, storeDoc, raw, lines, st, dbL.
    apply negb_true_iff in Ewindow, Evalid.
    assert (Hid : Req.saleId body = WellFormed id)
      by (destruct (Req.saleId body); [injection Eid as ->; reflexivity|discriminate Eid]).
    assert (Hraw : Req.returnedItems body = Some raw ∧ raw ≠ []).
    { destruct (Req.returnedItems body) as [[|? ?]|];
        first [discriminate Eraw | injection Eraw as <-; split; [reflexivity|discriminate]]. }
    destruct Hraw as [Hraw Hne].
    assert (Hsale : DB.sales db !! id = Some sale
                    ∧ ∀ s, Req.storeId body = Some (WellFormed s) → Sale.store sale = s).
    { destruct (DB.sales db !! id) as [s0|];
        [|destruct (Req.storeId body) as [[?|]|]; discriminate Esale].
      destruct (Req.storeId body) as [[f|]|]; simpl in Esale.
      - destruct (Nat.eqb_spec (Sale.store s0) f); [|discriminate Esale].
        injection Esale as <-. split; [reflexivity|]. intros s [= <-]. assumption.
      - congruence.
      - injection Esale as <-. split; [reflexivity|]. intros s. discriminate. }
    destruct Hsale as [Hsale Hstore].
    repeat split; assumption.
  - intros (id & sale & storeDoc & raw & lines & st & dbL
            & Hvalid & Hid & Hfilter & Hraw & Hne & Hval & Hsale & Hstore
            & Hsdoc & Hauth & Hwin & Hloop & Hsave & -> & ->).
    erewrite run_step by (rewrite Hvalid; reflexivity). cbv beta.
    erewrite run_step by (rewrite Hid; reflexivity). cbv beta.
    erewrite run_step
      with (a := Req.storeId body ≫= λ raw,
                   match raw with WellFormed s => Some s | Malformed => None end)
           (db1 := db)
      by (destruct (Req.storeId body) as [[s|]|]; [reflexivity|congruence|reflexivity]).
    cbv beta.
    erewrite run_step
      by (rewrite Hraw; destruct raw; [congruence|reflexivity]).
    cbv beta.
    erewrite run_step by (rewrite Hval; reflexivity). cbv beta.
    erewrite run_step by reflexivity. cbv beta.
    erewrite run_step with (a := sale) (db1 := db).
    2:{ rewrite Hsale. destruct (Req.storeId body) as [[s|]|] eqn:Es; simpl.
        - rewrite (Hstore s eq_refl), Nat.eqb_refl. reflexivity.
        - congruence.
        - reflexivity. }
    cbv beta.
    erewrite run_step by reflexivity. cbv beta.
    erewrite run_step by (rewrite Hsdoc; reflexivity). cbv beta.
    erewrite run_step by (rewrite Hauth; reflexivity). cbv beta.
    erewrite run_step by (rewrite Hwin; reflexivity). cbv beta.
    erewrite run_step by exact Hloop. cbv beta.
    erewrite run_step by (rewrite Hsave; reflexivity). cbv beta.
    reflexivity.
Qed.


(** ** The two guards on a returned quantity *)

Lemma compare_zero_add y q s :
  SFcompare y (Num.add (S754_zero s) q) = SFcompare y q.
Proof.
  destruct q as [sq|sq| |sq mq eq]; try reflexivity.
  destruct s, sq, y; reflexivity.
Qed.

(** A quantity that, added to what the item has returned, exceeds what
    was bought trips one of the two guards. *)
Lemma over_return_refused it q :
  Num.gtb (Num.add (SaleItem.returnedQuantity it) q) (SaleItem.quantity it)
  = true →
  exceedsPurchased it q || alreadyReturned it q = true.
Proof.
  unfold exceedsPurchased, alreadyReturned, Num.gtb, Num.ltb, SFltb.
  destruct (SaleItem.returnedQuantity it) as [s|s| |s m e] eqn:Er.
  - rewrite compare_zero_add. intros ->. reflexivity.
  - intros ->. apply orb_true_r.
  - destruct (SaleItem.quantity it); discriminate.
  - intros ->. apply orb_true_r.
Qed.

(** Past the two guards, what the item has returned stays within what
    was bought. *)
Lemma accepted_bounded it q :
  Num.isNaN (SaleItem.quantity it) = false →
  exceedsPurchased it q = false →
  alreadyReturned it q = false →
  Num.isNaN (returnedAfter it q) = false →
  Num.leb (returnedAfter it q) (SaleItem.quantity it) = true.
Proof.
  unfold exceedsPurchased, alreadyReturned, returnedAfter, Js.orZero.
  intros Hquantity H1 H2 Hnum.
  destruct (Num.truthy (SaleItem.returnedQuantity it)).
  - apply ltb_false_leb; assumption.
  - unfold Num.zero in *. rewrite add_zero_number in Hnum.
    unfold Num.leb, SFleb. rewrite compare_add_zero.
    apply ltb_false_leb; assumption.
Qed.

(** What the return loop keeps of every item: a bought quantity that is
    a number, and a returned quantity within it unless it is NaN. *)
Lemma returnLines_bounded lines st db st' db' :
  Forall (λ it, Num.isNaN (SaleItem.quantity it) = false
                ∧ (Num.isNaN (SaleItem.returnedQuantity it) = false → bounded it))
         (Ret.items st) →
  returnLines lines st db = Continue st' db' →
  Forall (λ it, Num.isNaN (SaleItem.quantity it) = false
                ∧ (Num.isNaN (SaleItem.returnedQuantity it) = false → bounded it))
         (Ret.items st').
Proof.
  revert st db. induction lines as [|[[p0 b0] q0] rest IH]; intros st db Hb H.
  - simpl in H. apply run_mret in H as [-> _]. exact Hb.
  - simpl in H. run_next H. apply (IH a db0); [|exact H].
    apply returnLine_iff in E
      as (i & it & _ & _ & Hf & H1 & H2 & _ & _ & _ & _ & ->).
    cbn [Ret.items]. apply Forall_insert; [exact Hb|].
    apply findItem_at in Hf as (Hi & _ & _).
    pose proof (Forall_lookup_1 _ _ _ _ Hb Hi) as [Hquantity _].
    cbn [SaleItem.setReturned SaleItem.returnedQuantity SaleItem.quantity].
    split; [exact Hquantity|]. intros Hnum. unfold bounded.
    cbn [SaleItem.setReturned SaleItem.returnedQuantity SaleItem.quantity].
    apply accepted_bounded; assumption.
Qed.

Lemma returnLines_sales lines st db st' db' :
  returnLines lines st db = Continue st' db' → sameButBatches db db'.
Proof.
  revert st db. induction lines as [|[[p b] q] rest IH]; intros st db H; simpl in H.
  - apply run_mret in H as [_ ->]. apply sameButBatches_here.
  - run_next H. eapply sameButBatches_then; [|eapply IH, H].
    apply returnLine_iff in E as (? & ? & ? & ? & _ & _ & _ & _ & _ & _ & -> & _).
    repeat split.
Qed.

Lemma returnProducts_bounded env user body db r db' :
  returnProducts env user body db = (r, db') →
  returnsBounded db → returnsBounded db'.
Proof.
  unfold returnProducts, transaction. intros H Hinv.
  destruct (returnProductsTx env user body db) as [r1 db1|r1] eqn:E;
    injection H as <- <-; [|exact Hinv].
  apply returnProductsTx_iff in E
    as (id & sale & storeDoc & raw & lines & st & dbL
        & _ & _ & _ & _ & _ & _ & Hsale & _ & _ & _ & _ & Hloop & Hsave & -> & _).
  pose proof (returnLines_sales _ _ _ _ _ Hloop) as (_ & _ & _ & Hsales).
  intros id' sale' Hlook. simpl in Hlook. rewrite Hsales in Hlook.
  destruct (decide (id' = id)) as [->|Hne].
  - rewrite lookup_insert_eq in Hlook. injection Hlook as <-.
    cbn [returnedSale Sale.items].
    eapply returnLines_bounded in Hloop.
    + unfold saleSaves in Hsave. rewrite !andb_true_iff in Hsave.
      destruct Hsave as [[[Hitems _] _] _].
      cbn [returnedSale Sale.items] in Hitems.
      rewrite forallb_forall in Hitems.
      apply Forall_forall. intros it Hit.
      rewrite Forall_forall in Hloop. apply Hloop; [exact Hit|].
      apply negb_true_iff, Hitems, list_elem_of_In, Hit.
    + cbn [Ret.items]. eapply Forall_impl; [eapply Hinv, Hsale|].
      intros it Hit. split; [|intros _; exact Hit].
      apply leb_number in Hit as [_ Hit]. exact Hit.
  - rewrite lookup_insert_ne in Hlook by congruence. eapply Hinv, Hlook.
Qed.

(** ** C7 — a return beyond what was bought is refused as a whole *)

(** C7.  If, when the return loop reaches a line, the quantity it asks
    for added to what the item it matches has returned by then (in
    doubles, [returnedQuantity + quantity]) exceeds what was bought,
    [returnProducts] answers with a failure and the database (every
    returned quantity, return total, final total and batch stock, the
    stock put back for the earlier lines included) is the one the call
    started from; and whatever the request, a database in which no item
    has more returned than bought stays so. *)
Theorem returnProducts_over_return env user body db :
  (∀ id sale raw lines pre p b q post st dbK i it,
     Req.saleId body = WellFormed id →
     DB.sales db !! id = Some sale →
     Req.returnedItems body = Some raw →
     validateLines raw = inr lines →
     lines = pre ++ (p, b, q) :: post →
     returnLines pre (Ret.mk (Sale.items sale) [] Num.zero) db
     = Continue st dbK →
     findItem p b (Ret.items st) = Some (i, it) →
     Num.gtb (Num.add (SaleItem.returnedQuantity it) q) (SaleItem.quantity it)
     = true →
     ∃ status e, returnProducts env user body db = (Failure status e, db))
  ∧ (∀ r db', returnProducts env user body db = (r, db') →
       returnsBounded db → returnsBounded db').
Proof.
  split; [|intros r db'; apply returnProducts_bounded].
  intros id sale raw lines pre p b q post st dbK i it
    Hid Hsale Hraw Hval Hlines Hpre Hf Hover.
  destruct (returnProductsTx env user body db) as [r db'|r] eqn:E.
  - exfalso. apply returnProductsTx_iff in E
      as (id' & sale' & _ & raw' & lines' & stL & dbL
          & _ & Hid' & _ & Hraw' & _ & Hval' & Hsale' & _ & _ & _ & _
          & Hloop & _).
    assert (id' = id) as -> by congruence.
    assert (sale' = sale) as -> by congruence.
    assert (raw' = raw) as -> by congruence.
    assert (lines' = lines) as -> by congruence.
    rewrite Hlines, returnLines_split, (run_step _ _ _ _ _ Hpre) in Hloop.
    simpl in Hloop. run_next Hloop.
    apply returnLine_iff in E as (i' & it' & _ & _ & Hf' & H1 & H2 & _).
    rewrite Hf in Hf'. injection Hf' as <- <-.
    apply over_return_refused in Hover. rewrite H1, H2 in Hover.
    discriminate Hover.
  - destruct (is_failure r (refusals_returnProductsTx env user body db r E))
      as (status & e & ->).
    exists status, e. apply rolled_back, E.
Qed.

Lemma returnProducts_over_return_witness :
  (∃ st dbL,
     returnLines [(Scenario.P, Scenario.idB1, Run.n 1)]
       (Ret.mk [SaleItem.mk Scenario.P Scenario.idB1 (Run.n 5) (Run.n 10)
                            Num.zero (Run.n 50) Num.zero;
                SaleItem.mk Scenario.P Scenario.idB2 (Run.n 3) (Run.n 12)
                            Num.zero (Run.n 36) (Run.n 2)] [] Num.zero)
       Run.db2 = Continue st dbL
     ∧ DB.batches dbL !! Scenario.idB1 = Some (Batch.setStock Run.B1 (Run.n 1)))
  ∧ ∃ status e,
      returnProducts (Scenario.at_ Scenario.day) Scenario.aClerk
        Run.secondReturn Run.db2
      = (Failure status e, Run.db2).
Proof.
  split; [eexists _, _; split; vm_compute; reflexivity|].
  eapply (proj1 (returnProducts_over_return
            (Scenario.at_ Scenario.day) Scenario.aClerk
            Run.secondReturn Run.db2)
            200%nat _ _ _ [(Scenario.P, Scenario.idB1, Run.n 1)]
            Scenario.P Scenario.idB2 (Run.n 2) [] _ _ 1%nat _).
  - reflexivity.
  - vm_compute; reflexivity.
  - reflexivity.
  - vm_compute; reflexivity.
  - reflexivity.
  - vm_compute; reflexivity.
  - vm_compute; reflexivity.
  - vm_compute; reflexivity.
Defined.

(** The sum that is compared is the double: to an item of which 0.5 of 1
    is back, 0.5000000000000001 more is returned, because the sum rounds
    to 1; the item then has exactly 1 returned.  And after 0.34 and 0.56
    the item has 0.9000000000000001 returned, so that 0.1 more is
    refused. *)
Example return_compares_the_double :
  (∃ r db' sale,
     Run.giveBackOn Scenario.idB1 (Run.d (5000000000000001 # 10000000000000000))
       (Run.giveBackOn Scenario.idB1 (Run.d (1 # 2)) Run.dbOne).2
     = (ProductsReturned r, db')
     ∧ DB.sales db' !! 200%nat = Some sale
     ∧ map SaleItem.returnedQuantity (Sale.items sale) = [Run.n 1])
  ∧ (∃ r db' sale,
       Run.giveBackOn Scenario.idB1 (Run.d (56 # 100))
         (Run.giveBackOn Scenario.idB1 (Run.d (34 # 100)) Run.dbOne).2
       = (ProductsReturned r, db')
       ∧ DB.sales db' !! 200%nat = Some sale
       ∧ map SaleItem.returnedQuantity (Sale.items sale)
         = [Run.d (9000000000000001 # 10000000000000000)]
       ∧ Run.giveBackOn Scenario.idB1 (Run.d (1 # 10)) db'
         = (Failure 400 (AlreadyReturned Scenario.P), db')).
Proof.
  split.
  - eexists _, _, _. split; [vm_compute; reflexivity|].
    split; vm_compute; reflexivity.
  - eexists _, _, _. split; [vm_compute; reflexivity|].
    split; [vm_compute; reflexivity|]. split; vm_compute; reflexivity.
Qed.

(** ** Stock put back on batches *)



(** ** C8 — what an accepted return does *)



(** ** C10 — return quantities need not be whole *)


